(** * Activation bot: ledger, directory and review handlers of [main.py]

    A shallow embedding of the helper functions and chat handlers of
    [src/main.py] together with the properties the specification states
    about them.

    Modelling conventions.
    - A Python [str] is a [string]; its characters are the code points
      below 256, on which [str.lower], [str.strip] and the regex class
      [\d] are written out as Python defines them. Text with other
      characters is outside the model: there [str.strip] removes further
      Unicode spaces and [\d] holds further decimal digits.
    - The two JSON files are the fields of a [Disk]; [load_json] and
      [save_json] are the only operations that touch it and each one is
      recorded in a trace, so that "no ledger call was made" is a
      statement about the trace.
    - [datetime.now()] is an input ([now]) of the functions that read the
      clock; what the sends to the review channel and to the operator
      do (return or raise) is an input ([Delivery]) of the handler that
      sends. *)

From Stdlib Require Import Ascii String NArith ZArith Bool List Lia.
From stdpp Require Import base option list strings gmap pretty.

(** ** Characters and the [str] methods the program calls *)

Module Py.

Local Open Scope N_scope.

Definition code (c : ascii) : N := N_of_ascii c.

Definition between (lo hi : N) (c : ascii) : bool :=
  (lo <=? code c) && (code c <=? hi).

Definition is_digit (c : ascii) : bool := between 48 57 c.
Definition is_upper_az (c : ascii) : bool := between 65 90 c.
Definition is_lower_az (c : ascii) : bool := between 97 122 c.
Definition is_alpha_az (c : ascii) : bool := is_upper_az c || is_lower_az c.

(** [str.isspace] on one character: TAB..CR, FS..US, space, NEL, NBSP. *)
Definition isspace (c : ascii) : bool :=
  between 9 13 c || between 28 32 c || (code c =? 133) || (code c =? 160).

(** [str.lower] on one character: A-Z and the Latin-1 capitals
    (U+00C0..U+00DE without the multiplication sign U+00D7) move up by 32. *)
Definition lower_char (c : ascii) : ascii :=
  if is_upper_az c || (between 192 222 c && negb (code c =? 215))
  then ascii_of_N (code c + 32) else c.

Fixpoint lower (s : string) : string :=
  match s with
  | EmptyString => EmptyString
  | String c s' => String (lower_char c) (lower s')
  end.

Fixpoint lstrip (s : string) : string :=
  match s with
  | EmptyString => EmptyString
  | String c s' => if isspace c then lstrip s' else s
  end.

Fixpoint rstrip (s : string) : string :=
  match s with
  | EmptyString => EmptyString
  | String c s' =>
      match rstrip s' with
      | EmptyString => if isspace c then EmptyString else String c EmptyString
      | r => String c r
      end
  end.

Definition strip (s : string) : string := rstrip (lstrip s).

(** [s.replace(old, "")] for a one-character [old]. *)
Fixpoint remove_char (old : ascii) (s : string) : string :=
  match s with
  | EmptyString => EmptyString
  | String c s' =>
      if Ascii.eqb c old then remove_char old s' else String c (remove_char old s')
  end.

(** [s.split(sep)] for a one-character [sep]: never the empty list. *)
Fixpoint split (sep : ascii) (s : string) : list string :=
  match s with
  | EmptyString => [EmptyString]
  | String c s' =>
      if Ascii.eqb c sep then EmptyString :: split sep s'
      else match split sep s' with
           | [] => [String c EmptyString]
           | p :: ps => String c p :: ps
           end
  end.

(** [s.split()[0]]: the first run of non-space characters; [None] when
    there is none and the index raises. *)
Fixpoint take_word (s : string) : string :=
  match s with
  | EmptyString => EmptyString
  | String c s' => if isspace c then EmptyString else String c (take_word s')
  end.

Definition first_word (s : string) : option string :=
  match take_word (lstrip s) with
  | EmptyString => None
  | w => Some w
  end.

(** Truthiness of a [str] and of an optional [str] argument. *)
Definition nonempty (s : string) : bool :=
  match s with EmptyString => false | _ => true end.

Definition truthy (o : option string) : bool :=
  match o with Some s => nonempty s | None => false end.

Fixpoint has_char (x : ascii) (s : string) : bool :=
  match s with
  | EmptyString => false
  | String c s' => Ascii.eqb c x || has_char x s'
  end.

Fixpoint all_chars (p : ascii -> bool) (s : string) : bool :=
  match s with
  | EmptyString => true
  | String c s' => p c && all_chars p s'
  end.

(** [s.startswith(p)]. *)
Fixpoint is_prefix (p s : string) : bool :=
  match p, s with
  | EmptyString, _ => true
  | String a p', String b s' => Ascii.eqb a b && is_prefix p' s'
  | String _ _, EmptyString => false
  end.

(** [old in s]. *)
Fixpoint contains (old s : string) : bool :=
  is_prefix old s ||
  match s with
  | EmptyString => false
  | String _ s' => contains old s'
  end.

(** [s.split(sep)] for a non-empty string [sep]: the occurrences are
    taken from the left and do not overlap; [skip] counts the characters
    of an occurrence that are still to be passed. *)
Fixpoint split_str_go (sep : string) (skip : nat) (s : string) : list string :=
  match s with
  | EmptyString => [EmptyString]
  | String c s' =>
      match skip with
      | S k => split_str_go sep k s'
      | O =>
          if is_prefix sep s
          then EmptyString :: split_str_go sep (String.length sep - 1) s'
          else match split_str_go sep 0 s' with
               | [] => [String c EmptyString]
               | p :: ps => String c p :: ps
               end
      end
  end.

Definition split_str (sep s : string) : list string := split_str_go sep 0 s.

(** [s.replace(old, "")] for a non-empty string [old]. *)
Fixpoint remove_str_go (old : string) (skip : nat) (s : string) : string :=
  match s with
  | EmptyString => EmptyString
  | String c s' =>
      match skip with
      | S k => remove_str_go old k s'
      | O =>
          if is_prefix old s
          then remove_str_go old (String.length old - 1) s'
          else String c (remove_str_go old 0 s')
      end
  end.

Definition remove_str (old s : string) : string := remove_str_go old 0 s.

(** [sep.join(parts)]. *)
Fixpoint join (sep : string) (parts : list string) : string :=
  match parts with
  | [] => EmptyString
  | [p] => p
  | p :: rest => p +:+ sep +:+ join sep rest
  end.

(** [s[:n]]. *)
Fixpoint take (n : nat) (s : string) : string :=
  match n, s with
  | S n', String c s' => String c (take n' s')
  | _, _ => EmptyString
  end.

End Py.

(** ** Regular expressions of the [re] module, matched by derivatives *)

Module Re.

Inductive regex : Type :=
| Void
| Eps
| Class (p : ascii -> bool)
| Cat (r1 r2 : regex)
| Alt (r1 r2 : regex)
| Star (r : regex).

Fixpoint nullable (r : regex) : bool :=
  match r with
  | Void => false
  | Eps => true
  | Class _ => false
  | Cat r1 r2 => nullable r1 && nullable r2
  | Alt r1 r2 => nullable r1 || nullable r2
  | Star _ => true
  end.

Fixpoint deriv (c : ascii) (r : regex) : regex :=
  match r with
  | Void => Void
  | Eps => Void
  | Class p => if p c then Eps else Void
  | Cat r1 r2 =>
      if nullable r1 then Alt (Cat (deriv c r1) r2) (deriv c r2)
      else Cat (deriv c r1) r2
  | Alt r1 r2 => Alt (deriv c r1) (deriv c r2)
  | Star r1 => Cat (deriv c r1) (Star r1)
  end.

(** [re.fullmatch(r, s)] as a truth value. *)
Fixpoint fullmatch (r : regex) (s : string) : bool :=
  match s with
  | EmptyString => nullable r
  | String c s' => fullmatch (deriv c r) s'
  end.

Definition Plus (r : regex) : regex := Cat r (Star r).

Fixpoint Times (n : nat) (r : regex) : regex :=
  match n with
  | O => Eps
  | S n' => Cat r (Times n' r)
  end.

Definition AtLeast (n : nat) (r : regex) : regex := Cat (Times n r) (Star r).

Definition Chr (x : ascii) : regex := Class (Ascii.eqb x).

Fixpoint last_char (s : string) : option ascii :=
  match s with
  | EmptyString => None
  | String c EmptyString => Some c
  | String _ s' => last_char s'
  end.

Fixpoint but_last (s : string) : string :=
  match s with
  | EmptyString => EmptyString
  | String _ EmptyString => EmptyString
  | String c s' => String c (but_last s')
  end.

(** [re.match('^' r '$', s)]: [$] also matches just before a final
    newline, so one trailing newline is tolerated. *)
Definition match_anchored (r : regex) (s : string) : bool :=
  fullmatch r s ||
  match last_char s with
  | Some c => Ascii.eqb c "010" && fullmatch r (but_last s)
  | None => false
  end.

(** The language of a regex, as a relation. *)
Inductive matches : regex -> string -> Prop :=
| MEps : matches Eps EmptyString
| MClass p c : p c = true -> matches (Class p) (String c EmptyString)
| MCat r1 r2 s1 s2 :
    matches r1 s1 -> matches r2 s2 -> matches (Cat r1 r2) (s1 +:+ s2)
| MAltL r1 r2 s : matches r1 s -> matches (Alt r1 r2) s
| MAltR r1 r2 s : matches r2 s -> matches (Alt r1 r2) s
| MStar0 r : matches (Star r) EmptyString
| MStarApp r s1 s2 :
    matches r s1 -> matches (Star r) s2 -> matches (Star r) (s1 +:+ s2).

End Re.

(** ** The record store: two JSON files and the trace of file operations *)

Module User.
Record t : Type := mk {
  email : string;
  password : string;
  name : string;
  chat_id : option Z;
  created_at : string
}.
End User.

Module Activation.
Record t : Type := mk {
  email : string;
  mobile : string;
  app : string;
  status : string;
  reason : string;
  timestamp : string;
  submission_date : string;
  message_id : option Z
}.
End Activation.

(** The clock as a function reads it, in the two formats the program
    stores ([write_activation] calls [datetime.now()] once for each). *)
Record Clock : Type := mkClock { isoformat : string; strftime : string }.

Inductive File : Type := USERS_FILE | ACTIVATIONS_FILE.

Inductive FileOp : Type := Load (f : File) | Save (f : File).

Definition records (f : File) : Type :=
  match f with
  | USERS_FILE => list User.t
  | ACTIVATIONS_FILE => list Activation.t
  end.

Record Disk : Type := mkDisk {
  users_json : list User.t;
  activations_json : list Activation.t;
  trace : list FileOp
}.

Definition IO (A : Type) : Type := Disk -> A * Disk.

Definition ret {A : Type} (a : A) : IO A := fun d => (a, d).

Definition bind {A B : Type} (m : IO A) (k : A -> IO B) : IO B :=
  fun d => let (a, d') := m d in k a d'.

#[global] Instance IO_ret : MRet IO := @ret.
#[global] Instance IO_bind : MBind IO := fun A B k m => bind m k.

Definition run {A : Type} (m : IO A) (d : Disk) : A := fst (m d).
Definition exec {A : Type} (m : IO A) (d : Disk) : Disk := snd (m d).

Definition log (op : FileOp) (d : Disk) : Disk :=
  mkDisk (users_json d) (activations_json d) (trace d ++ [op]).

Definition load_json (f : File) : IO (records f) :=
  fun d =>
    (match f return records f with
     | USERS_FILE => users_json d
     | ACTIVATIONS_FILE => activations_json d
     end, log (Load f) d).

Definition save_json (f : File) : records f -> IO unit :=
  match f return records f -> IO unit with
  | USERS_FILE => fun data d =>
      (tt, log (Save USERS_FILE) (mkDisk data (activations_json d) (trace d)))
  | ACTIVATIONS_FILE => fun data d =>
      (tt, log (Save ACTIVATIONS_FILE) (mkDisk (users_json d) data (trace d)))
  end.

(** ** Configuration *)

Definition SCREENSHOT_APPS : list string := ["mstock"; "angelone"].

Definition REJECTION_REASONS : gmap string string :=
  list_to_map
    [("77", "Incorrect Proof - Video/screenshot is incorrect, send correct recording showing process");
     ("78", "Improper Activation - Activation not done properly, send correct video");
     ("79", "Fraud Detected - Fraud detected, account not showing");
     ("80", "Wrong Device - Activation not done on user's device");
     ("81", "Late Submission - Activation completed after deadline");
     ("nt", "Non Trade Approved")].

(** [dict.get(key, default)]. *)
Definition dict_get (m : gmap string string) (key dflt : string) : string :=
  default dflt (m !! key).

(** [x in xs] for a list of strings. *)
Definition str_in (x : string) (xs : list string) : bool :=
  existsb (String.eqb x) xs.

(** Truthiness of an optional integer ([None] and [0] are falsy). *)
Definition truthy_id (o : option Z) : bool :=
  match o with Some z => negb (Z.eqb z 0) | None => false end.

(** ** Helper functions *)

(** [read_apps]: the lines of [ec_app.txt] ([None] when the file is
    missing), blank lines dropped, the rest stripped and lowered. *)
Definition read_apps (app_file : option (list string)) : list string :=
  match app_file with
  | Some lines =>
      map (fun line => Py.lower (Py.strip line))
          (List.filter (fun line => Py.nonempty (Py.strip line)) lines)
  | None => []
  end.

Record UserInfo : Type := mkInfo {
  info_name : string;
  info_password : string;
  info_chat_id : option Z
}.

Definition user_info (user : User.t) : UserInfo :=
  mkInfo (User.name user) (User.password user) (User.chat_id user).

(** The dict comprehension of [read_emails]: a later record with the
    same key replaces an earlier one. *)
Definition emails_dict (users : list User.t) : gmap string UserInfo :=
  foldl (fun m user => <[User.email user := user_info user]> m) ∅ users.

Definition read_emails : IO (gmap string UserInfo) :=
  users ← load_json USERS_FILE;
  mret (emails_dict users).

(** [if arg and field != arg: continue]. *)
Definition skips (arg : option string) (field : string) : bool :=
  match arg with
  | Some a => Py.nonempty a && negb (String.eqb field a)
  | None => false
  end.

Definition read_activations (email app mobile : option string)
  : IO (list Activation.t) :=
  activations ← load_json ACTIVATIONS_FILE;
  mret (List.filter
          (fun act =>
             negb (skips email (Activation.email act)) &&
             negb (skips app (Activation.app act)) &&
             negb (match mobile with
                   | Some m =>
                       Py.nonempty m &&
                       negb (String.eqb (Activation.mobile act)
                                        (Py.remove_char " " m))
                   | None => false
                   end))
          activations).

Definition is_duplicate (app mobile : string) : IO bool :=
  activations ← read_activations None (Some app) None;
  let mobile_clean := Py.remove_char " " mobile in
  mret (existsb
          (fun act =>
             String.eqb (Activation.mobile act) mobile_clean &&
             str_in (Activation.status act) ["pending"; "approved"])
          activations).

(** [write_activation(email, app, mobile, status="pending", reason="pending")]:
    an absent keyword argument is [None]. *)
Definition write_activation (email app mobile : string)
    (status reason : option string) (now : Clock) : IO unit :=
  activations ← load_json ACTIVATIONS_FILE;
  save_json ACTIVATIONS_FILE
    (activations ++
     [Activation.mk email (Py.remove_char " " mobile) app
        (default "pending" status) (default "pending" reason)
        (isoformat now) (strftime now) None]).

(** The test shared by the three loops that look a request up. *)
Definition same_request (email app mobile : string) (act : Activation.t) : bool :=
  String.eqb (Activation.email act) email &&
  String.eqb (Activation.app act) app &&
  String.eqb (Activation.mobile act) (Py.remove_char " " mobile).

Definition resolved (status reason : string) (now : Clock)
    (act : Activation.t) : Activation.t :=
  Activation.mk (Activation.email act) (Activation.mobile act)
    (Activation.app act) status reason (isoformat now)
    (Activation.submission_date act) (Activation.message_id act).

(** The loop of [update_activation]: the first matching record is
    changed in place and the loop breaks; [None] when no record matched
    ([updated] stays [False]). *)
Fixpoint update_first (email app mobile status reason : string) (now : Clock)
    (activations : list Activation.t) : option (list Activation.t) :=
  match activations with
  | [] => None
  | act :: rest =>
      if same_request email app mobile act
      then Some (resolved status reason now act :: rest)
      else option_map (cons act)
             (update_first email app mobile status reason now rest)
  end.

(** [update_activation(email, app, mobile, status, reason="0")]. *)
Definition update_activation (email app mobile status : string)
    (reason : option string) (now : Clock) : IO bool :=
  activations ← load_json ACTIVATIONS_FILE;
  match update_first email app mobile status (default "0" reason) now
          activations with
  | Some activations' =>
      save_json ACTIVATIONS_FILE activations';; mret true
  | None => mret false
  end.

Definition same_email (email : string) (user : User.t) : bool :=
  String.eqb (Py.lower (User.email user)) (Py.lower email).

Definition with_chat_id (chat_id : option Z) (user : User.t) : User.t :=
  User.mk (User.email user) (User.password user) (User.name user)
    chat_id (User.created_at user).

(** The inner loop of [add_user]: the first record of this email that
    has no chat id takes the supplied one, when one is supplied. *)
Fixpoint fill_chat_id (email : string) (chat_id : option Z)
    (users : list User.t) : option (list User.t) :=
  match users with
  | [] => None
  | user :: rest =>
      if same_email email user && negb (truthy_id (User.chat_id user))
         && truthy_id chat_id
      then Some (with_chat_id chat_id user :: rest)
      else option_map (cons user) (fill_chat_id email chat_id rest)
  end.

Definition add_user (email password name : string) (chat_id : option Z)
    (now : Clock) : IO (bool * string) :=
  users ← load_json USERS_FILE;
  if existsb (same_email email) users then
    match fill_chat_id email chat_id users with
    | Some users' =>
        save_json USERS_FILE users';; mret (true, "User chat_id updated")
    | None => mret (false, "User already exists")
    end
  else
    save_json USERS_FILE
      (users ++ [User.mk (Py.lower email) password name chat_id (isoformat now)]);;
    mret (true, "User added successfully").

(** ** Conversation state, session data and outbound messages *)

Inductive State : Type :=
| EMAIL | PASSWORD | MAIN_MENU | APP_SELECTION | ACTIVATION_PROOF | ADD_USER
| END.

(** The keys of [context.user_data] the handlers below read or write. *)
Module UserData.
Record t : Type := mk {
  email : option string;
  name : option string;
  selected_app : option string
}.
End UserData.

(** The fields of [update.message] read by [process_activation_proof]:
    the photo sizes (file ids), the video (file id) and the caption. *)
Record Message : Type := mkMessage {
  photo : list string;
  video : option string;
  caption : option string
}.

(** [os.getenv] of the two identities. *)
Record Env : Type := mkEnv {
  CHANNEL_ID : option string;
  ADMIN_CHAT_ID : option string
}.

(** What the two sends of the posting block do. [send_photo] /
    [send_video] to the review channel returns the sent message
    ([Delivered]) or raises; when it raises, the handler alerts the
    operator with [send_message], if an operator is configured, and that
    send either returns ([DeliveryFailed]) or raises as well
    ([AlertFailed]). *)
Inductive Delivery : Type :=
| Delivered (message_id : Z)
| DeliveryFailed
| AlertFailed.

Record Button : Type := mkButton { text : string; callback_data : string }.

Inductive MediaKind : Type := Photo | Video.

(** Texts sent to the submitting user, named by what they say. *)
Inductive Reply : Type :=
| InvalidEmailFormat
| AskPassword
| LoginSuccessful
| MainMenu (name email : string)
| InvalidEmailOrPassword
| NoAppSelected
| SendScreenshotOrVideo (app : string)
| SendVideo (app : string)
| IncludeMobileInCaption
| InvalidMobileNumber
| DuplicateActivation (app : string)
| SessionExpired
| ActivationSubmitted
| ErrorOccurred.

(** One entry of the status screen: the values placed in the text, the
    app and the status before [upper] and [capitalize]. *)
Record StatusLine : Type := mkLine {
  line_app : string;
  line_mobile : string;
  line_status : string;
  line_reason : string;
  line_date : string
}.

(** What the operator is shown after a decision. *)
Inductive Verdict : Type :=
| ApprovedActivation (email app mobile : string)
| DecidedActivation (status reason_text email app mobile : string)
| SelectReason (app : string) (keyboard : list (list Button)).

(** Everything a handler sends, in the order it sends it. Labels are
    given without their emoji. *)
Inductive Out : Type :=
| ReplyText (r : Reply)
| StatusScreen (lines : list StatusLine)
| NoActivationsFound
| ChannelMedia (kind : MediaKind) (media : string) (email app mobile : string)
    (keyboard : list (list Button))
| AdminAlert (app email : string)
| EditCaption (message_id : Z) (v : Verdict)
| EditMessage (v : Verdict)
| Answer (text : string).

(** ** User-facing handlers *)

Definition email_class (c : ascii) : bool :=
  Py.is_alpha_az c || Py.is_digit c || Py.has_char c "._%+-".

Definition domain_class (c : ascii) : bool :=
  Py.is_alpha_az c || Py.is_digit c || Py.has_char c ".-".

(** [[a-zA-Z0-9._%+-]+@[a-zA-Z0-9.-]+\.[a-zA-Z]{2,}] *)
Definition EMAIL_RE : Re.regex :=
  Re.Cat (Re.Plus (Re.Class email_class))
    (Re.Cat (Re.Chr "@")
       (Re.Cat (Re.Plus (Re.Class domain_class))
          (Re.Cat (Re.Chr ".") (Re.AtLeast 2 (Re.Class Py.is_alpha_az))))).

(** [\d{10}]. On the code points below 256 the class [\d] of a [str]
    pattern is the digits 0 to 9. *)
Definition MOBILE_RE : Re.regex := Re.Times 10 (Re.Class Py.is_digit).

Definition email_input (text : string) (ud : UserData.t)
  : State * UserData.t * list Out :=
  let email := Py.lower (Py.strip text) in
  if negb (Re.match_anchored EMAIL_RE email)
  then (EMAIL, ud, [ReplyText InvalidEmailFormat])
  else (PASSWORD,
        UserData.mk (Some email) (UserData.name ud) (UserData.selected_app ud),
        [ReplyText AskPassword]).

Definition main_menu (ud : UserData.t) : State * list Out :=
  (MAIN_MENU,
   [ReplyText (MainMenu (default "User" (UserData.name ud))
                        (default "" (UserData.email ud)))]).

(** The loop of [password_input] that binds the chat: the first record
    whose stored email equals the session email; [None] when the loop
    ends without a match (nothing is saved then). *)
Fixpoint bind_chat (email : string) (chat : Z) (users_data : list User.t)
  : option (list User.t) :=
  match users_data with
  | [] => None
  | user :: rest =>
      if String.eqb (User.email user) email
      then Some (with_chat_id (Some chat) user :: rest)
      else option_map (cons user) (bind_chat email chat rest)
  end.

(** [password_input]; the result is [None] when
    [context.user_data['email']] raises [KeyError]. *)
Definition password_input (text : string) (effective_chat : Z)
    (ud : UserData.t) : IO (option (State * UserData.t * list Out)) :=
  let password := Py.strip text in
  match UserData.email ud with
  | None => mret None
  | Some email =>
      users ← read_emails;
      match users !! email with
      | Some info =>
          if String.eqb (info_password info) password then
            (if negb (truthy_id (info_chat_id info)) then
               users_data ← load_json USERS_FILE;
               match bind_chat email effective_chat users_data with
               | Some users_data' => save_json USERS_FILE users_data'
               | None => mret tt
               end
             else mret tt);;
            let ud' := UserData.mk (UserData.email ud) (Some (info_name info))
                         (UserData.selected_app ud) in
            let (st, menu) := main_menu ud' in
            mret (Some (st, ud', ReplyText LoginSuccessful :: menu))
          else mret (Some (EMAIL, ud, [ReplyText InvalidEmailOrPassword]))
      | None => mret (Some (EMAIL, ud, [ReplyText InvalidEmailOrPassword]))
      end
  end.

(** The reason shown on the status screen. *)
Definition status_reason (act : Activation.t) : string :=
  dict_get REJECTION_REASONS (Activation.reason act) (Activation.reason act).

(** The loop of [activation_status] over the user's records; [None]
    when a submission date has no first word and the loop raises. *)
Fixpoint status_lines (activations : list Activation.t)
  : option (list StatusLine) :=
  match activations with
  | [] => Some []
  | act :: rest =>
      match Py.first_word (Activation.submission_date act) with
      | Some date =>
          option_map
            (cons (mkLine (Activation.app act) (Activation.mobile act)
                     (Activation.status act) (status_reason act) date))
            (status_lines rest)
      | None => None
      end
  end.

(** [activation_status]; an exception inside the [try] (a missing
    session email, a blank date) is logged and nothing is shown. *)
Definition activation_status (ud : UserData.t) : IO (State * list Out) :=
  match UserData.email ud with
  | None => mret (MAIN_MENU, [])
  | Some email =>
      activations ← read_activations (Some email) None None;
      match activations with
      | [] => mret (MAIN_MENU, [NoActivationsFound])
      | _ =>
          match status_lines activations with
          | Some lines => mret (MAIN_MENU, [StatusScreen lines])
          | None => mret (MAIN_MENU, [])
          end
      end
  end.

(** ** Submission of a proof *)

Definition approve_data (email app mobile : string) : string :=
  "approve_" +:+ email +:+ "_" +:+ app +:+ "_" +:+ mobile.

Definition reject_data (email app mobile : string) : string :=
  "reject_" +:+ email +:+ "_" +:+ app +:+ "_" +:+ mobile.

Definition reason_data (reason_id email app mobile : string) : string :=
  "reason_" +:+ reason_id +:+ "_" +:+ email +:+ "_" +:+ app +:+ "_" +:+ mobile.

(** The local dict [rejection_reasons] of the two keyboards, in order. *)
Definition rejection_reasons : list (string * string) :=
  [("Incorrect Proof", "77"); ("Improper Activation", "78");
   ("Fraud Detected", "79"); ("Wrong Device", "80");
   ("Late Submission", "81")].

Definition non_trade_row (email app mobile : string) : list (list Button) :=
  if String.eqb app "angelone"
  then [[mkButton "Non Trade Approved" (reason_data "nt" email app mobile)]]
  else [].

Definition reason_rows (email app mobile : string) : list (list Button) :=
  map (fun '(reason_text, reason_id) =>
         [mkButton reason_text (reason_data reason_id email app mobile)])
      rejection_reasons.

(** The keyboard posted with a new request. *)
Definition review_keyboard (email app mobile : string) : list (list Button) :=
  non_trade_row email app mobile ++
  [[mkButton "Approve" (approve_data email app mobile);
    mkButton "Reject" (reject_data email app mobile)]] ++
  reason_rows email app mobile.

(** The media checks of [process_activation_proof]: the accepted media,
    or the reply that sends the user back. *)
Definition check_media (app : string) (msg : Message) : Reply + MediaKind * string :=
  if str_in app SCREENSHOT_APPS then
    match last (photo msg) with
    | Some file_id => inr (Photo, file_id)
    | None =>
        match video msg with
        | Some file_id => inr (Video, file_id)
        | None => inl (SendScreenshotOrVideo app)
        end
    end
  else
    match video msg with
    | Some file_id => inr (Video, file_id)
    | None => inl (SendVideo app)
    end.

(** The loop that stores the id of the channel message on the first
    matching record; the list is saved whether or not one matched. *)
Fixpoint store_message_id (email app mobile : string) (message_id : Z)
    (activations : list Activation.t) : list Activation.t :=
  match activations with
  | [] => []
  | act :: rest =>
      if same_request email app mobile act
      then Activation.mk (Activation.email act) (Activation.mobile act)
             (Activation.app act) (Activation.status act) (Activation.reason act)
             (Activation.timestamp act) (Activation.submission_date act)
             (Some message_id) :: rest
      else act :: store_message_id email app mobile message_id rest
  end.

(** The part of [process_activation_proof] that posts the request to the
    review channel: what was sent, or [None] when the block raises. The
    send to the channel is inside a [try]; the alert to the operator is
    sent from its [except] clause, so an alert that raises leaves the
    block. *)
Definition notify_channel (env : Env) (delivery : Delivery)
    (kind : MediaKind) (media email app mobile : string)
  : IO (option (list Out)) :=
  if Py.truthy (CHANNEL_ID env) then
    let post := ChannelMedia kind media email app mobile
                  (review_keyboard email app mobile) in
    match delivery with
    | Delivered message_id =>
        activations ← load_json ACTIVATIONS_FILE;
        save_json ACTIVATIONS_FILE
          (store_message_id email app mobile message_id activations);;
        mret (Some [post])
    | DeliveryFailed =>
        mret (Some (if Py.truthy (ADMIN_CHAT_ID env)
                    then [AdminAlert app email] else []))
    | AlertFailed =>
        mret (if Py.truthy (ADMIN_CHAT_ID env) then None else Some [])
    end
  else mret (Some []).

(** The end of [process_activation_proof]: the success message after the
    posting block, or the message of the outer [except] when the block
    raised. *)
Definition submission_reply (posted : option (list Out)) : list Out :=
  match posted with
  | Some sent => sent ++ [ReplyText ActivationSubmitted]
  | None => [ReplyText ErrorOccurred]
  end.

Definition process_activation_proof (msg : Message) (ud : UserData.t)
    (env : Env) (delivery : Delivery) (now : Clock) : IO (State * list Out) :=
  match UserData.selected_app ud with
  | Some (String _ _ as app) =>
      match check_media app msg with
      | inl reply => mret (ACTIVATION_PROOF, [ReplyText reply])
      | inr (kind, media) =>
          match caption msg with
          | Some (String _ _ as cap) =>
              let mobile := Py.strip cap in
              if negb (Re.fullmatch MOBILE_RE mobile)
              then mret (ACTIVATION_PROOF, [ReplyText InvalidMobileNumber])
              else
                dup ← is_duplicate app mobile;
                if dup : bool
                then mret (MAIN_MENU, [ReplyText (DuplicateActivation app)])
                else
                  match UserData.email ud with
                  | Some (String _ _ as email) =>
                      write_activation email app mobile None None now;;
                      posted ← notify_channel env delivery kind media email app mobile;
                      mret (MAIN_MENU, submission_reply posted)
                  | _ => mret (END, [ReplyText SessionExpired])
                  end
          | _ => mret (ACTIVATION_PROOF, [ReplyText IncludeMobileInCaption])
          end
      end
  | _ => mret (MAIN_MENU, [ReplyText NoAppSelected])
  end.

(** ** Operator callbacks *)

(** [act.get('message_id')] of the first matching record. *)
Fixpoint find_message_id (email app mobile : string)
    (activations : list Activation.t) : option Z :=
  match activations with
  | [] => None
  | act :: rest =>
      if same_request email app mobile act then Activation.message_id act
      else find_message_id email app mobile rest
  end.

(** The block that edits the channel message after a decision. *)
Definition edit_channel (env : Env) (email app mobile : string) (v : Verdict)
  : IO (list Out) :=
  if Py.truthy (CHANNEL_ID env) then
    activations ← load_json ACTIVATIONS_FILE;
    match find_message_id email app mobile activations with
    | Some message_id =>
        mret (if Z.eqb message_id 0 then [] else [EditCaption message_id v])
    | None => mret []
    end
  else mret [].

(** [admin_approve]: the unpacking [_, email, app, mobile = ...] raises
    unless the data has exactly four fields, and the handler then only
    answers the query. The result of [update_activation] is not used. *)
Definition admin_approve (data : string) (env : Env) (now : Clock)
  : IO (list Out) :=
  match Py.split "_" data with
  | [_; email; app; mobile] =>
      update_activation email app mobile "approved" None now;;
      let v := ApprovedActivation email app mobile in
      edited ← edit_channel env email app mobile v;
      mret (edited ++ [EditMessage v])
  | _ => mret [Answer "Failed to process approval"]
  end.

(** [admin_reject] only replaces the buttons by the reason menu. *)
Definition admin_reject (data : string) : IO (list Out) :=
  match Py.split "_" data with
  | [_; email; app; mobile] =>
      mret [EditMessage
              (SelectReason app
                 (non_trade_row email app mobile ++ reason_rows email app mobile))]
  | _ => mret [Answer "Failed to process rejection"]
  end.

(** The status [process_rejection] passes to [update_activation]. *)
Definition rejection_status (app reason_id : string) : string :=
  if String.eqb app "angelone" && String.eqb reason_id "nt"
  then "approved" else "rejected".

(** [process_rejection]: [parts[1]] .. [parts[4]] raise [IndexError] when
    the data has fewer than five fields; further fields are ignored. *)
Definition process_rejection (data : string) (env : Env) (now : Clock)
  : IO (list Out) :=
  match Py.split "_" data with
  | _ :: reason_id :: email :: app :: mobile :: _ =>
      let reason_text := dict_get REJECTION_REASONS reason_id "Unknown reason" in
      let status := rejection_status app reason_id in
      update_activation email app mobile status (Some reason_id) now;;
      let v := DecidedActivation status reason_text email app mobile in
      edited ← edit_channel env email app mobile v;
      mret (edited ++ [EditMessage v])
  | _ => mret [Answer "Failed to process rejection reason"]
  end.

(** Whether something the operator is shown reports a failure. The only
    such output of the operator callbacks is the query answer. *)
Definition reports_failure (o : Out) : bool :=
  match o with
  | Answer _ => true
  | _ => false
  end.

(** ** Predicates used in the statements *)

(** The test of [is_duplicate], on one record. *)
Definition active (act : Activation.t) : Prop :=
  Activation.status act = "pending" \/ Activation.status act = "approved".

(** A record that makes the pair (app, mobile) a duplicate. *)
Definition duplicates (app mobile : string) (act : Activation.t) : bool :=
  String.eqb (Activation.app act) app &&
  (String.eqb (Activation.mobile act) (Py.remove_char " " mobile) &&
   str_in (Activation.status act) ["pending"; "approved"]).

(** A request (email, app, mobile) has a record in the list. *)
Definition has_request (email app mobile : string)
    (activations : list Activation.t) : bool :=
  existsb (same_request email app mobile) activations.

(** The store invariants the directory maintains: emails are stored in
    lower case, and no two records share one (compared without case, as
    [add_user] compares them). *)
Definition emails_lowered (users : list User.t) : Prop :=
  Forall (fun user => Py.lower (User.email user) = User.email user) users.

Definition emails_unique (users : list User.t) : Prop :=
  List.NoDup (map (fun user => Py.lower (User.email user)) users).

Definition directory_ok (users : list User.t) : Prop :=
  emails_lowered users /\ emails_unique users.

(** A stored user matches the entered credentials: the email without
    regard to case, the password exactly; both as the handlers read
    them, stripped of surrounding whitespace. *)
Definition credentials_match (email_text password_text : string)
    (user : User.t) : Prop :=
  Py.lower (User.email user) = Py.lower (Py.strip email_text) /\
  User.password user = Py.strip password_text.

(** The two results of [password_input]. *)
Definition logged_in (ud : UserData.t) (info : UserInfo)
  : State * UserData.t * list Out :=
  (MAIN_MENU,
   UserData.mk (UserData.email ud) (Some (info_name info))
     (UserData.selected_app ud),
   [ReplyText LoginSuccessful;
    ReplyText (MainMenu (info_name info) (default "" (UserData.email ud)))]).

Definition refused (ud : UserData.t) : State * UserData.t * list Out :=
  (EMAIL, ud, [ReplyText InvalidEmailOrPassword]).

(** The three results of [add_user]. *)
Definition Created : bool * string := (true, "User added successfully").
Definition ChannelIdUpdated : bool * string := (true, "User chat_id updated").
Definition AlreadyExists : bool * string := (false, "User already exists").

Definition empty_disk : Disk := mkDisk [] [] [].

(** ** Menu handlers *)

(** What the menu handlers show. The label of an app button is the app
    before [upper]. *)
Inductive MenuOut : Type :=
| AskForProof (app media_type : string)
| NoAppsAvailable
| AppMenu (keyboard : list (list Button)).

(** [send_activation_proof]; [app_file] is the content of [ec_app.txt].
    With the data [same_app] a missing [selected_app] raises inside the
    [try], and the handler then only returns [MAIN_MENU]. *)
Definition send_activation_proof (data : string) (ud : UserData.t)
    (app_file : option (list string)) : State * list MenuOut :=
  if String.eqb data "same_app" then
    match UserData.selected_app ud with
    | Some app =>
        (ACTIVATION_PROOF,
         [AskForProof app
            (if str_in app SCREENSHOT_APPS then "screenshot/video" else "video")])
    | None => (MAIN_MENU, [])
    end
  else
    match read_apps app_file with
    | [] => (MAIN_MENU, [NoAppsAvailable])
    | apps =>
        (APP_SELECTION,
         [AppMenu (map (fun app => [mkButton app ("app_" +:+ app)]) apps ++
                   [[mkButton "Back" "back"]])])
    end.

(** [app_selected]: every occurrence of [app_] is removed from the data. *)
Definition app_selected (data : string) (ud : UserData.t)
  : State * UserData.t * list MenuOut :=
  let app := Py.lower (Py.remove_str "app_" data) in
  (ACTIVATION_PROOF,
   UserData.mk (UserData.email ud) (UserData.name ud) (Some app),
   [AskForProof app
      (if str_in app SCREENSHOT_APPS then "screenshot or video" else "video")]).

(** ** Operator commands *)

(** [str(update.effective_user.id) != os.getenv('ADMIN_CHAT_ID')],
    negated; [pretty] is the decimal notation of an integer. *)
Definition is_admin (user_id : Z) (env : Env) : bool :=
  match ADMIN_CHAT_ID env with
  | Some admin_id => String.eqb (pretty user_id) admin_id
  | None => false
  end.

(** The counters kept per app by [stats_command]. *)
Module Counts.
Record t : Type := mk { total : nat; approved : nat; pending : nat; rejected : nat }.
End Counts.

(** [counts[key] += 1]; [None] is the [KeyError] of a key that is none
    of the four. *)
Definition bump_key (key : string) (c : Counts.t) : option Counts.t :=
  if String.eqb key "total" then
    Some (Counts.mk (S (Counts.total c)) (Counts.approved c) (Counts.pending c)
            (Counts.rejected c))
  else if String.eqb key "approved" then
    Some (Counts.mk (Counts.total c) (S (Counts.approved c)) (Counts.pending c)
            (Counts.rejected c))
  else if String.eqb key "pending" then
    Some (Counts.mk (Counts.total c) (Counts.approved c) (S (Counts.pending c))
            (Counts.rejected c))
  else if String.eqb key "rejected" then
    Some (Counts.mk (Counts.total c) (Counts.approved c) (Counts.pending c)
            (S (Counts.rejected c)))
  else None.

(** One round of the loop over the activations: the entry of the app is
    created at the end of the dict when it is missing, its total and the
    counter named by the status are incremented. *)
Fixpoint bump_app (app status : string) (stats : list (string * Counts.t))
  : option (list (string * Counts.t)) :=
  match stats with
  | [] =>
      c ← bump_key "total" (Counts.mk 0 0 0 0);
      c' ← bump_key status c;
      Some [(app, c')]
  | (a, c0) :: rest =>
      if String.eqb a app then
        c ← bump_key "total" c0;
        c' ← bump_key status c;
        Some ((a, c') :: rest)
      else option_map (cons (a, c0)) (bump_app app status rest)
  end.

Fixpoint app_stats_loop (activations : list Activation.t)
    (stats : list (string * Counts.t)) : option (list (string * Counts.t)) :=
  match activations with
  | [] => Some stats
  | act :: rest =>
      stats' ← bump_app (Activation.app act) (Activation.status act) stats;
      app_stats_loop rest stats'
  end.

Definition count_status (status : string) (activations : list Activation.t) : nat :=
  length (List.filter (fun a => String.eqb (Activation.status a) status) activations).

(** What an operator command replies. *)
Inductive EntryResult : Type :=
| InvalidFormat (head : string)
| AddUserResult (success : bool) (message email : string).

Inductive AdminReply : Type :=
| AdminOnly
| Statistics (total_users total_activations pending approved rejected : nat)
    (app_stats : list (string * Counts.t))
| BroadcastUsage
| Announcement (chat_id : Z) (message : string)
| BroadcastResults (successful failed total_users : nat)
| ProvideValidDetails
| AddUserResults (results : list EntryResult).

(** [stats_command]; the result is [None] when the loop raises. *)
Definition stats_command (user_id : Z) (env : Env) : IO (option AdminReply) :=
  if negb (is_admin user_id env) then mret (Some AdminOnly)
  else
    users ← load_json USERS_FILE;
    activations ← load_json ACTIVATIONS_FILE;
    mret (option_map
            (Statistics (length users) (length activations)
               (count_status "pending" activations)
               (count_status "approved" activations)
               (count_status "rejected" activations))
            (app_stats_loop activations [])).

(** The loop of [broadcast_command]; [delivers i] tells whether the send
    to the [i]-th user of the file succeeds. The result is the sends that
    were tried, and the two counters. *)
Fixpoint broadcast_loop (message : string) (delivers : nat -> bool) (i : nat)
    (users : list User.t) : list AdminReply * nat * nat :=
  match users with
  | [] => ([], 0, 0)
  | user :: rest =>
      let '(sent, successful, failed) :=
        broadcast_loop message delivers (S i) rest in
      match User.chat_id user with
      | Some chat_id =>
          if Z.eqb chat_id 0 then (sent, successful, failed)
          else if delivers i
               then (Announcement chat_id message :: sent, S successful, failed)
               else (Announcement chat_id message :: sent, successful, S failed)
      | None => (sent, successful, failed)
      end
  end.

Definition broadcast_command (user_id : Z) (env : Env) (args : list string)
    (delivers : nat -> bool) : IO (list AdminReply) :=
  if negb (is_admin user_id env) then mret [AdminOnly]
  else
    match args with
    | [] => mret [BroadcastUsage]
    | _ =>
        users ← load_json USERS_FILE;
        let '(sent, successful, failed) :=
          broadcast_loop (Py.join " " args) delivers 0 users in
        mret (sent ++ [BroadcastResults successful failed (length users)])
    end.

(** The stripped, non-blank lines of one entry of [add_user_handler]. *)
Definition entry_parts (entry : string) : list string :=
  map Py.strip
    (List.filter (fun p => Py.nonempty (Py.strip p)) (Py.split "010" entry)).

(** The loop of [add_user_handler] over the entries; [nows i] is the
    clock at the [i]-th entry. Users are added without a chat id. *)
Fixpoint add_entries (entries : list string) (nows : nat -> Clock) (i : nat)
  : IO (list EntryResult) :=
  match entries with
  | [] => mret []
  | entry :: rest =>
      match entry_parts entry with
      | email :: password :: name1 :: names =>
          r ← add_user email password (Py.join " " (name1 :: names)) None (nows i);
          results ← add_entries rest nows (S i);
          mret (AddUserResult (fst r) (snd r) email :: results)
      | _ =>
          results ← add_entries rest nows (S i);
          mret (InvalidFormat (Py.take 30 entry) :: results)
      end
  end.

Definition add_user_handler (text : string) (nows : nat -> Clock)
  : IO (State * list AdminReply) :=
  let text := Py.strip text in
  if negb (Py.nonempty text) then mret (ADD_USER, [ProvideValidDetails])
  else
    let user_entries :=
      List.filter (fun entry => Py.nonempty (Py.strip entry))
        (Py.split_str (String "010" (String "010" EmptyString)) text) in
    results ← add_entries user_entries nows 0;
    mret (ADD_USER, [AddUserResults results]).

(** ** Further predicates used in the statements *)

(** The three statuses of the data model. *)
Definition known_status (status : string) : bool :=
  str_in status ["pending"; "approved"; "rejected"].

Definition statuses_ok (activations : list Activation.t) : Prop :=
  Forall (fun act => known_status (Activation.status act) = true) activations.

(** A record without the reference to its channel message. *)
Definition forget_message_id (act : Activation.t) : Activation.t :=
  Activation.mk (Activation.email act) (Activation.mobile act)
    (Activation.app act) (Activation.status act) (Activation.reason act)
    (Activation.timestamp act) (Activation.submission_date act) None.

(** The record [write_activation] appends for a submission. *)
Definition submitted_request (email app mobile : string) (now : Clock)
  : Activation.t :=
  Activation.mk email (Py.remove_char " " mobile) app "pending" "pending"
    (isoformat now) (strftime now) None.

(** The same record once the id of its channel message is stored. *)
Definition posted_request (email app mobile : string) (now : Clock)
    (message_id : Z) : Activation.t :=
  Activation.mk email (Py.remove_char " " mobile) app "pending" "pending"
    (isoformat now) (strftime now) (Some message_id).

(** The caption, stripped, is ten of the digits 0 to 9. *)
Definition ten_digits (cap : string) : Prop :=
  String.length (Py.strip cap) = 10 /\
  Py.all_chars Py.is_digit (Py.strip cap) = true.

(** The total of an app is the sum of its three status counters. *)
Definition counts_ok (c : Counts.t) : Prop :=
  Counts.total c = Counts.approved c + Counts.pending c + Counts.rejected c.

(** The keys of the per-app counters. *)
Definition counter_key (key : string) : bool :=
  str_in key ["total"; "approved"; "pending"; "rejected"].

(** What holds of a user record added by [add_user_handler]. *)
Definition added_by_handler (user : User.t) : Prop :=
  User.chat_id user = None /\
  User.email user <> EmptyString /\
  Py.lower (User.email user) = User.email user /\
  User.password user <> EmptyString /\
  Py.strip (User.password user) = User.password user /\
  User.name user <> EmptyString.

Definition sum_totals (stats : list (string * Counts.t)) : nat :=
  foldr (fun entry n => Counts.total (snd entry) + n) 0 stats.

(** The shape of an address [email_input] accepts. *)
Definition email_shape (s : string) : Prop :=
  exists local domain tld,
    s = local +:+ "@" +:+ domain +:+ "." +:+ tld /\
    local <> EmptyString /\ Py.all_chars email_class local = true /\
    domain <> EmptyString /\ Py.all_chars domain_class domain = true /\
    2 <= String.length tld /\ Py.all_chars Py.is_alpha_az tld = true.

(** [m'] is [m] without its space characters, said without
    [str.replace]: a space is dropped, every other character is kept. *)
Inductive spaces_removed : string -> string -> Prop :=
| spaces_removed_nil : spaces_removed EmptyString EmptyString
| spaces_removed_space m m' :
    spaces_removed m m' -> spaces_removed (String " " m) m'
| spaces_removed_keep c m m' :
    c <> " "%char -> spaces_removed m m' ->
    spaces_removed (String c m) (String c m').

(** The records of one app, and what the statistics should say of them. *)
Definition app_records (app : string) (activations : list Activation.t)
  : list Activation.t :=
  List.filter (fun act => String.eqb (Activation.app act) app) activations.

Definition row_of (app : string) (activations : list Activation.t) : Counts.t :=
  Counts.mk (length (app_records app activations))
    (count_status "approved" (app_records app activations))
    (count_status "pending" (app_records app activations))
    (count_status "rejected" (app_records app activations)).

(** What the table should hold for an app after the records [done]: no
    entry when none of them is of the app. *)
Definition table_row (app : string) (done : list Activation.t)
  : option Counts.t :=
  match app_records app done with
  | [] => None
  | _ => Some (row_of app done)
  end.

(** The entry of an app in the per-app table. *)
Fixpoint row (app : string) (stats : list (string * Counts.t))
  : option Counts.t :=
  match stats with
  | [] => None
  | (a, c) :: rest => if String.eqb a app then Some c else row app rest
  end.

(** The users of the file with their positions, and those of them a
    broadcast writes to: the ones with a chat id. *)
Fixpoint numbered (i : nat) (users : list User.t) : list (nat * User.t) :=
  match users with
  | [] => []
  | user :: rest => (i, user) :: numbered (S i) rest
  end.

Definition recipients (i : nat) (users : list User.t) : list (nat * User.t) :=
  List.filter (fun entry => truthy_id (User.chat_id (snd entry)))
    (numbered i users).

(** Sample inputs of the concrete scenarios. *)
Definition noon : Clock := mkClock "2024-05-01T12:00:00" "2024-05-01 12:00:00".
Definition evening : Clock := mkClock "2024-05-01T18:30:00" "2024-05-01 18:30:00".
Definition review_env : Env := mkEnv (Some "-1001") (Some "1").

Definition pending_request (email app mobile : string) : Activation.t :=
  Activation.mk email mobile app "pending" "pending"
    (isoformat noon) (strftime noon) None.

Definition no_session : UserData.t := UserData.mk None None None.

Definition registered_user : User.t :=
  User.mk "a@b.com" "secret" "Asha" None (isoformat noon).

Definition registered : Disk := mkDisk [registered_user] [] [].

Definition upstox_session : UserData.t :=
  UserData.mk (Some "a@b.com") (Some "Asha") (Some "upstox").

Definition proof_video : Message :=
  mkMessage [] (Some "video-1") (Some "9876543210").

(** The ledger after the submission of (a@b.com, upstox, 9876543210). *)
Definition submitted_disk : Disk :=
  exec (write_activation "a@b.com" "upstox" "9876543210" None None noon)
    empty_disk.

(** A ledger holding the pending request of [a_b@c.com]. *)
Definition underscore_disk : Disk :=
  mkDisk [] [pending_request "a_b@c.com" "angelone" "9876543210"] [].

(** * Properties *)

(** ** Strings *)

Module PyFacts.
Import Py.

Lemma append_cons c s t : String c s +:+ t = String c (s +:+ t).
Proof. reflexivity. Qed.

(** A string without the separator is a single field. *)
Lemma split_single sep s : has_char sep s = false -> split sep s = [s].
Proof.
  induction s as [|c s IH]; simpl; [reflexivity|].
  intros H. apply orb_false_iff in H as [Hc Hs].
  rewrite Hc, (IH Hs). reflexivity.
Qed.

(** The first field ends at the first separator. *)
Lemma split_field sep s t :
  has_char sep s = false ->
  split sep (s +:+ String sep t) = s :: split sep t.
Proof.
  induction s as [|c s IH]; intros H.
  - change (EmptyString +:+ String sep t) with (String sep t).
    simpl. rewrite Ascii.eqb_refl. reflexivity.
  - simpl in H. apply orb_false_iff in H as [Hc Hs].
    rewrite append_cons. simpl. rewrite Hc, (IH Hs). reflexivity.
Qed.

Lemma all_chars_has_char p x s :
  p x = false -> all_chars p s = true -> has_char x s = false.
Proof.
  intros Hx. induction s as [|c s IH]; simpl; [reflexivity|].
  intros H. apply andb_true_iff in H as [Hc Hs].
  rewrite (IH Hs), orb_false_r.
  destruct (Ascii.eqb_spec c x) as [->|]; [congruence|reflexivity].
Qed.

(** Removing a character that does not occur changes nothing. *)
Lemma remove_char_absent x s : has_char x s = false -> remove_char x s = s.
Proof.
  induction s as [|c s IH]; simpl; [reflexivity|].
  intros H. apply orb_false_iff in H as [Hc Hs].
  rewrite Hc, (IH Hs). reflexivity.
Qed.

Lemma nonempty_true s : nonempty s = true <-> s <> EmptyString.
Proof. destruct s; simpl; split; congruence. Qed.

Lemma lower_nonempty s : nonempty (lower s) = nonempty s.
Proof. destruct s; reflexivity. Qed.

End PyFacts.

(** ** Regular expressions: the matcher is sound for the language *)

Module ReFacts.
Import Re.

Lemma nullable_matches r : nullable r = true -> matches r EmptyString.
Proof.
  induction r as [| |p|r1 IH1 r2 IH2|r1 IH1 r2 IH2|r IH]; simpl; intros H.
  - discriminate.
  - constructor.
  - discriminate.
  - apply andb_true_iff in H as [H1 H2].
    change EmptyString with (EmptyString +:+ EmptyString).
    constructor; auto.
  - apply orb_true_iff in H as [H|H]; [apply MAltL|apply MAltR]; auto.
  - constructor.
Qed.

Lemma deriv_matches r : forall c s,
  matches (deriv c r) s -> matches r (String c s).
Proof.
  induction r as [| |p|r1 IH1 r2 IH2|r1 IH1 r2 IH2|r IH]; simpl; intros c s H.
  - inversion H.
  - inversion H.
  - destruct (p c) eqn:Hp; inversion H; subst. constructor. exact Hp.
  - destruct (nullable r1) eqn:Hn.
    + inversion H as [| | | ? ? ? H' | ? ? ? H' | |]; subst.
      * inversion H' as [| | ? ? s1 s2 Ha Hb | | | |]; subst.
        rewrite <- PyFacts.append_cons. constructor; auto.
      * change (String c s) with (EmptyString +:+ String c s).
        constructor; auto using nullable_matches.
    + inversion H as [| | ? ? s1 s2 Ha Hb | | | |]; subst.
      rewrite <- PyFacts.append_cons. constructor; auto.
  - inversion H; subst; [apply MAltL|apply MAltR]; auto.
  - inversion H as [| | ? ? s1 s2 Ha Hb | | | |]; subst.
    rewrite <- PyFacts.append_cons. constructor; auto.
Qed.

Lemma fullmatch_matches : forall s r, fullmatch r s = true -> matches r s.
Proof.
  induction s as [|c s IH]; simpl; intros r H.
  - apply nullable_matches, H.
  - apply deriv_matches, IH, H.
Qed.

(** A match of [p{n}] has only characters of the class [p]. *)
Lemma matches_Times p n : forall s,
  matches (Times n (Class p)) s ->
  Py.all_chars p s = true /\ String.length s = n.
Proof.
  induction n as [|n IH]; simpl; intros s H.
  - inversion H; subst. split; reflexivity.
  - inversion H as [| | ? ? s1 s2 Ha Hb | | | |]; subst.
    inversion Ha as [|? c Hc| | | | |]; subst.
    destruct (IH _ Hb) as [Hall Hlen].
    change (String c EmptyString +:+ s2) with (String c s2). simpl.
    rewrite Hc, Hall, Hlen. split; reflexivity.
Qed.

Lemma mobile_digits m :
  fullmatch MOBILE_RE m = true ->
  Py.all_chars Py.is_digit m = true /\ String.length m = 10.
Proof. intros H. apply matches_Times, fullmatch_matches, H. Qed.

(** Ten digits contain neither a space nor an underscore. *)
Lemma mobile_clean m :
  fullmatch MOBILE_RE m = true ->
  Py.remove_char " " m = m /\ Py.has_char "_" m = false.
Proof.
  intros H. destruct (mobile_digits m H) as [Hd _]. split.
  - apply PyFacts.remove_char_absent.
    apply (PyFacts.all_chars_has_char Py.is_digit); [reflexivity|exact Hd].
  - apply (PyFacts.all_chars_has_char Py.is_digit); [reflexivity|exact Hd].
Qed.

End ReFacts.

(** ** The ledger: lookups and in-place updates *)

Ltac io_unfold :=
  unfold run, exec, mbind, mret, IO_bind, IO_ret, bind, ret,
    load_json, save_json, log in *.

Section Ledger.

Variables email app mobile : string.

Lemma update_first_None status reason now acts :
  update_first email app mobile status reason now acts = None <->
  has_request email app mobile acts = false.
Proof.
  unfold has_request.
  induction acts as [|act rest IH]; simpl; [tauto|].
  destruct (same_request email app mobile act); simpl.
  - split; discriminate.
  - rewrite <- IH. destruct (update_first _ _ _ _ _ _ rest); simpl; split;
      congruence.
Qed.

(** A successful update rewrites the first matching record, in place. *)
Lemma update_first_Some status reason now acts acts' :
  update_first email app mobile status reason now acts = Some acts' ->
  exists before act after,
    acts = before ++ act :: after /\
    has_request email app mobile before = false /\
    same_request email app mobile act = true /\
    acts' = before ++ resolved status reason now act :: after.
Proof.
  revert acts'. induction acts as [|a rest IH]; simpl; intros acts' H.
  - discriminate.
  - destruct (same_request email app mobile a) eqn:Ha.
    + injection H as <-. exists [], a, rest. repeat split; auto.
    + destruct (update_first _ _ _ _ _ _ rest) as [l|]; simpl in H;
        [|discriminate].
      injection H as <-.
      destruct (IH l eq_refl) as (before & act & after & -> & Hb & Hact & ->).
      exists (a :: before), act, after. repeat split; auto.
      unfold has_request in *. simpl. rewrite Ha. exact Hb.
Qed.

Lemma update_first_length status reason now acts acts' :
  update_first email app mobile status reason now acts = Some acts' ->
  length acts' = length acts.
Proof.
  intros H. apply update_first_Some in H
    as (before & act & after & -> & _ & _ & ->).
  rewrite !length_app. reflexivity.
Qed.

(** The first matching record of a list that ends with a matching one. *)
Lemma update_first_app_fresh status reason now acts act :
  has_request email app mobile acts = false ->
  same_request email app mobile act = true ->
  update_first email app mobile status reason now (acts ++ [act]) =
  Some (acts ++ [resolved status reason now act]).
Proof.
  unfold has_request. intros Hno Hact.
  induction acts as [|a rest IH]; simpl in *.
  - rewrite Hact. reflexivity.
  - apply orb_false_iff in Hno as [Ha Hrest].
    rewrite Ha, (IH Hrest). reflexivity.
Qed.

Lemma has_request_app l1 l2 :
  has_request email app mobile (l1 ++ l2) =
  has_request email app mobile l1 || has_request email app mobile l2.
Proof. unfold has_request. apply existsb_app. Qed.

Lemma find_message_id_none acts :
  has_request email app mobile acts = false ->
  find_message_id email app mobile acts = None.
Proof.
  unfold has_request. induction acts as [|a rest IH]; simpl; [reflexivity|].
  intros H. apply orb_false_iff in H as [Ha Hrest].
  rewrite Ha. auto.
Qed.

Lemma store_message_id_length mid acts :
  length (store_message_id email app mobile mid acts) = length acts.
Proof.
  induction acts as [|a rest IH]; simpl; [reflexivity|].
  destruct (same_request email app mobile a); simpl; congruence.
Qed.

End Ledger.

(** What [update_activation] does to the disk. *)
Lemma update_activation_run email app mobile status reason now d :
  update_activation email app mobile status reason now d =
  match update_first email app mobile status (default "0" reason) now
          (activations_json d) with
  | Some acts =>
      (true, mkDisk (users_json d) acts
               ((trace d ++ [Load ACTIVATIONS_FILE]) ++ [Save ACTIVATIONS_FILE]))
  | None =>
      (false, mkDisk (users_json d) (activations_json d)
                (trace d ++ [Load ACTIVATIONS_FILE]))
  end.
Proof.
  unfold update_activation. io_unfold. simpl.
  destruct (update_first _ _ _ _ _ _ _); reflexivity.
Qed.

Lemma edit_channel_run env email app mobile v d :
  edit_channel env email app mobile v d =
  if Py.truthy (CHANNEL_ID env) then
    (match find_message_id email app mobile (activations_json d) with
     | Some message_id =>
         if Z.eqb message_id 0 then [] else [EditCaption message_id v]
     | None => []
     end, log (Load ACTIVATIONS_FILE) d)
  else ([], d).
Proof.
  unfold edit_channel. io_unfold.
  destruct (Py.truthy (CHANNEL_ID env)); simpl; [|reflexivity].
  destruct (find_message_id _ _ _ _); reflexivity.
Qed.

(** Editing the channel message reads the ledger and writes nothing. *)
Lemma edit_channel_files env email app mobile v d :
  users_json (exec (edit_channel env email app mobile v) d) = users_json d /\
  activations_json (exec (edit_channel env email app mobile v) d) =
    activations_json d.
Proof.
  unfold edit_channel. io_unfold.
  destruct (Py.truthy (CHANNEL_ID env)); simpl; [|auto].
  destruct (find_message_id _ _ _ _); simpl; auto.
Qed.

(** ** The operator callbacks, case by case *)

Lemma admin_approve_parsed data p0 email app mobile env now d :
  Py.split "_" data = [p0; email; app; mobile] ->
  admin_approve data env now d =
  let d1 := exec (update_activation email app mobile "approved" None now) d in
  let v := ApprovedActivation email app mobile in
  (run (edit_channel env email app mobile v) d1 ++ [EditMessage v],
   exec (edit_channel env email app mobile v) d1).
Proof.
  intros H. unfold admin_approve. rewrite H. io_unfold.
  destruct (update_activation _ _ _ _ _ _ d) as [b d1]. simpl.
  destruct (edit_channel _ _ _ _ _ d1) as [o d2]. reflexivity.
Qed.

Lemma admin_approve_cases data env now d :
  (exists p0 email app mobile,
     Py.split "_" data = [p0; email; app; mobile]) \/
  admin_approve data env now d = ([Answer "Failed to process approval"], d).
Proof.
  unfold admin_approve.
  destruct (Py.split "_" data) as [|p0 [|p1 [|p2 [|p3 [|p4 l]]]]];
    try (right; reflexivity).
  left. eauto.
Qed.

Lemma process_rejection_parsed data p0 reason_id email app mobile rest env now d :
  Py.split "_" data = p0 :: reason_id :: email :: app :: mobile :: rest ->
  process_rejection data env now d =
  let status := rejection_status app reason_id in
  let d1 := exec (update_activation email app mobile status (Some reason_id) now) d in
  let v := DecidedActivation status
             (dict_get REJECTION_REASONS reason_id "Unknown reason")
             email app mobile in
  (run (edit_channel env email app mobile v) d1 ++ [EditMessage v],
   exec (edit_channel env email app mobile v) d1).
Proof.
  intros H. unfold process_rejection. rewrite H. io_unfold.
  destruct (update_activation _ _ _ _ _ _ d) as [b d1]. simpl.
  destruct (edit_channel _ _ _ _ _ d1) as [o d2]. reflexivity.
Qed.

Lemma process_rejection_cases data env now d :
  (exists p0 reason_id email app mobile rest,
     Py.split "_" data = p0 :: reason_id :: email :: app :: mobile :: rest) \/
  process_rejection data env now d =
    ([Answer "Failed to process rejection reason"], d).
Proof.
  unfold process_rejection.
  destruct (Py.split "_" data) as [|p0 [|p1 [|p2 [|p3 [|p4 l]]]]];
    try (right; reflexivity).
  left. eauto 10.
Qed.

Lemma update_activation_length email app mobile status reason now d :
  length (activations_json
            (exec (update_activation email app mobile status reason now) d)) =
  length (activations_json d).
Proof.
  unfold exec. rewrite update_activation_run.
  destruct (update_first _ _ _ _ _ _ _) eqn:H; simpl; [|reflexivity].
  eapply update_first_length, H.
Qed.

(** ** Resolution never changes the number of records *)

(** C8. For every store and every resolve call, [update_activation]
    leaves the number of activation records (and the user file) as it
    was: either nothing changes, or exactly the first record matching
    (email, app, mobile) in insertion order is rewritten in place. The
    same count is kept by the two callbacks that resolve, whatever
    callback data they receive and whatever the status of the record. *)
Theorem resolve_keeps_record_count :
  (forall email app mobile status reason now d,
     let d' := exec (update_activation email app mobile status reason now) d in
     length (activations_json d') = length (activations_json d) /\
     users_json d' = users_json d /\
     (activations_json d' = activations_json d \/
      exists before act after,
        activations_json d = before ++ act :: after /\
        has_request email app mobile before = false /\
        same_request email app mobile act = true /\
        activations_json d' =
          before ++ resolved status (default "0" reason) now act :: after)) /\
  (forall data env now d,
     length (activations_json (exec (admin_approve data env now) d)) =
       length (activations_json d) /\
     length (activations_json (exec (process_rejection data env now) d)) =
       length (activations_json d)).
Proof.
  split.
  - intros email app mobile status reason now d d'.
    split; [apply update_activation_length|].
    subst d'. unfold exec. rewrite update_activation_run.
    destruct (update_first _ _ _ _ _ _ _) eqn:H; simpl.
    + split; [reflexivity|]. right.
      apply update_first_Some in H. exact H.
    + split; [reflexivity|]. left. reflexivity.
  - intros data env now d. split.
    + destruct (admin_approve_cases data env now d)
        as [(p0 & email & app & mobile & H)|H];
        [|unfold exec; rewrite H; reflexivity].
      unfold exec at 1. rewrite (admin_approve_parsed _ _ _ _ _ _ _ _ H). simpl.
      destruct (edit_channel_files env email app mobile
                  (ApprovedActivation email app mobile)
                  (exec (update_activation email app mobile "approved" None now) d))
        as [_ ->].
      apply update_activation_length.
    + destruct (process_rejection_cases data env now d)
        as [(p0 & rid & email & app & mobile & rest & H)|H];
        [|unfold exec; rewrite H; reflexivity].
      unfold exec at 1. rewrite (process_rejection_parsed _ _ _ _ _ _ _ _ _ _ H).
      simpl.
      match goal with
      | |- context [edit_channel ?e ?a ?b ?c ?v] =>
          destruct (edit_channel_files e a b c v
            (exec (update_activation email app mobile
                     (rejection_status app rid) (Some rid) now) d)) as [_ Hf]
      end.
      unfold exec in *. rewrite Hf.
      apply update_activation_length.
Qed.

(** ** A decision on a request that has no record *)

(** C3. The code does not do what the claim says. For every (email,
    app, mobile) with no matching record, [update_activation] does find
    that out: it returns [False], having loaded the ledger once and saved
    nothing, so both files stay as they were. But the two callbacks that
    decide drop that result: [admin_approve] and [process_rejection]
    leave the files unchanged and show the operator the confirmation
    they show for every request, with nothing that reports a failure. *)
Theorem missing_record_not_found email app mobile d :
  has_request email app mobile (activations_json d) = false ->
  (forall status reason now,
     update_activation email app mobile status reason now d =
       (false, mkDisk (users_json d) (activations_json d)
                 (trace d ++ [Load ACTIVATIONS_FILE]))) /\
  (forall data p0 env now,
     Py.split "_" data = [p0; email; app; mobile] ->
     let d' := exec (admin_approve data env now) d in
     users_json d' = users_json d /\
     activations_json d' = activations_json d /\
     run (admin_approve data env now) d =
       [EditMessage (ApprovedActivation email app mobile)] /\
     existsb reports_failure (run (admin_approve data env now) d) = false /\
     forall d2,
       In (EditMessage (ApprovedActivation email app mobile))
          (run (admin_approve data env now) d2)) /\
  (forall data p0 reason_id rest env now,
     Py.split "_" data = p0 :: reason_id :: email :: app :: mobile :: rest ->
     let d' := exec (process_rejection data env now) d in
     let v := DecidedActivation (rejection_status app reason_id)
                (dict_get REJECTION_REASONS reason_id "Unknown reason")
                email app mobile in
     users_json d' = users_json d /\
     activations_json d' = activations_json d /\
     run (process_rejection data env now) d = [EditMessage v] /\
     existsb reports_failure (run (process_rejection data env now) d) = false /\
     forall d2, In (EditMessage v) (run (process_rejection data env now) d2)).
Proof.
  intros Hno.
  assert (Hup : forall status reason now,
     update_activation email app mobile status reason now d =
       (false, mkDisk (users_json d) (activations_json d)
                 (trace d ++ [Load ACTIVATIONS_FILE]))).
  { intros. rewrite update_activation_run.
    destruct (update_first _ _ _ _ _ _ _) eqn:H; [|reflexivity].
    assert (Hsome : update_first email app mobile status (default "0" reason)
                      now (activations_json d) <> None) by congruence.
    rewrite update_first_None in Hsome. congruence. }
  split; [exact Hup|]. split.
  - intros data p0 env now Hs d'. subst d'.
    assert (Hall : forall d2,
              In (EditMessage (ApprovedActivation email app mobile))
                 (run (admin_approve data env now) d2)).
    { intros d2. unfold run.
      rewrite (admin_approve_parsed _ _ _ _ _ _ _ _ Hs). cbv zeta. cbn [fst].
      apply in_or_app. right. left. reflexivity. }
    unfold exec at 1 2, run at 1 2.
    rewrite (admin_approve_parsed _ _ _ _ _ _ _ _ Hs).
    cbv zeta. unfold exec, run. rewrite Hup, edit_channel_run.
    cbn [fst snd activations_json].
    rewrite (find_message_id_none _ _ _ _ Hno).
    destruct (Py.truthy (CHANNEL_ID env)); repeat split; auto.
  - intros data p0 rid rest env now Hs d' v. subst d' v.
    assert (Hall : forall d2,
              In (EditMessage
                    (DecidedActivation (rejection_status app rid)
                       (dict_get REJECTION_REASONS rid "Unknown reason")
                       email app mobile))
                 (run (process_rejection data env now) d2)).
    { intros d2. unfold run.
      rewrite (process_rejection_parsed _ _ _ _ _ _ _ _ _ _ Hs). cbv zeta.
      cbn [fst]. apply in_or_app. right. left. reflexivity. }
    unfold exec at 1 2, run at 1 2.
    rewrite (process_rejection_parsed _ _ _ _ _ _ _ _ _ _ Hs).
    cbv zeta. unfold exec, run. rewrite Hup, edit_channel_run.
    cbn [fst snd activations_json].
    rewrite (find_message_id_none _ _ _ _ Hno).
    destruct (Py.truthy (CHANNEL_ID env)); repeat split; auto.
Qed.

(** The ledger holds the request of a@b.com; an approval arrives for a
    request of c@d.com that was never submitted. *)
Lemma missing_record_not_found_witness :
  has_request "c@d.com" "upstox" "9876543211" (activations_json submitted_disk)
    = false /\
  update_activation "c@d.com" "upstox" "9876543211" "approved" None evening
    submitted_disk =
    (false,
     mkDisk []
       [Activation.mk "a@b.com" "9876543210" "upstox" "pending" "pending"
          (isoformat noon) (strftime noon) None]
       [Load ACTIVATIONS_FILE; Save ACTIVATIONS_FILE; Load ACTIVATIONS_FILE]) /\
  run (admin_approve (approve_data "c@d.com" "upstox" "9876543211")
         review_env evening) submitted_disk =
    [EditMessage (ApprovedActivation "c@d.com" "upstox" "9876543211")] /\
  activations_json
    (exec (admin_approve (approve_data "c@d.com" "upstox" "9876543211")
             review_env evening) submitted_disk) =
    activations_json submitted_disk /\
  run (process_rejection (reason_data "77" "c@d.com" "upstox" "9876543211")
         review_env evening) submitted_disk =
    [EditMessage
       (DecidedActivation "rejected"
          "Incorrect Proof - Video/screenshot is incorrect, send correct recording showing process"
          "c@d.com" "upstox" "9876543211")].
Proof.
  pose proof (missing_record_not_found "c@d.com" "upstox" "9876543211"
                submitted_disk eq_refl) as (Hup & Happrove & Hreject).
  split; [reflexivity|]. split; [exact (Hup "approved" None evening)|].
  destruct (Happrove (approve_data "c@d.com" "upstox" "9876543211") "approve"
              review_env evening eq_refl) as (_ & Hledger & Hout & _).
  split; [exact Hout|]. split; [exact Hledger|].
  destruct (Hreject (reason_data "77" "c@d.com" "upstox" "9876543211") "reason"
              "77" [] review_env evening eq_refl) as (_ & _ & Hout' & _).
  exact Hout'.
Defined.

(** ** Callback data of fields without an underscore *)

Section CallbackData.

Variables email app mobile : string.
Hypothesis email_plain : Py.has_char "_" email = false.
Hypothesis app_plain : Py.has_char "_" app = false.
Hypothesis mobile_plain : Py.has_char "_" mobile = false.

Lemma split_fields :
  Py.split "_" (email +:+ String "_" (app +:+ String "_" mobile)) =
  [email; app; mobile].
Proof using email_plain app_plain mobile_plain.
  rewrite (PyFacts.split_field _ _ _ email_plain).
  rewrite (PyFacts.split_field _ _ _ app_plain).
  rewrite (PyFacts.split_single _ _ mobile_plain). reflexivity.
Qed.

Lemma split_approve_data :
  Py.split "_" (approve_data email app mobile) =
  ["approve"; email; app; mobile].
Proof using email_plain app_plain mobile_plain.
  change (approve_data email app mobile) with
    ("approve" +:+ String "_" (email +:+ String "_" (app +:+ String "_" mobile))).
  rewrite PyFacts.split_field by reflexivity.
  rewrite split_fields. reflexivity.
Qed.

Lemma split_reason_data reason_id :
  Py.has_char "_" reason_id = false ->
  Py.split "_" (reason_data reason_id email app mobile) =
  ["reason"; reason_id; email; app; mobile].
Proof using email_plain app_plain mobile_plain.
  intros Hr.
  change (reason_data reason_id email app mobile) with
    ("reason" +:+ String "_" (reason_id +:+ String "_"
       (email +:+ String "_" (app +:+ String "_" mobile)))).
  rewrite PyFacts.split_field by reflexivity.
  rewrite (PyFacts.split_field _ _ _ Hr).
  rewrite split_fields. reflexivity.
Qed.

End CallbackData.

(** ** Submission followed by approval *)

Lemma write_activation_run email app mobile status reason now d :
  write_activation email app mobile status reason now d =
  (tt, mkDisk (users_json d)
         (activations_json d ++
          [Activation.mk email (Py.remove_char " " mobile) app
             (default "pending" status) (default "pending" reason)
             (isoformat now) (strftime now) None])
         ((trace d ++ [Load ACTIVATIONS_FILE]) ++ [Save ACTIVATIONS_FILE])).
Proof. reflexivity. Qed.

(** C2, as stated, fails: after the submission of
    (a@b.com, upstox, 9876543210) and its approval through the Approve
    button, the stored reason is ["0"], not the ["pending"] written at
    submission. *)
Lemma approval_overwrites_reason :
  activations_json submitted_disk =
    [Activation.mk "a@b.com" "9876543210" "upstox" "pending" "pending"
       (isoformat noon) (strftime noon) None] /\
  activations_json
    (exec (admin_approve (approve_data "a@b.com" "upstox" "9876543210")
             review_env evening) submitted_disk) =
    [Activation.mk "a@b.com" "9876543210" "upstox" "approved" "0"
       (isoformat evening) (strftime noon) None] /\
  map Activation.reason
    (activations_json
       (exec (admin_approve (approve_data "a@b.com" "upstox" "9876543210")
                review_env evening) submitted_disk)) <>
  map Activation.reason (activations_json submitted_disk).
Proof. vm_compute. repeat split. discriminate. Qed.

(** C2, amended. For every email, app and 10-digit mobile, submit
    appends a record with status ["pending"] and reason ["pending"], and
    the approval with no reason code that follows
    ([update_activation(email, app, mobile, "approved")]) succeeds and
    rewrites the first record of (email, app, mobile) to status
    ["approved"] and reason ["0"], the default of [update_activation];
    when the ledger held no earlier record of that request this is the
    submitted record. The Approve button performs exactly this update
    when neither the email nor the app contains an underscore. *)
Theorem submit_then_approve email app mobile now1 now2 d :
  Re.fullmatch MOBILE_RE mobile = true ->
  let submitted :=
    Activation.mk email mobile app "pending" "pending"
      (isoformat now1) (strftime now1) None in
  let d1 := exec (write_activation email app mobile None None now1) d in
  let d2 := exec (update_activation email app mobile "approved" None now2) d1 in
  activations_json d1 = activations_json d ++ [submitted] /\
  run (update_activation email app mobile "approved" None now2) d1 = true /\
  (exists before act after,
     activations_json d1 = before ++ act :: after /\
     has_request email app mobile before = false /\
     same_request email app mobile act = true /\
     activations_json d2 =
       before ++ resolved "approved" "0" now2 act :: after /\
     Activation.status (resolved "approved" "0" now2 act) = "approved" /\
     Activation.reason (resolved "approved" "0" now2 act) = "0") /\
  (has_request email app mobile (activations_json d) = false ->
   activations_json d2 =
     activations_json d ++ [resolved "approved" "0" now2 submitted]) /\
  (Py.has_char "_" email = false -> Py.has_char "_" app = false ->
   forall env,
     activations_json
       (exec (admin_approve (approve_data email app mobile) env now2) d1) =
     activations_json d2).
Proof.
  intros Hm submitted d1 d2.
  destruct (ReFacts.mobile_clean mobile Hm) as [Hclean Hplain].
  assert (Hd1 : activations_json d1 = activations_json d ++ [submitted]).
  { subst d1 submitted. unfold exec. rewrite write_activation_run. simpl.
    rewrite Hclean. reflexivity. }
  assert (Hsub : same_request email app mobile submitted = true).
  { subst submitted. unfold same_request. simpl.
    rewrite Hclean, !String.eqb_refl. reflexivity. }
  assert (Hhas : has_request email app mobile (activations_json d1) = true).
  { rewrite Hd1, has_request_app. unfold has_request at 2. simpl.
    rewrite Hsub. apply orb_true_r. }
  assert (Hrun : update_activation email app mobile "approved" None now2 d1 =
                 (true, d2)).
  { subst d2. unfold exec. rewrite update_activation_run.
    destruct (update_first _ _ _ _ _ _ _) eqn:H; [reflexivity|].
    apply update_first_None in H. congruence. }
  split; [exact Hd1|]. split; [unfold run; rewrite Hrun; reflexivity|].
  split; [|split].
  - subst d2. unfold exec. rewrite update_activation_run.
    destruct (update_first _ _ _ _ _ _ _) eqn:H.
    + apply update_first_Some in H
        as (before & act & after & Heq & Hb & Hact & ->).
      exists before, act, after. simpl. repeat split; assumption.
    + apply update_first_None in H. congruence.
  - intros Hno. subst d2. unfold exec. rewrite update_activation_run, Hd1.
    rewrite (update_first_app_fresh _ _ _ _ _ _ _ _ Hno Hsub). reflexivity.
  - intros He Ha env. unfold exec at 1.
    rewrite (admin_approve_parsed _ "approve" email app mobile);
      [|apply split_approve_data; assumption].
    simpl. apply edit_channel_files.
Qed.

Lemma submit_then_approve_witness :
  Re.fullmatch MOBILE_RE "9876543210" = true /\
  activations_json
    (exec (write_activation "a@b.com" "upstox" "9876543210" None None noon)
       empty_disk) =
  [pending_request "a@b.com" "upstox" "9876543210"].
Proof.
  split; [reflexivity|].
  exact (proj1 (submit_then_approve "a@b.com" "upstox" "9876543210"
                  noon evening empty_disk eq_refl)).
Defined.

(** ** The non-trade override *)

Lemma rejection_status_cases app reason_id :
  (app = "angelone" /\ reason_id = "nt" /\
   rejection_status app reason_id = "approved") \/
  ((app <> "angelone" \/ reason_id <> "nt") /\
   rejection_status app reason_id = "rejected").
Proof.
  unfold rejection_status.
  destruct (String.eqb_spec app "angelone") as [Ha|Ha];
    destruct (String.eqb_spec reason_id "nt") as [Hr|Hr]; simpl; auto.
Qed.

Lemma admin_reject_cases data d : exec (admin_reject data) d = d.
Proof.
  unfold admin_reject, exec.
  destruct (Py.split "_" data) as [|p0 [|p1 [|p2 [|p3 [|p4 l]]]]];
    reflexivity.
Qed.

(** C4, as stated, fails: a reject decision without a reason code is the
    Reject button, handled by [admin_reject], and it sets no status. On
    the pending request of (a@b.com, upstox, 9876543210) it shows the
    reason menu and leaves the record pending. *)
Lemma bare_reject_leaves_pending :
  "upstox" <> "angelone" /\
  run (admin_reject (reject_data "a@b.com" "upstox" "9876543210"))
    submitted_disk =
    [EditMessage
       (SelectReason "upstox" (reason_rows "a@b.com" "upstox" "9876543210"))] /\
  activations_json
    (exec (admin_reject (reject_data "a@b.com" "upstox" "9876543210"))
       submitted_disk) =
    [Activation.mk "a@b.com" "9876543210" "upstox" "pending" "pending"
       (isoformat noon) (strftime noon) None] /\
  map Activation.status
    (activations_json
       (exec (admin_reject (reject_data "a@b.com" "upstox" "9876543210"))
          submitted_disk)) <> ["rejected"].
Proof. vm_compute. repeat split; discriminate. Qed.

(** C4, amended. The status [process_rejection] applies is ["approved"]
    exactly when the app is ["angelone"] and the reason code is ["nt"];
    for every other app it is ["rejected"] for every reason code, the
    empty and the uncatalogued ones included. The first record of the
    request in the ledger receives that status, the reason code and the
    time of the decision, its other fields and all other records being
    kept. The Reject button alone ([admin_reject]) carries no reason
    code and writes nothing: the record keeps its status until a reason
    is chosen. *)
Theorem non_trade_override :
  (forall app reason_id,
     rejection_status app reason_id = "approved" <->
     app = "angelone" /\ reason_id = "nt") /\
  (forall app, rejection_status app "nt" = "approved" <-> app = "angelone") /\
  (forall app reason_id,
     app <> "angelone" -> rejection_status app reason_id = "rejected") /\
  (forall data p0 reason_id email app mobile rest env now d,
     Py.split "_" data = p0 :: reason_id :: email :: app :: mobile :: rest ->
     has_request email app mobile (activations_json d) = true ->
     exists before act after,
       activations_json d = before ++ act :: after /\
       has_request email app mobile before = false /\
       same_request email app mobile act = true /\
       let decided :=
         Activation.mk (Activation.email act) (Activation.mobile act)
           (Activation.app act) (rejection_status app reason_id) reason_id
           (isoformat now) (Activation.submission_date act)
           (Activation.message_id act) in
       activations_json (exec (process_rejection data env now) d) =
         before ++ decided :: after /\
       (Activation.status decided = "approved" <->
        app = "angelone" /\ reason_id = "nt") /\
       (Activation.status decided = "rejected" <->
        ~ (app = "angelone" /\ reason_id = "nt")) /\
       Activation.reason decided = reason_id) /\
  (forall data d,
     exec (admin_reject data) d = d /\
     map Activation.status (activations_json (exec (admin_reject data) d)) =
       map Activation.status (activations_json d)).
Proof.
  assert (Hcases : forall app reason_id,
     (app = "angelone" /\ reason_id = "nt" /\
      rejection_status app reason_id = "approved") \/
     ((app <> "angelone" \/ reason_id <> "nt") /\
      rejection_status app reason_id = "rejected")).
  { intros app rid. unfold rejection_status.
    destruct (String.eqb_spec app "angelone") as [Ha|Ha];
      destruct (String.eqb_spec rid "nt") as [Hr|Hr]; simpl; auto. }
  assert (Hiff : forall app reason_id,
     rejection_status app reason_id = "approved" <->
     app = "angelone" /\ reason_id = "nt").
  { intros app rid.
    destruct (Hcases app rid) as [(-> & -> & H)|[Hne H]].
    - split; auto.
    - rewrite H. split; [discriminate|]. intros [-> ->].
      destruct Hne; congruence. }
  split; [exact Hiff|]. split; [|split; [|split]].
  - intros app.
    destruct (Hcases app "nt") as [(-> & _ & H)|[Hne H]].
    + split; auto.
    + rewrite H. split; [discriminate|]. intros ->. destruct Hne; congruence.
  - intros app rid Hne.
    destruct (Hcases app rid) as [(-> & _ & _)|[_ H]];
      congruence.
  - intros data p0 rid email app mobile rest env now d Hs Hhas.
    assert (Hex : exists before act after,
              activations_json d = before ++ act :: after /\
              has_request email app mobile before = false /\
              same_request email app mobile act = true /\
              activations_json (exec (process_rejection data env now) d) =
                before ++
                resolved (rejection_status app rid) rid now act :: after).
    { unfold exec at 1.
      rewrite (process_rejection_parsed _ _ _ _ _ _ _ _ _ _ Hs). cbv zeta.
      cbn [snd].
      match goal with
      | |- context [activations_json (exec (edit_channel ?e ?a ?b ?c ?v) ?x)] =>
          destruct (edit_channel_files e a b c v x) as [_ ->]
      end.
      unfold exec. rewrite update_activation_run.
      destruct (update_first _ _ _ _ _ _ _) eqn:H.
      - apply update_first_Some in H. exact H.
      - apply update_first_None in H. congruence. }
    destruct Hex as (before & act & after & Heq & Hb & Hact & Hnew).
    exists before, act, after. cbv zeta. cbn [Activation.status Activation.reason].
    split; [exact Heq|]. split; [exact Hb|]. split; [exact Hact|].
    split; [exact Hnew|]. split; [apply Hiff|]. split; [|reflexivity].
    rewrite <- Hiff.
    destruct (Hcases app rid) as [(_ & _ & ->)|[_ ->]];
      split; try discriminate; try reflexivity; intros H; destruct H;
      reflexivity.
  - intros data d. rewrite admin_reject_cases. split; reflexivity.
Qed.

Lemma non_trade_override_witness :
  ("upstox" <> "angelone" /\ rejection_status "upstox" "nt" = "rejected") /\
  has_request "a@b.com" "angelone" "9876543210"
    [pending_request "a@b.com" "angelone" "9876543210"] = true /\
  activations_json
    (exec (process_rejection
             (reason_data "nt" "a@b.com" "angelone" "9876543210")
             review_env evening)
       (mkDisk [] [pending_request "a@b.com" "angelone" "9876543210"] [])) =
    [Activation.mk "a@b.com" "9876543210" "angelone" "approved" "nt"
       (isoformat evening) (strftime noon) None].
Proof.
  split; [|split; [reflexivity|]].
  - split; [discriminate|].
    apply (proj1 (proj2 (proj2 non_trade_override)) "upstox" "nt").
    discriminate.
  - destruct (proj1 (proj2 (proj2 (proj2 non_trade_override)))
                (reason_data "nt" "a@b.com" "angelone" "9876543210")
                "reason" "nt" "a@b.com" "angelone" "9876543210" []
                review_env evening
                (mkDisk [] [pending_request "a@b.com" "angelone" "9876543210"] [])
                eq_refl eq_refl)
      as (before & act & after & Heq & Hb & Hact & Hnew & _).
    cbn [activations_json] in Heq.
    destruct before as [|b0 before].
    + injection Heq as <- <-. exact Hnew.
    + destruct before; discriminate.
Defined.

(** ** Reason codes and the texts shown for them *)

(** C9, as stated, fails: the confirmation [process_rejection] shows for
    the uncatalogued code ["zz"] reads ["Unknown reason"], not ["zz"]. *)
Lemma unknown_reason_not_literal :
  REJECTION_REASONS !! "zz" = None /\
  run (process_rejection (reason_data "zz" "a@b.com" "upstox" "9876543210")
         review_env noon) empty_disk =
    [EditMessage
       (DecidedActivation "rejected" "Unknown reason"
          "a@b.com" "upstox" "9876543210")] /\
  "Unknown reason" <> "zz".
Proof. vm_compute. repeat split. discriminate. Qed.

Lemma activation_status_run email ud d :
  UserData.email ud = Some email ->
  run (activation_status ud) d =
  (MAIN_MENU,
   match run (read_activations (Some email) None None) d with
   | [] => [NoActivationsFound]
   | acts =>
       match status_lines acts with
       | Some lines => [StatusScreen lines]
       | None => []
       end
   end).
Proof.
  intros H. unfold activation_status. rewrite H. io_unfold.
  destruct (read_activations _ _ _ d) as [acts d']. cbn [fst].
  destruct acts as [|a acts]; [reflexivity|].
  destruct (status_lines (a :: acts)); reflexivity.
Qed.

Lemma status_lines_reasons acts : forall lines,
  status_lines acts = Some lines ->
  map line_reason lines = map status_reason acts.
Proof.
  induction acts as [|act acts IH]; simpl; intros lines H.
  - injection H as <-. reflexivity.
  - destruct (Py.first_word _); [|discriminate].
    destruct (status_lines acts) as [rest|]; simpl in H; [|discriminate].
    injection H as <-. simpl. rewrite (IH rest eq_refl). reflexivity.
Qed.

(** C9, amended. A code of the catalog is shown as its catalog text both
    on the status screen and in the operator's confirmation. A code that
    is not in the catalog is shown as the literal code on the status
    screen ([activation_status]), and as ["Unknown reason"] in the
    confirmation of [process_rejection]; neither place fails. *)
Theorem reason_text_rendering :
  (forall code text act,
     REJECTION_REASONS !! code = Some text ->
     Activation.reason act = code ->
     status_reason act = text /\
     dict_get REJECTION_REASONS code "Unknown reason" = text) /\
  (forall code act,
     REJECTION_REASONS !! code = None ->
     Activation.reason act = code ->
     status_reason act = code /\
     dict_get REJECTION_REASONS code "Unknown reason" = "Unknown reason") /\
  (forall email ud d lines,
     UserData.email ud = Some email ->
     In (StatusScreen lines) (snd (run (activation_status ud) d)) ->
     exists acts,
       acts = run (read_activations (Some email) None None) d /\
       map line_reason lines = map status_reason acts) /\
  (forall data p0 reason_id email app mobile rest env now d,
     Py.split "_" data = p0 :: reason_id :: email :: app :: mobile :: rest ->
     In (EditMessage
           (DecidedActivation (rejection_status app reason_id)
              (dict_get REJECTION_REASONS reason_id "Unknown reason")
              email app mobile))
        (run (process_rejection data env now) d)).
Proof.
  split; [|split; [|split]].
  - intros code text act Hc <-. unfold status_reason, dict_get.
    rewrite Hc. auto.
  - intros code act Hc <-. unfold status_reason, dict_get.
    rewrite Hc. auto.
  - intros email ud d lines He Hin. rewrite (activation_status_run _ _ _ He) in Hin.
    cbn [snd] in Hin. eexists. split; [reflexivity|].
    destruct (run (read_activations (Some email) None None) d) as [|a acts];
      [destruct Hin as [Hin|[]]; discriminate|].
    destruct (status_lines (a :: acts)) as [lines'|] eqn:Hl; [|destruct Hin].
    destruct Hin as [Hin|[]]. injection Hin as <-.
    apply status_lines_reasons, Hl.
  - intros data p0 rid email app mobile rest env now d Hs.
    unfold run. rewrite (process_rejection_parsed _ _ _ _ _ _ _ _ _ _ Hs).
    cbv zeta. cbn [fst]. apply in_or_app. right. left. reflexivity.
Qed.

(** The catalog, and the status screen of a user with one catalogued and
    one uncatalogued reason. *)
Example catalog_texts :
  map (fun code => dict_get REJECTION_REASONS code "Unknown reason")
    ["77"; "78"; "79"; "80"; "81"; "nt"; "zz"; "0"; "pending"] =
  ["Incorrect Proof - Video/screenshot is incorrect, send correct recording showing process";
   "Improper Activation - Activation not done properly, send correct video";
   "Fraud Detected - Fraud detected, account not showing";
   "Wrong Device - Activation not done on user's device";
   "Late Submission - Activation completed after deadline";
   "Non Trade Approved"; "Unknown reason"; "Unknown reason"; "Unknown reason"].
Proof. vm_compute. reflexivity. Qed.

Example status_screen_reasons :
  run (activation_status upstox_session)
    (mkDisk []
       [Activation.mk "a@b.com" "9876543210" "upstox" "rejected" "77"
          (isoformat noon) (strftime noon) None;
        Activation.mk "a@b.com" "9876543211" "upstox" "rejected" "zz"
          (isoformat noon) (strftime noon) None] []) =
  (MAIN_MENU,
   [StatusScreen
      [mkLine "upstox" "9876543210" "rejected"
         "Incorrect Proof - Video/screenshot is incorrect, send correct recording showing process"
         "2024-05-01";
       mkLine "upstox" "9876543211" "rejected" "zz" "2024-05-01"]]).
Proof. vm_compute. reflexivity. Qed.

Lemma reason_text_rendering_witness :
  REJECTION_REASONS !! "zz" = None /\
  status_reason (Activation.mk "a@b.com" "9876543210" "upstox" "rejected" "zz"
                   (isoformat noon) (strftime noon) None) = "zz".
Proof.
  split; [reflexivity|].
  exact (proj1 (proj1 (proj2 reason_text_rendering) "zz"
                  (Activation.mk "a@b.com" "9876543210" "upstox" "rejected" "zz"
                     (isoformat noon) (strftime noon) None)
                  eq_refl eq_refl)).
Defined.

(** ** Callback data of an email with an underscore *)

(** C10 at the email [a_b@c.com], which the validator accepts: the
    callback data of its request has five (six) fields. [admin_approve]
    then fails to unpack and updates nothing; [process_rejection] reads
    the fields shifted by one, looks for the request
    ("a", "b@c.com", "angelone") and leaves the submitted record pending,
    while it shows the operator a rejection. *)
Lemma underscore_email_breaks_round_trip :
  fst (fst (email_input "a_b@c.com" no_session)) = PASSWORD /\
  Re.fullmatch MOBILE_RE "9876543210" = true /\
  Py.split "_" (approve_data "a_b@c.com" "angelone" "9876543210") =
    ["approve"; "a"; "b@c.com"; "angelone"; "9876543210"] /\
  admin_approve (approve_data "a_b@c.com" "angelone" "9876543210")
    review_env evening underscore_disk =
    ([Answer "Failed to process approval"], underscore_disk) /\
  Py.split "_" (reason_data "77" "a_b@c.com" "angelone" "9876543210") =
    ["reason"; "77"; "a"; "b@c.com"; "angelone"; "9876543210"] /\
  activations_json
    (exec (process_rejection (reason_data "77" "a_b@c.com" "angelone" "9876543210")
             review_env evening) underscore_disk) =
    activations_json underscore_disk /\
  run (process_rejection (reason_data "77" "a_b@c.com" "angelone" "9876543210")
         review_env evening) underscore_disk =
    [EditMessage
       (DecidedActivation "rejected"
          (dict_get REJECTION_REASONS "77" "Unknown reason")
          "a" "b@c.com" "angelone")].
Proof. vm_compute. repeat split. Qed.

(** ** Validation of the caption *)

(** C7. In [process_activation_proof], when the caption is absent, or is
    not exactly ten digits once stripped, the handler returns before it
    touches the ledger: the disk is the one it started with, trace
    included, so no duplicate check ran and no record was written; and
    with an app selected, as it is in [ACTIVATION_PROOF], the session
    stays in [ACTIVATION_PROOF]. *)
Theorem bad_caption_rejected msg ud env delivery now d :
  (caption msg = None \/
   exists cap, caption msg = Some cap /\
               Re.fullmatch MOBILE_RE (Py.strip cap) = false) ->
  exec (process_activation_proof msg ud env delivery now) d = d /\
  (forall app,
     UserData.selected_app ud = Some app -> app <> EmptyString ->
     fst (run (process_activation_proof msg ud env delivery now) d) =
       ACTIVATION_PROOF).
Proof.
  intros Hcap. unfold process_activation_proof, exec, run.
  destruct (UserData.selected_app ud) as [[|c app]|];
    try (split; [reflexivity|intros ? [=]; congruence]).
  assert (Hgoal : forall r : State * list Out * Disk,
            r = (ACTIVATION_PROOF, snd (fst r), d) ->
            snd r = d /\
            (forall app0, Some (String c app) = Some app0 ->
                          app0 <> EmptyString -> fst (fst r) = ACTIVATION_PROOF)).
  { intros r ->. simpl. auto. }
  apply Hgoal.
  destruct (check_media (String c app) msg) as [reply|[kind media]];
    [reflexivity|].
  destruct (caption msg) as [[|c1 cap]|] eqn:Hc; try reflexivity.
  destruct Hcap as [Hcap|(cap' & Hcap & Hbad)]; [discriminate|].
  injection Hcap as <-. rewrite Hbad. reflexivity.
Qed.

Lemma bad_caption_rejected_witness :
  Re.fullmatch MOBILE_RE (Py.strip "987654321") = false /\
  exec (process_activation_proof (mkMessage [] (Some "video-1") (Some "987654321"))
          upstox_session review_env (Delivered 7) noon) empty_disk = empty_disk /\
  fst (run (process_activation_proof
              (mkMessage [] (Some "video-1") (Some "987654321"))
              upstox_session review_env (Delivered 7) noon) empty_disk) =
    ACTIVATION_PROOF.
Proof.
  assert (Hbad : caption (mkMessage [] (Some "video-1") (Some "987654321")) = None \/
                 exists cap,
                   caption (mkMessage [] (Some "video-1") (Some "987654321")) =
                     Some cap /\
                   Re.fullmatch MOBILE_RE (Py.strip cap) = false).
  { right. exists "987654321". split; reflexivity. }
  split; [reflexivity|]. split.
  - exact (proj1 (bad_caption_rejected _ upstox_session review_env
                    (Delivered 7) noon empty_disk Hbad)).
  - apply (proj2 (bad_caption_rejected _ upstox_session review_env
                    (Delivered 7) noon empty_disk Hbad) "upstox").
    + reflexivity.
    + discriminate.
Defined.

(** ** Duplicate detection *)

(** The catalog holds no empty identifier. *)
Lemma read_apps_nonempty app_file app :
  In app (read_apps app_file) -> app <> EmptyString.
Proof.
  unfold read_apps. destruct app_file as [lines|]; [|intros []].
  rewrite in_map_iff. intros (line & <- & Hin).
  apply filter_In in Hin as [_ Hne].
  apply PyFacts.nonempty_true. rewrite PyFacts.lower_nonempty. exact Hne.
Qed.

Lemma duplicates_true app mobile act :
  duplicates app mobile act = true <->
  Activation.app act = app /\
  Activation.mobile act = Py.remove_char " " mobile /\
  active act.
Proof.
  unfold duplicates, active, str_in. simpl.
  rewrite !andb_true_iff, !orb_true_iff, !String.eqb_eq.
  intuition congruence.
Qed.

(** [is_duplicate] loads the ledger once and, for a non-empty app, looks
    for a record that [duplicates] the pair. *)
Lemma is_duplicate_run app mobile d :
  app <> EmptyString ->
  is_duplicate app mobile d =
  (existsb (duplicates app mobile) (activations_json d),
   log (Load ACTIVATIONS_FILE) d).
Proof.
  intros Happ. unfold is_duplicate, read_activations. io_unfold. simpl.
  f_equal. destruct app as [|c app]; [congruence|]. simpl.
  induction (activations_json d) as [|act acts IH]; simpl; [reflexivity|].
  unfold duplicates at 1.
  destruct (String.eqb (Activation.app act) (String c app)); simpl.
  - rewrite IH. reflexivity.
  - exact IH.
Qed.

Lemma store_message_id_duplicates email app mobile mid a m acts :
  existsb (duplicates a m) (store_message_id email app mobile mid acts) =
  existsb (duplicates a m) acts.
Proof.
  induction acts as [|act acts IH]; simpl; [reflexivity|].
  destruct (same_request email app mobile act); simpl; [reflexivity|].
  rewrite IH. reflexivity.
Qed.

Lemma notify_channel_duplicates env delivery kind media email app mobile a m d :
  users_json (exec (notify_channel env delivery kind media email app mobile) d)
    = users_json d /\
  length (activations_json
            (exec (notify_channel env delivery kind media email app mobile) d))
    = length (activations_json d) /\
  existsb (duplicates a m)
    (activations_json
       (exec (notify_channel env delivery kind media email app mobile) d)) =
  existsb (duplicates a m) (activations_json d).
Proof.
  unfold notify_channel, exec. io_unfold.
  destruct (Py.truthy (CHANNEL_ID env)); [|auto].
  destruct delivery as [mid| |]; simpl; [|auto|auto].
  rewrite store_message_id_length, store_message_id_duplicates. auto.
Qed.

Section Submission.

Variables (msg : Message) (ud : UserData.t) (env : Env)
  (delivery : Delivery) (now : Clock) (d : Disk).
Variables (app cap : string) (accepted : MediaKind * string).

Hypothesis app_selected : UserData.selected_app ud = Some app.
Hypothesis app_nonempty : app <> EmptyString.
Hypothesis media_ok : check_media app msg = inr accepted.
Hypothesis caption_given : caption msg = Some cap.
Hypothesis ten_digits : Re.fullmatch MOBILE_RE (Py.strip cap) = true.

(** A submission that passes the checks and meets an active record of
    its pair ends as a duplicate: the ledger was loaded once and nothing
    was saved. *)
Lemma duplicate_submission :
  existsb (duplicates app (Py.strip cap)) (activations_json d) = true ->
  process_activation_proof msg ud env delivery now d =
  ((MAIN_MENU, [ReplyText (DuplicateActivation app)]),
   log (Load ACTIVATIONS_FILE) d).
Proof using app_selected app_nonempty media_ok caption_given ten_digits.
  intros Hdup. unfold process_activation_proof.
  rewrite app_selected. destruct app as [|c a]; [congruence|].
  rewrite media_ok. destruct accepted as [kind media].
  rewrite caption_given. destruct cap as [|c1 cap1]; [discriminate|].
  rewrite ten_digits. cbn [negb].
  unfold mbind, IO_bind, bind. cbv beta.
  rewrite is_duplicate_run by congruence. rewrite Hdup. reflexivity.
Qed.

(** A submission that passes the checks, meets no active record and has
    a session email appends the pending record. *)
Lemma fresh_submission email :
  UserData.email ud = Some email -> email <> EmptyString ->
  existsb (duplicates app (Py.strip cap)) (activations_json d) = false ->
  process_activation_proof msg ud env delivery now d =
  let d1 := exec (write_activation email app (Py.strip cap) None None now)
              (log (Load ACTIVATIONS_FILE) d) in
  let post := notify_channel env delivery (fst accepted) (snd accepted)
                email app (Py.strip cap) in
  ((MAIN_MENU, submission_reply (run post d1)), exec post d1).
Proof using app_selected app_nonempty media_ok caption_given ten_digits.
  intros Hemail Hne Hdup. unfold process_activation_proof.
  rewrite app_selected. destruct app as [|c a]; [congruence|].
  rewrite media_ok. destruct accepted as [kind media].
  rewrite caption_given. destruct cap as [|c1 cap1]; [discriminate|].
  rewrite ten_digits. cbn [negb].
  unfold mbind at 1, IO_bind at 1, bind at 1. cbv beta.
  rewrite is_duplicate_run by congruence. rewrite Hdup.
  rewrite Hemail. destruct email as [|c2 e]; [congruence|].
  cbv zeta. unfold run, exec, mbind, IO_bind, bind, mret, IO_ret, ret.
  rewrite !write_activation_run. cbn [fst snd].
  destruct (notify_channel _ _ _ _ _ _ _ _) as [posted d2]. reflexivity.
Qed.

End Submission.

Lemma store_message_id_forget email app mobile mid acts :
  map forget_message_id (store_message_id email app mobile mid acts) =
  map forget_message_id acts.
Proof.
  induction acts as [|act acts IH]; simpl; [reflexivity|].
  destruct (same_request email app mobile act); simpl; [reflexivity|].
  rewrite IH. reflexivity.
Qed.

(** Posting to the channel changes at most the stored message ids. *)
Lemma notify_channel_ledger env delivery kind media email app mobile d :
  users_json (exec (notify_channel env delivery kind media email app mobile) d)
    = users_json d /\
  map forget_message_id
    (activations_json
       (exec (notify_channel env delivery kind media email app mobile) d)) =
  map forget_message_id (activations_json d).
Proof.
  unfold notify_channel, exec. io_unfold.
  destruct (Py.truthy (CHANNEL_ID env)); [|auto].
  destruct delivery as [mid| |]; simpl; [|auto|auto].
  rewrite store_message_id_forget. auto.
Qed.

(** What follows the posting block is the success message or the error
    message. *)
Lemma submission_reply_cases posted :
  In (ReplyText ActivationSubmitted) (submission_reply posted) \/
  submission_reply posted = [ReplyText ErrorOccurred].
Proof.
  destruct posted as [sent|]; [left|right; reflexivity].
  apply in_or_app. right. left. reflexivity.
Qed.

(** C1. For every non-empty app identifier (the catalog holds no other,
    [read_apps_nonempty]) and every mobile string, [is_duplicate] returns
    true exactly when the ledger holds a record of that app whose mobile
    is the given one with its space characters removed and whose status
    is ["pending"] or ["approved"], and it changes neither file.
    Consequently, when a submission arrives for a pair that is no
    duplicate, it is recorded as one pending record (whatever the review
    channel does), and a second submission for the same app and mobile
    that arrives before any decision is answered as a duplicate and
    leaves the ledger as the first one left it. *)
Theorem duplicate_detection :
  (forall app mobile d,
     app <> EmptyString ->
     (run (is_duplicate app mobile) d = true <->
      exists act,
        In act (activations_json d) /\
        Activation.app act = app /\
        spaces_removed mobile (Activation.mobile act) /\
        active act) /\
     users_json (exec (is_duplicate app mobile) d) = users_json d /\
     activations_json (exec (is_duplicate app mobile) d) = activations_json d) /\
  (forall msg1 msg2 ud1 ud2 env del1 del2 now1 now2 d
          app cap1 cap2 email acc1 acc2,
     app <> EmptyString ->
     UserData.selected_app ud1 = Some app ->
     UserData.selected_app ud2 = Some app ->
     check_media app msg1 = inr acc1 ->
     check_media app msg2 = inr acc2 ->
     caption msg1 = Some cap1 ->
     caption msg2 = Some cap2 ->
     Py.strip cap2 = Py.strip cap1 ->
     Re.fullmatch MOBILE_RE (Py.strip cap1) = true ->
     UserData.email ud1 = Some email -> email <> EmptyString ->
     run (is_duplicate app (Py.strip cap1)) d = false ->
     let first := process_activation_proof msg1 ud1 env del1 now1 in
     let second := process_activation_proof msg2 ud2 env del2 now2 in
     let d1 := exec first d in
     (In (ReplyText ActivationSubmitted) (snd (run first d)) \/
      snd (run first d) = [ReplyText ErrorOccurred]) /\
     map forget_message_id (activations_json d1) =
       map forget_message_id (activations_json d) ++
       [Activation.mk email (Py.strip cap1) app "pending" "pending"
          (isoformat now1) (strftime now1) None] /\
     length (activations_json d1) = S (length (activations_json d)) /\
     run second d1 = (MAIN_MENU, [ReplyText (DuplicateActivation app)]) /\
     activations_json (exec second d1) = activations_json d1 /\
     users_json (exec second d1) = users_json d1).
Proof.
  assert (Hremove : forall m m',
            spaces_removed m m' <-> m' = Py.remove_char " " m).
  { intros m m'. split.
    - induction 1 as [|m m' _ IH|c m m' Hc _ IH]; simpl.
      + reflexivity.
      + exact IH.
      + apply Ascii.eqb_neq in Hc. rewrite Hc, IH. reflexivity.
    - intros ->. induction m as [|c m IH]; simpl; [constructor|].
      destruct (Ascii.eqb_spec c " "%char) as [->|Hc]; constructor;
        assumption. }
  split.
  - intros app mobile d Happ. unfold run, exec.
    rewrite (is_duplicate_run _ _ _ Happ). cbn [fst snd].
    split; [|split; reflexivity].
    rewrite existsb_exists. split.
    + intros (act & Hin & Hd). exists act. split; [exact Hin|].
      apply duplicates_true in Hd as (Ha & Hm & Hact).
      split; [exact Ha|]. split; [|exact Hact].
      apply Hremove, Hm.
    + intros (act & Hin & Ha & Hm & Hact). exists act. split; [exact Hin|].
      apply duplicates_true. split; [exact Ha|]. split; [|exact Hact].
      apply Hremove, Hm.
  - intros msg1 msg2 ud1 ud2 env del1 del2 now1 now2 d app cap1 cap2 email
      acc1 acc2 Happ Hs1 Hs2 Hm1 Hm2 Hc1 Hc2 Hsame Hten He Hne Hfresh
      first second d1.
    unfold run in Hfresh. rewrite (is_duplicate_run _ _ _ Happ) in Hfresh.
    cbn [fst] in Hfresh.
    destruct (ReFacts.mobile_clean _ Hten) as [Hclean _].
    pose proof (fresh_submission msg1 ud1 env del1 now1 d app cap1 acc1
                  Hs1 Happ Hm1 Hc1 Hten email He Hne Hfresh) as Hfirst.
    cbv zeta in Hfirst.
    assert (Hd1 : d1 =
      exec (notify_channel env del1 (fst acc1) (snd acc1) email app (Py.strip cap1))
        (exec (write_activation email app (Py.strip cap1) None None now1)
           (log (Load ACTIVATIONS_FILE) d))).
    { subst d1 first. unfold exec at 1. rewrite Hfirst. reflexivity. }
    destruct (notify_channel_duplicates env del1 (fst acc1) (snd acc1) email app
                (Py.strip cap1) app (Py.strip cap1)
                (exec (write_activation email app (Py.strip cap1) None None now1)
                   (log (Load ACTIVATIONS_FILE) d)))
      as (_ & Hlen & Hex).
    destruct (notify_channel_ledger env del1 (fst acc1) (snd acc1) email app
                (Py.strip cap1)
                (exec (write_activation email app (Py.strip cap1) None None now1)
                   (log (Load ACTIVATIONS_FILE) d)))
      as (_ & Hforget).
    rewrite <- Hd1 in Hlen, Hex, Hforget.
    unfold exec in Hlen, Hex, Hforget.
    rewrite write_activation_run in Hlen, Hex, Hforget.
    cbn [snd activations_json log] in Hlen, Hex, Hforget.
    assert (Hdup : existsb (duplicates app (Py.strip cap2)) (activations_json d1)
                   = true).
    { rewrite Hsame. unfold exec. rewrite Hex, existsb_app. simpl.
      unfold duplicates at 2. simpl. rewrite !String.eqb_refl.
      apply orb_true_r. }
    rewrite <- Hsame in Hten.
    pose proof (duplicate_submission msg2 ud2 env del2 now2 d1 app cap2 acc2
                  Hs2 Happ Hm2 Hc2 Hten Hdup) as Hsecond.
    split; [|split; [|split; [|split; [|split]]]].
    + subst first. unfold run. rewrite Hfirst. cbn [fst snd].
      apply submission_reply_cases.
    + unfold exec. rewrite Hforget, map_app. simpl. rewrite Hclean. reflexivity.
    + unfold exec. rewrite Hlen, length_app. simpl. lia.
    + subst second. unfold run. rewrite Hsecond. reflexivity.
    + subst second. unfold exec at 1. rewrite Hsecond. reflexivity.
    + subst second. unfold exec at 1. rewrite Hsecond. reflexivity.
Qed.

Lemma duplicate_detection_witness :
  spaces_removed "98765 43210" "9876543210" /\
  run (is_duplicate "upstox" "98765 43210")
    (mkDisk [] [pending_request "a@b.com" "upstox" "9876543210"] []) = true /\
  run (is_duplicate "upstox" "98765 43210")
    (mkDisk [] [pending_request "a@b.com" "upstox" "987 6543210"] []) = false /\
  run (is_duplicate "upstox" "9876543210")
    (mkDisk [] [Activation.mk "a@b.com" "9876543210" "upstox" "rejected" "77"
                  (isoformat noon) (strftime noon) None] []) = false /\
  run (is_duplicate "upstox" (Py.strip "9876543210")) empty_disk = false /\
  run (process_activation_proof proof_video upstox_session review_env
         (Delivered 8) evening)
    (exec (process_activation_proof proof_video upstox_session review_env
             (Delivered 7) noon) empty_disk) =
    (MAIN_MENU, [ReplyText (DuplicateActivation "upstox")]).
Proof.
  assert (Hsp : spaces_removed "98765 43210" "9876543210").
  { do 5 (apply spaces_removed_keep; [discriminate|]).
    apply spaces_removed_space.
    do 5 (apply spaces_removed_keep; [discriminate|]).
    apply spaces_removed_nil. }
  split; [exact Hsp|]. split; [|split; [|split; [|split]]].
  - apply (proj1 (proj1 duplicate_detection "upstox" "98765 43210"
                    (mkDisk [] [pending_request "a@b.com" "upstox" "9876543210"] [])
                    ltac:(discriminate))).
    exists (pending_request "a@b.com" "upstox" "9876543210").
    split; [left; reflexivity|]. split; [reflexivity|].
    split; [exact Hsp|left; reflexivity].
  - apply not_true_is_false. intros H.
    apply (proj1 (proj1 duplicate_detection "upstox" "98765 43210"
                    (mkDisk [] [pending_request "a@b.com" "upstox" "987 6543210"] [])
                    ltac:(discriminate))) in H.
    destruct H as (act & [<-|[]] & _ & Hm & _).
    cbn [pending_request Activation.mobile] in Hm.
    do 3 (inversion Hm as [| |? ? ? _ Hm']; subst; clear Hm; rename Hm' into Hm).
    inversion Hm.
  - apply not_true_is_false. intros H.
    apply (proj1 (proj1 duplicate_detection "upstox" "9876543210"
                    (mkDisk [] [Activation.mk "a@b.com" "9876543210" "upstox"
                                  "rejected" "77" (isoformat noon) (strftime noon)
                                  None] [])
                    ltac:(discriminate))) in H.
    destruct H as (act & [<-|[]] & _ & _ & [Hs|Hs]); discriminate.
  - reflexivity.
  - apply (proj2 duplicate_detection proof_video proof_video
             upstox_session upstox_session review_env
             (Delivered 7) (Delivered 8) noon evening empty_disk
             "upstox" "9876543210" "9876543210" "a@b.com"
             (Video, "video-1") (Video, "video-1"));
      solve [reflexivity | discriminate].
Defined.

(** ** Registration *)

Lemma add_user_run email password name chat_id now d :
  add_user email password name chat_id now d =
  if existsb (same_email email) (users_json d) then
    match fill_chat_id email chat_id (users_json d) with
    | Some users =>
        (ChannelIdUpdated,
         mkDisk users (activations_json d)
           ((trace d ++ [Load USERS_FILE]) ++ [Save USERS_FILE]))
    | None => (AlreadyExists, log (Load USERS_FILE) d)
    end
  else
    (Created,
     mkDisk (users_json d ++
             [User.mk (Py.lower email) password name chat_id (isoformat now)])
       (activations_json d)
       ((trace d ++ [Load USERS_FILE]) ++ [Save USERS_FILE])).
Proof.
  unfold add_user. io_unfold. simpl.
  destruct (existsb _ _); [|reflexivity].
  destruct (fill_chat_id _ _ _); reflexivity.
Qed.

Section Registration.

Variable email : string.

Lemma fill_chat_id_None chat_id users :
  (forall user, In user users -> same_email email user = true ->
                truthy_id (User.chat_id user) = true) ->
  fill_chat_id email chat_id users = None.
Proof.
  induction users as [|u rest IH]; simpl; intros H; [reflexivity|].
  destruct (same_email email u) eqn:Hu; simpl.
  - rewrite (H u (or_introl eq_refl) Hu). simpl.
    rewrite IH; [reflexivity|]. intros; apply H; auto.
  - rewrite IH; [reflexivity|]. intros; apply H; auto.
Qed.

(** With a chat id supplied, the first record of the email that lacks
    one receives it; the records around it are kept. *)
Lemma fill_chat_id_Some chat_id users :
  truthy_id chat_id = true ->
  (exists user, In user users /\ same_email email user = true /\
                truthy_id (User.chat_id user) = false) ->
  exists before user after,
    users = before ++ user :: after /\
    same_email email user = true /\
    truthy_id (User.chat_id user) = false /\
    (forall u, In u before -> same_email email u = true ->
               truthy_id (User.chat_id u) = true) /\
    fill_chat_id email chat_id users =
      Some (before ++ with_chat_id chat_id user :: after).
Proof.
  intros Hc. induction users as [|u rest IH]; intros (user & Hin & Hm & Hno).
  - destruct Hin.
  - simpl. rewrite Hc, andb_true_r.
    destruct (same_email email u && negb (truthy_id (User.chat_id u))) eqn:Hu.
    + apply andb_true_iff in Hu as [Hu1 Hu2]. apply negb_true_iff in Hu2.
      exists [], u, rest. repeat split; auto; intros ? [].
    + destruct IH as (before & user' & after & -> & Hm' & Hno' & Hfirst & ->).
      { destruct Hin as [->|Hin]; [|eauto].
        rewrite Hm, Hno in Hu. discriminate. }
      exists (u :: before), user', after. repeat split; auto.
      intros u0 [->|Hin0] Hu0; [|auto].
      rewrite Hu0 in Hu. simpl in Hu. apply negb_false_iff, Hu.
Qed.

Lemma existsb_same_email users :
  existsb (same_email email) users = true <->
  In (Py.lower email) (map (fun user => Py.lower (User.email user)) users).
Proof.
  rewrite existsb_exists, in_map_iff. unfold same_email.
  split; intros (u & H1 & H2); exists u.
  - apply String.eqb_eq in H2. auto.
  - split; [exact H2|]. apply String.eqb_eq, H1.
Qed.

(** Under uniqueness the record of the email is the only one. *)
Lemma unique_record before user after u :
  emails_unique (before ++ user :: after) ->
  same_email email user = true ->
  In u (before ++ after) -> same_email email u = false.
Proof.
  unfold emails_unique, same_email. rewrite map_app. simpl.
  intros Hnd Hu Hin. apply String.eqb_eq in Hu.
  apply NoDup_remove_2 in Hnd. rewrite <- map_app in Hnd.
  apply String.eqb_neq. intros Heq. apply Hnd.
  apply in_map_iff. exists u. split; [congruence|exact Hin].
Qed.

End Registration.

Lemma same_email_with_chat_id email chat_id user :
  same_email email (with_chat_id chat_id user) = same_email email user.
Proof. reflexivity. Qed.

(** C5. Registering an email whose stored record already has a chat id
    returns [AlreadyExists]; the user file is loaded and not saved.
    Registering, with a chat id, an email whose stored record has none
    returns [ChannelIdUpdated] and changes only the chat id of that
    record: its password, name and email, and every other record, stay
    as they were. With emails unique in the store, a further
    registration of the same email, in any case, then returns
    [AlreadyExists]. A chat
    id is present when it is neither [None] nor [0], as the code tests
    it. *)
Theorem register_existing_email :
  (forall email password name chat_id now d,
     existsb (same_email email) (users_json d) = true ->
     (forall user, In user (users_json d) -> same_email email user = true ->
                   truthy_id (User.chat_id user) = true) ->
     add_user email password name chat_id now d =
       (AlreadyExists, log (Load USERS_FILE) d)) /\
  (forall email password name chat_id now d,
     truthy_id chat_id = true ->
     (exists user, In user (users_json d) /\ same_email email user = true /\
                   truthy_id (User.chat_id user) = false) ->
     exists before user after,
       users_json d = before ++ user :: after /\
       same_email email user = true /\
       truthy_id (User.chat_id user) = false /\
       (forall u, In u before -> same_email email u = true ->
                  truthy_id (User.chat_id u) = true) /\
       run (add_user email password name chat_id now) d = ChannelIdUpdated /\
       users_json (exec (add_user email password name chat_id now) d) =
         before ++ with_chat_id chat_id user :: after /\
       User.chat_id (with_chat_id chat_id user) = chat_id /\
       User.password (with_chat_id chat_id user) = User.password user /\
       User.name (with_chat_id chat_id user) = User.name user /\
       User.email (with_chat_id chat_id user) = User.email user /\
       activations_json (exec (add_user email password name chat_id now) d) =
         activations_json d) /\
  (forall email password name chat_id now d email' password' name' chat_id' now',
     emails_unique (users_json d) ->
     truthy_id chat_id = true ->
     (exists user, In user (users_json d) /\ same_email email user = true /\
                   truthy_id (User.chat_id user) = false) ->
     Py.lower email' = Py.lower email ->
     let d1 := exec (add_user email password name chat_id now) d in
     add_user email' password' name' chat_id' now' d1 =
       (AlreadyExists, log (Load USERS_FILE) d1)).
Proof.
  assert (Hupd : forall email password name chat_id now d,
     truthy_id chat_id = true ->
     (exists user, In user (users_json d) /\ same_email email user = true /\
                   truthy_id (User.chat_id user) = false) ->
     exists before user after,
       users_json d = before ++ user :: after /\
       same_email email user = true /\
       truthy_id (User.chat_id user) = false /\
       (forall u, In u before -> same_email email u = true ->
                  truthy_id (User.chat_id u) = true) /\
       add_user email password name chat_id now d =
         (ChannelIdUpdated,
          mkDisk (before ++ with_chat_id chat_id user :: after)
            (activations_json d)
            ((trace d ++ [Load USERS_FILE]) ++ [Save USERS_FILE]))).
  { intros email password name chat_id now d Hc Hex.
    destruct (fill_chat_id_Some email chat_id (users_json d) Hc Hex)
      as (before & user & after & Heq & Hm & Hno & Hfirst & Hfill).
    exists before, user, after. repeat split; auto.
    rewrite add_user_run, Hfill.
    destruct Hex as (u & Hin & Hu & _).
    assert (Hex : existsb (same_email email) (users_json d) = true)
      by (apply existsb_exists; eauto).
    rewrite Hex. reflexivity. }
  split; [|split].
  - intros email password name chat_id now d Hex Hall.
    rewrite add_user_run, Hex, (fill_chat_id_None _ _ _ Hall). reflexivity.
  - intros email password name chat_id now d Hc Hex.
    destruct (Hupd email password name chat_id now d Hc Hex)
      as (before & user & after & Heq & Hm & Hno & Hfirst & Hrun).
    exists before, user, after. unfold run, exec. rewrite Hrun.
    repeat split; auto.
  - intros email password name chat_id now d email' password' name' chat_id'
      now' Huniq Hc Hex Hci d1.
    assert (Hsame : forall u, same_email email' u = same_email email u)
      by (intros u; unfold same_email; rewrite Hci; reflexivity).
    destruct (Hupd email password name chat_id now d Hc Hex)
      as (before & user & after & Heq & Hm & Hno & Hfirst & Hrun).
    assert (Hd1 : users_json d1 = before ++ with_chat_id chat_id user :: after).
    { subst d1. unfold exec. rewrite Hrun. reflexivity. }
    rewrite add_user_run, Hd1.
    rewrite Heq in Huniq.
    assert (Hex1 : existsb (same_email email')
                     (before ++ with_chat_id chat_id user :: after) = true).
    { apply existsb_exists. exists (with_chat_id chat_id user).
      split; [apply in_elt|].
      rewrite Hsame, same_email_with_chat_id. exact Hm. }
    rewrite Hex1, fill_chat_id_None; [reflexivity|].
    intros u Hin Hu. rewrite Hsame in Hu.
    apply in_app_or in Hin as [Hin|[<-|Hin]].
    + rewrite (unique_record email before user after u Huniq Hm) in Hu;
        [discriminate|apply in_or_app; auto].
    + exact Hc.
    + rewrite (unique_record email before user after u Huniq Hm) in Hu;
        [discriminate|apply in_or_app; auto].
Qed.

Lemma register_existing_email_witness :
  run (add_user "x@y.com" "pw" "X" None noon) empty_disk = Created /\
  run (add_user "X@Y.com" "pw" "X" (Some 42%Z) evening)
    (exec (add_user "x@y.com" "pw" "X" None noon) empty_disk) =
    ChannelIdUpdated /\
  run (add_user "x@y.com" "pw" "X" (Some 43%Z) evening)
    (exec (add_user "X@Y.com" "pw" "X" (Some 42%Z) evening)
       (exec (add_user "x@y.com" "pw" "X" None noon) empty_disk)) =
    AlreadyExists.
Proof.
  split; [reflexivity|]. split; [reflexivity|].
  unfold run.
  rewrite (proj2 (proj2 register_existing_email)
             "X@Y.com" "pw" "X" (Some 42%Z) evening
             (exec (add_user "x@y.com" "pw" "X" None noon) empty_disk)
             "x@y.com" "pw" "X" (Some 43%Z) evening).
  - reflexivity.
  - repeat constructor. intros [].
  - reflexivity.
  - eexists. split; [left; reflexivity|]. split; reflexivity.
  - reflexivity.
Defined.

(** ** The directory invariants are kept *)

Lemma lower_char_idem c : Py.lower_char (Py.lower_char c) = Py.lower_char c.
Proof. destruct c as [[] [] [] [] [] [] [] []]; reflexivity. Qed.

Lemma lower_idem s : Py.lower (Py.lower s) = Py.lower s.
Proof.
  induction s as [|c s IH]; simpl; [reflexivity|].
  rewrite lower_char_idem, IH. reflexivity.
Qed.

Lemma directory_ok_emails users users' :
  map User.email users' = map User.email users ->
  directory_ok users -> directory_ok users'.
Proof.
  unfold directory_ok, emails_lowered, emails_unique.
  intros Heq [Hl Hu].
  rewrite <- (map_map User.email Py.lower) in *.
  rewrite Heq. split; [|exact Hu].
  apply Forall_forall. intros u Hin.
  assert (Hin' : In (User.email u) (map User.email users))
    by (rewrite <- Heq; apply in_map, list_elem_of_In, Hin).
  apply in_map_iff in Hin' as (u0 & <- & Hin0).
  rewrite Forall_forall in Hl. apply Hl, list_elem_of_In, Hin0.
Qed.

Lemma fill_chat_id_emails email chat_id users users' :
  fill_chat_id email chat_id users = Some users' ->
  map User.email users' = map User.email users.
Proof.
  revert users'. induction users as [|u rest IH]; simpl; intros users' H.
  - discriminate.
  - destruct (_ && _).
    + injection H as <-. reflexivity.
    + destruct (fill_chat_id email chat_id rest); simpl in H; [|discriminate].
      injection H as <-. simpl. rewrite (IH l eq_refl). reflexivity.
Qed.

Lemma bind_chat_emails email chat users users' :
  bind_chat email chat users = Some users' ->
  map User.email users' = map User.email users.
Proof.
  revert users'. induction users as [|u rest IH]; simpl; intros users' H.
  - discriminate.
  - destruct (String.eqb _ _).
    + injection H as <-. reflexivity.
    + destruct (bind_chat email chat rest); simpl in H; [|discriminate].
      injection H as <-. simpl. rewrite (IH l eq_refl). reflexivity.
Qed.

(** The empty directory is in order and [add_user] keeps it so. *)
Lemma add_user_keeps_directory email password name chat_id now d :
  directory_ok (users_json d) ->
  directory_ok (users_json (exec (add_user email password name chat_id now) d)).
Proof.
  intros Hok. unfold exec. rewrite add_user_run.
  destruct (existsb (same_email email) (users_json d)) eqn:Hex.
  - destruct (fill_chat_id email chat_id (users_json d)) eqn:Hf; simpl;
      [|exact Hok].
    eapply directory_ok_emails; [|exact Hok].
    eapply fill_chat_id_emails, Hf.
  - simpl. destruct Hok as [Hl Hu]. split.
    + apply Forall_app. split; [exact Hl|].
      constructor; [apply lower_idem|constructor].
    + unfold emails_unique in *. rewrite map_app. simpl.
      rewrite lower_idem.
      apply NoDup_rev in Hu.
      rewrite <- (rev_involutive (_ ++ _)).
      apply NoDup_rev. rewrite rev_app_distr. simpl. constructor; [|exact Hu].
      rewrite <- in_rev. rewrite <- existsb_same_email, Hex. discriminate.
Qed.

(** ** Authentication *)

Lemma emails_dict_snoc users user :
  emails_dict (users ++ [user]) =
  <[User.email user := user_info user]> (emails_dict users).
Proof. unfold emails_dict. rewrite foldl_snoc. reflexivity. Qed.

(** Every entry of the dict comes from a record of its key. *)
Lemma emails_dict_Some users email info :
  emails_dict users !! email = Some info ->
  exists user, In user users /\ User.email user = email /\ info = user_info user.
Proof.
  induction users as [|u users IH] using rev_ind.
  - unfold emails_dict. simpl. rewrite lookup_empty. discriminate.
  - rewrite emails_dict_snoc.
    destruct (decide (User.email u = email)) as [He|He].
    + rewrite <- He, lookup_insert_eq. intros [= <-].
      exists u. split; [apply in_elt|auto].
    + rewrite lookup_insert_ne by exact He. intros H.
      destruct (IH H) as (user & Hin & Hu & Hi).
      exists user. split; [apply in_or_app; auto|auto].
Qed.

(** With unique keys the dict returns the record of the key. *)
Lemma emails_dict_In users user :
  List.NoDup (map User.email users) -> In user users ->
  emails_dict users !! User.email user = Some (user_info user).
Proof.
  induction users as [|u users IH] using rev_ind; intros Hnd Hin.
  - destruct Hin.
  - rewrite emails_dict_snoc. rewrite map_app in Hnd.
    apply in_app_or in Hin as [Hin|[->|[]]].
    + rewrite lookup_insert_ne.
      * apply IH; [|exact Hin]. eapply NoDup_app_remove_r, Hnd.
      * intros Heq. simpl in Hnd. apply NoDup_remove_2 in Hnd.
        apply Hnd. rewrite app_nil_r, Heq. apply in_map, Hin.
    + apply lookup_insert_eq.
Qed.

Lemma directory_ok_NoDup users :
  directory_ok users -> List.NoDup (map User.email users).
Proof.
  intros [Hl Hu]. unfold emails_unique in Hu.
  erewrite map_ext_in; [exact Hu|].
  intros u Hin. unfold emails_lowered in Hl. rewrite Forall_forall in Hl.
  symmetry. apply Hl, list_elem_of_In, Hin.
Qed.

(** The binding loop rewrites the first record of the email. *)
Lemma bind_chat_first email chat before user after :
  (forall u, In u before -> User.email u <> email) ->
  User.email user = email ->
  bind_chat email chat (before ++ user :: after) =
  Some (before ++ with_chat_id (Some chat) user :: after).
Proof.
  intros Hb Hu. induction before as [|u before IH]; simpl.
  - rewrite Hu, String.eqb_refl. reflexivity.
  - destruct (String.eqb_spec (User.email u) email) as [He|He].
    + destruct (Hb u (or_introl eq_refl) He).
    + rewrite IH; [reflexivity|]. intros; apply Hb; right; assumption.
Qed.

Lemma NoDup_emails_before before user after u :
  List.NoDup (map User.email (before ++ user :: after)) ->
  In u before -> User.email u <> User.email user.
Proof.
  rewrite map_app. simpl. intros Hnd Hin Heq.
  apply NoDup_remove_2 in Hnd. apply Hnd, in_or_app. left.
  rewrite <- Heq. apply in_map, Hin.
Qed.

Section Login.

Variables (text : string) (chat : Z) (ud : UserData.t) (d : Disk).
Variable email : string.
Hypothesis session_email : UserData.email ud = Some email.

Lemma password_input_refused :
  (forall info, emails_dict (users_json d) !! email = Some info ->
                info_password info <> Py.strip text) ->
  password_input text chat ud d = (Some (refused ud), log (Load USERS_FILE) d).
Proof using session_email.
  intros Hno. unfold password_input. rewrite session_email.
  unfold read_emails. io_unfold. simpl.
  destruct (emails_dict (users_json d) !! email) as [info|] eqn:Hi;
    [|reflexivity].
  destruct (String.eqb_spec (info_password info) (Py.strip text)) as [He|He];
    [|reflexivity].
  destruct (Hno info eq_refl He).
Qed.

Lemma password_input_accepted info :
  emails_dict (users_json d) !! email = Some info ->
  info_password info = Py.strip text ->
  run (password_input text chat ud) d = Some (logged_in ud info) /\
  activations_json (exec (password_input text chat ud) d) = activations_json d /\
  users_json (exec (password_input text chat ud) d) =
    if truthy_id (info_chat_id info) then users_json d
    else default (users_json d) (bind_chat email chat (users_json d)).
Proof using session_email.
  intros Hi Hp. unfold password_input, run, exec. rewrite session_email.
  unfold read_emails. io_unfold. simpl. rewrite Hi, Hp, String.eqb_refl.
  unfold logged_in. rewrite session_email.
  destruct (truthy_id (info_chat_id info)); simpl; [auto|].
  destruct (bind_chat email chat (users_json d)); simpl; auto.
Qed.

End Login.

Lemma email_input_accepted text ud :
  fst (fst (email_input text ud)) = PASSWORD ->
  Re.match_anchored EMAIL_RE (Py.lower (Py.strip text)) = true /\
  UserData.email (snd (fst (email_input text ud))) =
    Some (Py.lower (Py.strip text)).
Proof.
  unfold email_input.
  destruct (Re.match_anchored EMAIL_RE (Py.lower (Py.strip text))); simpl.
  - auto.
  - discriminate.
Qed.

(** Whether some stored user matches can be decided. *)
Lemma classic_match email_text password_text users :
  (exists user, In user users /\
                credentials_match email_text password_text user) \/
  (forall user, In user users ->
                ~ credentials_match email_text password_text user).
Proof.
  induction users as [|u users [(user & Hin & Hm)|Hnone]].
  - right. intros ? [].
  - left. exists user. split; [right; exact Hin|exact Hm].
  - destruct (String.string_dec (Py.lower (User.email u))
                (Py.lower (Py.strip email_text))) as [He|He];
      [destruct (String.string_dec (User.password u) (Py.strip password_text))
         as [Hp|Hp]|].
    + left. exists u. split; [left; reflexivity|split; assumption].
    + right. intros user [<-|Hin]; [intros [_ H]; auto|auto].
    + right. intros user [<-|Hin]; [intros [H _]; auto|auto].
Qed.

(** C6, as stated, fails: the entered password is not compared exactly.
    With the user (a@b.com, "secret") registered, the entry
    ["  secret  "], which differs from the stored password, logs in; and
    when the stored password is ["secret "], with a space at its end,
    the very same entry is refused. *)
Lemma padded_password_logs_in :
  "  secret  " <> User.password registered_user /\
  run (password_input "  secret  " 42
         (snd (fst (email_input "A@B.com" no_session)))) registered =
    Some (MAIN_MENU, UserData.mk (Some "a@b.com") (Some "Asha") None,
          [ReplyText LoginSuccessful; ReplyText (MainMenu "Asha" "a@b.com")]) /\
  run (password_input "secret " 42
         (snd (fst (email_input "A@B.com" no_session))))
    (mkDisk [User.mk "a@b.com" "secret " "Asha" None (isoformat noon)] [] []) =
    Some (EMAIL, UserData.mk (Some "a@b.com") None None,
          [ReplyText InvalidEmailOrPassword]).
Proof. vm_compute. repeat split. discriminate. Qed.

(** C6, amended. After an email that passed [email_input], and with the
    directory in order (emails stored in lower case and unique, as
    [add_user] keeps them), [password_input] logs in exactly when a
    stored user has the entered email, compared without regard to case
    and surrounding whitespace, and a stored password equal to the
    entered password with its surrounding whitespace stripped. On
    success the session moves to the main menu; if the matched user has
    no chat id, the current chat becomes its chat id and nothing else in
    the user file changes; if it has one, the user file is left as it
    was. On failure nothing is written. *)
Theorem authentication email_text password_text chat ud d :
  directory_ok (users_json d) ->
  fst (fst (email_input email_text ud)) = PASSWORD ->
  let ud1 := snd (fst (email_input email_text ud)) in
  let result := run (password_input password_text chat ud1) d in
  let d' := exec (password_input password_text chat ud1) d in
  ((exists ud2 out, result = Some (MAIN_MENU, ud2, out)) <->
   (exists user, In user (users_json d) /\
                 Py.lower (User.email user) = Py.lower (Py.strip email_text) /\
                 User.password user = Py.strip password_text)) /\
  ((forall user, In user (users_json d) ->
                 ~ credentials_match email_text password_text user) ->
   result = Some (refused ud1) /\ users_json d' = users_json d) /\
  (forall user,
     In user (users_json d) ->
     credentials_match email_text password_text user ->
     result = Some (logged_in ud1 (user_info user)) /\
     (truthy_id (User.chat_id user) = false ->
      exists before after,
        users_json d = before ++ user :: after /\
        users_json d' =
          before ++
          User.mk (User.email user) (User.password user) (User.name user)
            (Some chat) (User.created_at user) :: after) /\
     (truthy_id (User.chat_id user) = true -> users_json d' = users_json d)) /\
  activations_json d' = activations_json d.
Proof.
  intros Hok Hvalid ud1 result d'.
  destruct (email_input_accepted _ _ Hvalid) as [_ Hsession].
  fold ud1 in Hsession.
  set (email := Py.lower (Py.strip email_text)) in *.
  pose proof (directory_ok_NoDup _ Hok) as Hnd.
  assert (Hlow : forall user, In user (users_json d) ->
                 Py.lower (User.email user) = User.email user).
  { destruct Hok as [Hl _]. unfold emails_lowered in Hl.
    rewrite Forall_forall in Hl. intros u Hin. apply Hl, list_elem_of_In, Hin. }
  assert (Hfound : forall user,
            In user (users_json d) ->
            credentials_match email_text password_text user ->
            emails_dict (users_json d) !! email = Some (user_info user) /\
            info_password (user_info user) = Py.strip password_text).
  { intros user Hin [He Hp]. split; [|exact Hp].
    rewrite (Hlow _ Hin) in He. fold email in He. rewrite <- He.
    apply emails_dict_In; assumption. }
  assert (Hsuccess : forall user,
     In user (users_json d) ->
     credentials_match email_text password_text user ->
     result = Some (logged_in ud1 (user_info user)) /\
     (truthy_id (User.chat_id user) = false ->
      exists before after,
        users_json d = before ++ user :: after /\
        users_json d' =
          before ++
          User.mk (User.email user) (User.password user) (User.name user)
            (Some chat) (User.created_at user) :: after) /\
     (truthy_id (User.chat_id user) = true -> users_json d' = users_json d)).
  { intros user Hin Hm. destruct (Hfound user Hin Hm) as [Hi Hp].
    destruct (password_input_accepted password_text chat ud1 d email Hsession
                (user_info user) Hi Hp) as (Hres & _ & Husers).
    split; [exact Hres|]. fold d' in Husers. simpl in Husers. split.
    - intros Hno. rewrite Hno in Husers.
      destruct (in_split _ _ Hin) as (before & after & Heq).
      exists before, after. split; [exact Heq|].
      rewrite Husers, Heq, bind_chat_first; [reflexivity| |].
      + intros u Hu. rewrite Heq in Hnd.
        destruct Hm as [He _]. rewrite (Hlow _ Hin) in He. fold email in He.
        rewrite <- He. eapply NoDup_emails_before; eassumption.
      + destruct Hm as [He _]. rewrite (Hlow _ Hin) in He. exact He.
    - intros Hyes. rewrite Hyes in Husers. exact Husers. }
  assert (Hfailure :
     (forall user, In user (users_json d) ->
                   ~ credentials_match email_text password_text user) ->
     password_input password_text chat ud1 d =
       (Some (refused ud1), log (Load USERS_FILE) d)).
  { intros Hnone. apply (password_input_refused _ _ _ _ email Hsession).
    intros info Hi Hp.
    destruct (emails_dict_Some _ _ _ Hi) as (user & Hin & He & ->).
    apply (Hnone user Hin). split; [|exact Hp].
    rewrite (Hlow _ Hin), He. reflexivity. }
  split; [|split; [|split]].
  - split.
    + intros (ud2 & out & Hres).
      destruct (classic_match email_text password_text (users_json d))
        as [(user & Hin & He & Hp)|Hnone]; [exists user; auto|].
      subst result. unfold run in Hres. rewrite (Hfailure Hnone) in Hres.
      discriminate.
    + intros (user & Hin & He & Hp).
      destruct (Hsuccess user Hin (conj He Hp)) as [Hres _].
      rewrite Hres. unfold logged_in. eauto.
  - intros Hnone. subst result d'. unfold run, exec.
    rewrite (Hfailure Hnone). auto.
  - exact Hsuccess.
  - destruct (emails_dict (users_json d) !! email) as [info|] eqn:Hi.
    + destruct (String.eqb_spec (info_password info) (Py.strip password_text))
        as [Hp|Hp].
      * apply (password_input_accepted password_text chat ud1 d email Hsession
                 info Hi Hp).
      * subst d'. unfold exec.
        rewrite (password_input_refused _ _ _ _ email Hsession); [reflexivity|].
        intros info' Hi'. congruence.
    + subst d'. unfold exec.
      rewrite (password_input_refused _ _ _ _ email Hsession); [reflexivity|].
      intros info' Hi'. congruence.
Qed.

(** The scenario of the specification: a@b.com / secret is registered
    without a chat id; the login with A@B.com / secret from chat 42
    succeeds and stores 42 as the chat id of the user. *)
Lemma authentication_witness :
  directory_ok (users_json registered) /\
  fst (fst (email_input "A@B.com" no_session)) = PASSWORD /\
  run (password_input "secret" 42 (snd (fst (email_input "A@B.com" no_session))))
    registered =
    Some (MAIN_MENU, UserData.mk (Some "a@b.com") (Some "Asha") None,
          [ReplyText LoginSuccessful; ReplyText (MainMenu "Asha" "a@b.com")]) /\
  users_json
    (exec (password_input "secret" 42
             (snd (fst (email_input "A@B.com" no_session)))) registered) =
    [User.mk "a@b.com" "secret" "Asha" (Some 42%Z) (isoformat noon)].
Proof.
  assert (Hok : directory_ok (users_json registered)).
  { split; repeat constructor. intros []. }
  split; [exact Hok|]. split; [reflexivity|].
  destruct (proj1 (proj2 (proj2 (authentication "A@B.com" "secret" 42 no_session
                                   registered Hok eq_refl)))
              registered_user (or_introl eq_refl) (conj eq_refl eq_refl))
    as (Hres & Hbind & _).
  split; [exact Hres|].
  destruct (Hbind eq_refl) as (before & after & Heq & Hnew).
  cbn [users_json registered] in Heq.
  destruct before as [|u0 before].
  - injection Heq as <-. exact Hnew.
  - destruct before; discriminate.
Defined.

(** A later login from chat 43 leaves the binding to chat 42, and a
    user registered with the chat id 0 counts as having none. *)
Example first_login_binds_chat :
  users_json
    (exec (password_input "secret" 43 (UserData.mk (Some "a@b.com") None None))
       (exec (password_input "secret" 42
                (UserData.mk (Some "a@b.com") None None)) registered)) =
    [User.mk "a@b.com" "secret" "Asha" (Some 42%Z) (isoformat noon)] /\
  users_json
    (exec (password_input "secret" 43 (UserData.mk (Some "a@b.com") None None))
       (mkDisk [User.mk "a@b.com" "secret" "Asha" (Some 0%Z) (isoformat noon)]
          [] [])) =
    [User.mk "a@b.com" "secret" "Asha" (Some 43%Z) (isoformat noon)].
Proof. vm_compute. split; reflexivity. Qed.

(** [password_input] keeps the directory in order. *)
Lemma password_input_keeps_directory text chat ud d :
  directory_ok (users_json d) ->
  directory_ok (users_json (exec (password_input text chat ud) d)).
Proof.
  intros Hok. unfold password_input, exec.
  destruct (UserData.email ud) as [email|]; [|exact Hok].
  unfold read_emails. io_unfold. simpl.
  destruct (emails_dict (users_json d) !! email) as [info|]; [|exact Hok].
  destruct (String.eqb _ _); [|exact Hok].
  destruct (truthy_id (info_chat_id info)); simpl; [exact Hok|].
  destruct (bind_chat email chat (users_json d)) eqn:Hb; simpl; [|exact Hok].
  eapply directory_ok_emails; [|exact Hok].
  eapply bind_chat_emails, Hb.
Qed.

(** * Further properties *)

(** ** The matcher is complete for the language *)

Module ReComplete.
Import Re.

Lemma append_empty s1 s2 :
  s1 +:+ s2 = EmptyString -> s1 = EmptyString /\ s2 = EmptyString.
Proof. destruct s1; [auto|discriminate]. Qed.

Lemma matches_nullable r s : matches r s -> s = EmptyString -> nullable r = true.
Proof.
  induction 1 as [|p c Hp|r1 r2 s1 s2 _ IH1 _ IH2|r1 r2 s _ IH|r1 r2 s _ IH| |];
    intros Hs; simpl; auto.
  - discriminate.
  - apply append_empty in Hs as [-> ->]. rewrite IH1, IH2; auto.
  - rewrite IH; auto.
  - rewrite IH; auto. apply orb_true_r.
Qed.

Lemma matches_deriv r s :
  matches r s -> forall c s', s = String c s' -> matches (deriv c r) s'.
Proof.
  induction 1 as [|p c0 Hp|r1 r2 s1 s2 H1 IH1 H2 IH2|r1 r2 s _ IH|r1 r2 s _ IH
                  |r|r s1 s2 H1 IH1 H2 IH2]; intros c s' Hs; simpl.
  - discriminate.
  - injection Hs as -> <-. rewrite Hp. constructor.
  - destruct s1 as [|c1 s1].
    + change (EmptyString +:+ s2) with s2 in Hs.
      rewrite (matches_nullable _ _ H1 eq_refl). apply MAltR. auto.
    + rewrite PyFacts.append_cons in Hs. injection Hs as -> <-.
      assert (Hc : matches (Cat (deriv c r1) r2) (s1 +:+ s2))
        by (constructor; auto).
      destruct (nullable r1); [apply MAltL|]; exact Hc.
  - apply MAltL. auto.
  - apply MAltR. auto.
  - discriminate.
  - destruct s1 as [|c1 s1].
    + change (EmptyString +:+ s2) with s2 in Hs. apply (IH2 c s' Hs).
    + rewrite PyFacts.append_cons in Hs. injection Hs as -> <-.
      constructor; auto.
Qed.

Lemma matches_fullmatch : forall s r, matches r s -> fullmatch r s = true.
Proof.
  induction s as [|c s IH]; simpl; intros r H.
  - eapply matches_nullable; eauto.
  - apply IH. eapply matches_deriv; eauto.
Qed.

(** [re.fullmatch] decides the language. *)
Lemma fullmatch_iff r s : fullmatch r s = true <-> matches r s.
Proof. split; [apply ReFacts.fullmatch_matches|apply matches_fullmatch]. Qed.

(** The languages of the derived forms over one class. *)
Lemma matches_Star_class p s :
  matches (Star (Class p)) s <-> Py.all_chars p s = true.
Proof.
  split.
  - intros H. remember (Star (Class p)) as r eqn:Hr.
    induction H as [| | | | | |r0 s1 s2 H1 _ H2 IH2]; try discriminate.
    + reflexivity.
    + injection Hr as ->. inversion H1; subst.
      change (String c EmptyString +:+ s2) with (String c s2). simpl.
      rewrite (IH2 eq_refl). rewrite H0. reflexivity.
  - induction s as [|c s IH]; simpl; intros H.
    + constructor.
    + apply andb_true_iff in H as [Hc Hs].
      change (String c s) with (String c EmptyString +:+ s).
      constructor; [constructor; exact Hc|auto].
Qed.

Lemma matches_Cat r1 r2 s :
  matches (Cat r1 r2) s <->
  exists s1 s2, s = s1 +:+ s2 /\ matches r1 s1 /\ matches r2 s2.
Proof.
  split.
  - intros H. inversion H; subst. eauto.
  - intros (s1 & s2 & -> & H1 & H2). constructor; auto.
Qed.

Lemma matches_Class p s :
  matches (Class p) s <-> exists c, s = String c EmptyString /\ p c = true.
Proof.
  split.
  - intros H. inversion H; subst. eauto.
  - intros (c & -> & H). constructor. exact H.
Qed.

Lemma matches_Chr x s : matches (Chr x) s <-> s = String x EmptyString.
Proof.
  unfold Chr. rewrite matches_Class. split.
  - intros (c & -> & H). apply Ascii.eqb_eq in H. subst. reflexivity.
  - intros ->. exists x. split; [reflexivity|apply Ascii.eqb_refl].
Qed.

Lemma matches_Plus_class p s :
  matches (Plus (Class p)) s <-> s <> EmptyString /\ Py.all_chars p s = true.
Proof.
  unfold Plus. rewrite matches_Cat. split.
  - intros (s1 & s2 & -> & H1 & H2).
    apply matches_Class in H1 as (c & -> & Hc).
    apply matches_Star_class in H2.
    change (String c EmptyString +:+ s2) with (String c s2). simpl.
    rewrite Hc, H2. split; [discriminate|reflexivity].
  - intros [Hne H]. destruct s as [|c s]; [congruence|].
    simpl in H. apply andb_true_iff in H as [Hc Hs].
    exists (String c EmptyString), s. split; [reflexivity|]. split.
    + apply matches_Class. eauto.
    + apply matches_Star_class, Hs.
Qed.

Lemma matches_Times_class p n s :
  matches (Times n (Class p)) s <->
  String.length s = n /\ Py.all_chars p s = true.
Proof.
  split.
  - intros H. destruct (ReFacts.matches_Times p n s H). auto.
  - revert s. induction n as [|n IH]; intros s [Hl Ha].
    + destruct s; [constructor|discriminate].
    + destruct s as [|c s]; [discriminate|]. simpl in *.
      apply andb_true_iff in Ha as [Hc Hs].
      change (String c s) with (String c EmptyString +:+ s).
      constructor; [constructor; exact Hc|]. apply IH. split; [lia|exact Hs].
Qed.

End ReComplete.

(** ** What the two validators accept *)

Lemma matches_AtLeast_two p s :
  Re.matches (Re.AtLeast 2 (Re.Class p)) s <->
  2 <= String.length s /\ Py.all_chars p s = true.
Proof.
  unfold Re.AtLeast. rewrite ReComplete.matches_Cat. split.
  - intros (s1 & s2 & -> & H1 & H2).
    apply ReComplete.matches_Times_class in H1 as [Hl Ha].
    apply ReComplete.matches_Star_class in H2.
    destruct s1 as [|a [|b [|? ?]]]; try discriminate.
    change (String a (String b EmptyString) +:+ s2) with (String a (String b s2)).
    simpl in *. rewrite H2.
    apply andb_true_iff in Ha as [-> Ha]. apply andb_true_iff in Ha as [-> _].
    split; [lia|reflexivity].
  - intros [Hl Ha]. destruct s as [|a [|b s]]; simpl in Hl; try lia.
    simpl in Ha. apply andb_true_iff in Ha as [Ha Hb].
    apply andb_true_iff in Hb as [Hb Hs].
    exists (String a (String b EmptyString)), s. split; [reflexivity|]. split.
    + apply ReComplete.matches_Times_class. simpl. rewrite Ha, Hb. auto.
    + apply ReComplete.matches_Star_class, Hs.
Qed.

Lemma matches_email s : Re.matches EMAIL_RE s <-> email_shape s.
Proof.
  unfold EMAIL_RE, email_shape. split.
  - intros H.
    apply ReComplete.matches_Cat in H as (local & r1 & -> & Hl & H).
    apply ReComplete.matches_Cat in H as (at_ & r2 & -> & Hat & H).
    apply ReComplete.matches_Cat in H as (domain & r3 & -> & Hd & H).
    apply ReComplete.matches_Cat in H as (dot & tld & -> & Hdot & Ht).
    apply ReComplete.matches_Chr in Hat as ->.
    apply ReComplete.matches_Chr in Hdot as ->.
    apply ReComplete.matches_Plus_class in Hl as [Hl1 Hl2].
    apply ReComplete.matches_Plus_class in Hd as [Hd1 Hd2].
    apply matches_AtLeast_two in Ht as [Ht1 Ht2].
    exists local, domain, tld. repeat split; auto.
  - intros (local & domain & tld & -> & Hl1 & Hl2 & Hd1 & Hd2 & Ht1 & Ht2).
    constructor; [apply ReComplete.matches_Plus_class; auto|].
    constructor; [apply ReComplete.matches_Chr; reflexivity|].
    constructor; [apply ReComplete.matches_Plus_class; auto|].
    constructor; [apply ReComplete.matches_Chr; reflexivity|].
    apply matches_AtLeast_two. auto.
Qed.

Lemma last_char_rstrip s c :
  Re.last_char (Py.rstrip s) = Some c -> Py.isspace c = false.
Proof.
  revert c. induction s as [|a s IH]; simpl; intros c H; [discriminate|].
  destruct (Py.rstrip s) as [|b r] eqn:Hr.
  - destruct (Py.isspace a) eqn:Ha; simpl in H; [discriminate|].
    injection H as <-. exact Ha.
  - apply IH. simpl in H. exact H.
Qed.

Lemma last_char_lower s :
  Re.last_char (Py.lower s) = option_map Py.lower_char (Re.last_char s).
Proof.
  induction s as [|a s IH]; [reflexivity|].
  destruct s as [|b s]; [reflexivity|].
  change (Re.last_char (Py.lower (String a (String b s))))
    with (Re.last_char (Py.lower (String b s))).
  rewrite IH. reflexivity.
Qed.

Lemma lower_char_newline c : Py.lower_char c = "010"%char -> c = "010"%char.
Proof. destruct c as [[] [] [] [] [] [] [] []]; vm_compute; congruence. Qed.

(** A stripped and lowered text does not end with a newline, so the
    anchored match is a full match. *)
Lemma match_anchored_stripped r text :
  Re.match_anchored r (Py.lower (Py.strip text)) =
  Re.fullmatch r (Py.lower (Py.strip text)).
Proof.
  unfold Re.match_anchored. rewrite last_char_lower. unfold Py.strip.
  destruct (Re.last_char (Py.rstrip (Py.lstrip text))) as [c|] eqn:Hc; simpl;
    [|apply orb_false_r].
  destruct (Ascii.eqb_spec (Py.lower_char c) "010"%char) as [He|He]; simpl;
    [|apply orb_false_r].
  apply lower_char_newline in He. subst c.
  apply last_char_rstrip in Hc. discriminate.
Qed.

(** X1. [email_input] moves on to the password exactly when the text,
    stripped and lowered, is a non-empty run of letters, digits and
    [._%+-], an [@], a non-empty run of letters, digits and [.-], a dot
    and at least two letters; it then stores that address in the
    session, and otherwise leaves the session as it was. *)
Theorem email_input_accepts text ud :
  (fst (fst (email_input text ud)) = PASSWORD <->
   email_shape (Py.lower (Py.strip text))) /\
  (email_shape (Py.lower (Py.strip text)) ->
   email_input text ud =
     (PASSWORD,
      UserData.mk (Some (Py.lower (Py.strip text))) (UserData.name ud)
        (UserData.selected_app ud),
      [ReplyText AskPassword])) /\
  (~ email_shape (Py.lower (Py.strip text)) ->
   email_input text ud = (EMAIL, ud, [ReplyText InvalidEmailFormat])).
Proof.
  unfold email_input. rewrite match_anchored_stripped.
  rewrite <- matches_email, <- ReComplete.fullmatch_iff.
  destruct (Re.fullmatch EMAIL_RE (Py.lower (Py.strip text))); simpl.
  - split; [tauto|]. split; [reflexivity|]. intros H. destruct H. reflexivity.
  - split; [split; discriminate|]. split; [discriminate|reflexivity].
Qed.

Lemma email_input_accepts_witness :
  email_shape (Py.lower (Py.strip " Asha.K+1@Mail.Example.org ")) /\
  email_input " Asha.K+1@Mail.Example.org " no_session =
    (PASSWORD, UserData.mk (Some "asha.k+1@mail.example.org") None None,
     [ReplyText AskPassword]).
Proof.
  assert (H : email_shape (Py.lower (Py.strip " Asha.K+1@Mail.Example.org "))).
  { exists "asha.k+1", "mail.example", "org". vm_compute.
    repeat split; try discriminate. lia. }
  split; [exact H|].
  exact (proj1 (proj2 (email_input_accepts " Asha.K+1@Mail.Example.org "
                         no_session)) H).
Defined.

Lemma mobile_ten_digits m :
  Re.fullmatch MOBILE_RE m = true <->
  String.length m = 10 /\ Py.all_chars Py.is_digit m = true.
Proof.
  unfold MOBILE_RE. rewrite ReComplete.fullmatch_iff.
  apply ReComplete.matches_Times_class.
Qed.

(** ** The submission handler, path by path *)

Section Checked.

Variables (msg : Message) (ud : UserData.t) (env : Env)
  (delivery : Delivery) (now : Clock) (d : Disk).
Variables (app cap : string) (accepted : MediaKind * string).

Hypothesis app_selected : UserData.selected_app ud = Some app.
Hypothesis app_nonempty : app <> EmptyString.
Hypothesis media_ok : check_media app msg = inr accepted.
Hypothesis caption_given : caption msg = Some cap.

Lemma invalid_mobile_submission :
  Re.fullmatch MOBILE_RE (Py.strip cap) = false ->
  process_activation_proof msg ud env delivery now d =
  ((ACTIVATION_PROOF,
    [ReplyText (match cap with
                | EmptyString => IncludeMobileInCaption
                | _ => InvalidMobileNumber
                end)]), d).
Proof using app_selected app_nonempty media_ok caption_given.
  intros Hbad. unfold process_activation_proof.
  rewrite app_selected. destruct app as [|c a]; [congruence|].
  rewrite media_ok. destruct accepted as [kind media].
  rewrite caption_given. destruct cap as [|c1 cap1]; [reflexivity|].
  rewrite Hbad. reflexivity.
Qed.

Hypothesis ten_digits : Re.fullmatch MOBILE_RE (Py.strip cap) = true.

(** Without a session email nothing is written. *)
Lemma expired_submission :
  (UserData.email ud = None \/ UserData.email ud = Some EmptyString) ->
  existsb (duplicates app (Py.strip cap)) (activations_json d) = false ->
  process_activation_proof msg ud env delivery now d =
  ((END, [ReplyText SessionExpired]), log (Load ACTIVATIONS_FILE) d).
Proof using app_selected app_nonempty media_ok caption_given ten_digits.
  intros Hemail Hdup. unfold process_activation_proof.
  rewrite app_selected. destruct app as [|c a]; [congruence|].
  rewrite media_ok. destruct accepted as [kind media].
  rewrite caption_given. destruct cap as [|c1 cap1]; [discriminate|].
  rewrite ten_digits. cbn [negb].
  unfold mbind, IO_bind, bind. cbv beta.
  rewrite is_duplicate_run by congruence. rewrite Hdup.
  destruct Hemail as [-> | ->]; reflexivity.
Qed.

(** The three ways a checked submission ends. *)
Lemma checked_submission :
  (existsb (duplicates app (Py.strip cap)) (activations_json d) = true /\
   process_activation_proof msg ud env delivery now d =
     ((MAIN_MENU, [ReplyText (DuplicateActivation app)]),
      log (Load ACTIVATIONS_FILE) d)) \/
  (existsb (duplicates app (Py.strip cap)) (activations_json d) = false /\
   (UserData.email ud = None \/ UserData.email ud = Some EmptyString) /\
   process_activation_proof msg ud env delivery now d =
     ((END, [ReplyText SessionExpired]), log (Load ACTIVATIONS_FILE) d)) \/
  (exists email,
     existsb (duplicates app (Py.strip cap)) (activations_json d) = false /\
     UserData.email ud = Some email /\ email <> EmptyString /\
     process_activation_proof msg ud env delivery now d =
       let d1 := exec (write_activation email app (Py.strip cap) None None now)
                   (log (Load ACTIVATIONS_FILE) d) in
       let post := notify_channel env delivery (fst accepted) (snd accepted)
                     email app (Py.strip cap) in
       ((MAIN_MENU, submission_reply (run post d1)), exec post d1)).
Proof using app_selected app_nonempty media_ok caption_given ten_digits.
  destruct (existsb (duplicates app (Py.strip cap)) (activations_json d))
    eqn:Hdup.
  - left. split; [reflexivity|].
    apply (duplicate_submission msg ud env delivery now d app cap accepted);
      assumption.
  - right. destruct (UserData.email ud) as [[|c e]|] eqn:He.
    + left. split; [reflexivity|]. split; [auto|].
      apply expired_submission; auto.
    + right. exists (String c e). split; [reflexivity|].
      split; [reflexivity|]. split; [discriminate|].
      apply (fresh_submission msg ud env delivery now d app cap accepted);
        try assumption. discriminate.
    + left. split; [reflexivity|]. split; [auto|].
      apply expired_submission; auto.
Qed.

End Checked.

(** What posting to the channel does to the ledger. *)
Lemma notify_channel_run env delivery kind media email app mobile d :
  notify_channel env delivery kind media email app mobile d =
  if Py.truthy (CHANNEL_ID env) then
    match delivery with
    | Delivered message_id =>
        (Some [ChannelMedia kind media email app mobile
                 (review_keyboard email app mobile)],
         mkDisk (users_json d)
           (store_message_id email app mobile message_id (activations_json d))
           ((trace d ++ [Load ACTIVATIONS_FILE]) ++ [Save ACTIVATIONS_FILE]))
    | DeliveryFailed =>
        (Some (if Py.truthy (ADMIN_CHAT_ID env)
               then [AdminAlert app email] else []), d)
    | AlertFailed =>
        (if Py.truthy (ADMIN_CHAT_ID env) then None else Some [], d)
    end
  else (Some [], d).
Proof.
  unfold notify_channel. io_unfold.
  destruct (Py.truthy (CHANNEL_ID env)); [|reflexivity].
  destruct delivery; reflexivity.
Qed.

Lemma store_message_id_absent email app mobile mid acts :
  has_request email app mobile acts = false ->
  store_message_id email app mobile mid acts = acts.
Proof.
  unfold has_request. induction acts as [|act acts IH]; simpl; [reflexivity|].
  intros H. apply orb_false_iff in H as [Ha Hr]. rewrite Ha, (IH Hr).
  reflexivity.
Qed.

Lemma no_app_submission msg ud env delivery now d :
  (UserData.selected_app ud = None \/
   UserData.selected_app ud = Some EmptyString) ->
  process_activation_proof msg ud env delivery now d =
  ((MAIN_MENU, [ReplyText NoAppSelected]), d).
Proof.
  intros [H|H]; unfold process_activation_proof; rewrite H; reflexivity.
Qed.

Lemma bad_media_submission msg ud env delivery now d app reply :
  UserData.selected_app ud = Some app -> app <> EmptyString ->
  check_media app msg = inl reply ->
  process_activation_proof msg ud env delivery now d =
  ((ACTIVATION_PROOF, [ReplyText reply]), d).
Proof.
  intros Ha Hne Hm. unfold process_activation_proof. rewrite Ha.
  destruct app as [|c a]; [congruence|]. rewrite Hm. reflexivity.
Qed.

Lemma no_caption_submission msg ud env delivery now d app accepted :
  UserData.selected_app ud = Some app -> app <> EmptyString ->
  check_media app msg = inr accepted -> caption msg = None ->
  process_activation_proof msg ud env delivery now d =
  ((ACTIVATION_PROOF, [ReplyText IncludeMobileInCaption]), d).
Proof.
  intros Ha Hne Hm Hc. unfold process_activation_proof. rewrite Ha.
  destruct app as [|c a]; [congruence|]. rewrite Hm.
  destruct accepted. rewrite Hc. reflexivity.
Qed.

Lemma trace_after_submission env delivery kind media email app mobile now d :
  exists rest,
    trace (exec (notify_channel env delivery kind media email app mobile)
             (exec (write_activation email app mobile None None now)
                (log (Load ACTIVATIONS_FILE) d))) =
    trace d ++ Load ACTIVATIONS_FILE :: rest.
Proof.
  unfold exec. rewrite write_activation_run, notify_channel_run. cbn [snd].
  destruct (Py.truthy (CHANNEL_ID env)); [destruct delivery|]; cbn [snd trace log];
    rewrite <- ?app_assoc; simpl; eauto.
Qed.

(** X2. With an app selected, accepted media and a caption (of
    characters below code point 256, as all text here), the submission
    handler goes on to the ledger exactly when the stripped caption is
    ten of the digits 0 to 9: then it loads the ledger and leaves
    [ACTIVATION_PROOF]; otherwise it stays in [ACTIVATION_PROOF] and
    performs no file operation. *)
Theorem caption_needs_ten_digits msg ud env delivery now d app cap accepted :
  UserData.selected_app ud = Some app -> app <> EmptyString ->
  check_media app msg = inr accepted ->
  caption msg = Some cap ->
  (ten_digits cap ->
   fst (run (process_activation_proof msg ud env delivery now) d)
     <> ACTIVATION_PROOF /\
   exists rest,
     trace (exec (process_activation_proof msg ud env delivery now) d) =
     trace d ++ Load ACTIVATIONS_FILE :: rest) /\
  (~ ten_digits cap ->
   fst (run (process_activation_proof msg ud env delivery now) d)
     = ACTIVATION_PROOF /\
   exec (process_activation_proof msg ud env delivery now) d = d).
Proof.
  intros Ha Hne Hm Hc. unfold ten_digits. rewrite <- mobile_ten_digits. split.
  - intros Hten.
    destruct (checked_submission msg ud env delivery now d app cap accepted
                Ha Hne Hm Hc Hten)
      as [[_ Hr]|[(_ & _ & Hr)|(email & _ & _ & _ & Hr)]];
      unfold run, exec; rewrite Hr; cbv zeta; cbn [fst snd].
    + split; [discriminate|]. exists []. reflexivity.
    + split; [discriminate|]. exists []. reflexivity.
    + split; [discriminate|]. apply trace_after_submission.
  - intros Hbad. apply not_true_is_false in Hbad.
    unfold run, exec.
    rewrite (invalid_mobile_submission msg ud env delivery now d app cap
               accepted Ha Hne Hm Hc Hbad).
    split; reflexivity.
Qed.

Lemma caption_needs_ten_digits_witness :
  ten_digits "  9876543210 " /\
  fst (run (process_activation_proof
              (mkMessage [] (Some "video-1") (Some "  9876543210 "))
              upstox_session review_env (Delivered 7) noon) empty_disk)
    <> ACTIVATION_PROOF.
Proof.
  assert (H : ten_digits "  9876543210 ") by (split; reflexivity).
  split; [exact H|].
  apply (proj1 (caption_needs_ten_digits
                  (mkMessage [] (Some "video-1") (Some "  9876543210 "))
                  upstox_session review_env (Delivered 7) noon empty_disk
                  "upstox" "  9876543210 " (Video, "video-1")
                  eq_refl ltac:(discriminate) eq_refl eq_refl) H).
Defined.

(** The effect of the submission handler on the two files. *)
Lemma submission_ledger msg ud env delivery now d :
  let out := snd (run (process_activation_proof msg ud env delivery now) d) in
  let d' := exec (process_activation_proof msg ud env delivery now) d in
  users_json d' = users_json d /\
  ((~ In (ReplyText ActivationSubmitted) out /\
    ~ In (ReplyText ErrorOccurred) out /\
    activations_json d' = activations_json d) \/
   ((In (ReplyText ActivationSubmitted) out \/ out = [ReplyText ErrorOccurred]) /\
    exists email app cap,
      UserData.email ud = Some email /\
      UserData.selected_app ud = Some app /\
      caption msg = Some cap /\
      map forget_message_id (activations_json d') =
      map forget_message_id (activations_json d) ++
      [Activation.mk email (Py.strip cap) app "pending" "pending"
         (isoformat now) (strftime now) None])) /\
  (In (ReplyText ErrorOccurred) out ->
   delivery = AlertFailed /\ Py.truthy (CHANNEL_ID env) = true /\
   Py.truthy (ADMIN_CHAT_ID env) = true) /\
  (delivery = AlertFailed -> Py.truthy (CHANNEL_ID env) = true ->
   Py.truthy (ADMIN_CHAT_ID env) = true ->
   ~ In (ReplyText ActivationSubmitted) out).
Proof.
  intros out d'. subst out d'. unfold run, exec.
  assert (Hquiet : forall st r,
            r <> ActivationSubmitted -> r <> ErrorOccurred ->
            forall d0, users_json d0 = users_json d ->
            activations_json d0 = activations_json d ->
            process_activation_proof msg ud env delivery now d =
              ((st, [ReplyText r]), d0) ->
            users_json (snd (process_activation_proof msg ud env delivery now d))
              = users_json d /\
            ((~ In (ReplyText ActivationSubmitted)
                  (snd (fst (process_activation_proof msg ud env delivery now d))) /\
              ~ In (ReplyText ErrorOccurred)
                  (snd (fst (process_activation_proof msg ud env delivery now d))) /\
              activations_json
                (snd (process_activation_proof msg ud env delivery now d)) =
              activations_json d) \/
             ((In (ReplyText ActivationSubmitted)
                 (snd (fst (process_activation_proof msg ud env delivery now d))) \/
               snd (fst (process_activation_proof msg ud env delivery now d)) =
               [ReplyText ErrorOccurred]) /\
              exists email app cap,
                UserData.email ud = Some email /\
                UserData.selected_app ud = Some app /\
                caption msg = Some cap /\
                map forget_message_id
                  (activations_json
                     (snd (process_activation_proof msg ud env delivery now d))) =
                map forget_message_id (activations_json d) ++
                [Activation.mk email (Py.strip cap) app "pending" "pending"
                   (isoformat now) (strftime now) None])) /\
            (In (ReplyText ErrorOccurred)
               (snd (fst (process_activation_proof msg ud env delivery now d))) ->
             delivery = AlertFailed /\ Py.truthy (CHANNEL_ID env) = true /\
             Py.truthy (ADMIN_CHAT_ID env) = true) /\
            (delivery = AlertFailed -> Py.truthy (CHANNEL_ID env) = true ->
             Py.truthy (ADMIN_CHAT_ID env) = true ->
             ~ In (ReplyText ActivationSubmitted)
                 (snd (fst (process_activation_proof msg ud env delivery now d))))).
  { intros st r Hr Hr' d0 Hu Hacts ->. cbn [fst snd]. split; [exact Hu|].
    split; [|split].
    - left. split; [|split; [|exact Hacts]]; intros [H|[]]; congruence.
    - intros [H|[]]. congruence.
    - intros _ _ _ [H|[]]. congruence. }
  destruct (UserData.selected_app ud) as [app|] eqn:Ha;
    [|eapply Hquiet; [| | | |apply no_app_submission; auto]; auto;
      discriminate].
  destruct (String.string_dec app EmptyString) as [->|Hne];
    [eapply Hquiet; [| | | |apply no_app_submission; auto]; auto;
     discriminate|].
  destruct (check_media app msg) as [reply|accepted] eqn:Hm.
  { assert (Hreply : reply <> ActivationSubmitted /\ reply <> ErrorOccurred).
    { unfold check_media in Hm.
      destruct (str_in app SCREENSHOT_APPS), (last (photo msg)), (video msg);
        try discriminate; injection Hm as <-; split; discriminate. }
    destruct Hreply as [Hr Hr'].
    eapply Hquiet; [exact Hr|exact Hr'| | |eapply bad_media_submission; eauto];
      auto. }
  destruct (caption msg) as [cap|] eqn:Hc;
    [|eapply Hquiet; [| | | |eapply no_caption_submission; eauto]; auto;
      discriminate].
  destruct (Re.fullmatch MOBILE_RE (Py.strip cap)) eqn:Hten.
  - destruct (checked_submission msg ud env delivery now d app cap accepted
                Ha Hne Hm Hc Hten)
      as [[_ Hr]|[(_ & _ & Hr)|(email & _ & He & _ & Hr)]].
    + eapply Hquiet; [| | | |exact Hr]; auto; discriminate.
    + eapply Hquiet; [| | | |exact Hr]; auto; discriminate.
    + rewrite Hr. cbv zeta. cbn [fst snd].
      destruct (ReFacts.mobile_clean _ Hten) as [Hclean _].
      destruct (notify_channel_ledger env delivery (fst accepted) (snd accepted)
                  email app (Py.strip cap)
                  (exec (write_activation email app (Py.strip cap) None None now)
                     (log (Load ACTIVATIONS_FILE) d))) as (Hu & Hf).
      split; [rewrite Hu; reflexivity|]. split.
      * right. split; [apply submission_reply_cases|].
        exists email, app, cap. repeat split; auto.
        rewrite Hf. unfold exec. rewrite write_activation_run.
        cbn [snd activations_json log]. rewrite map_app. simpl.
        rewrite Hclean. reflexivity.
      * unfold run. rewrite notify_channel_run.
        destruct (Py.truthy (CHANNEL_ID env));
          [destruct delivery as [mid| |]|]; cbn [fst submission_reply].
        -- split; [intros [H|[H|[]]]; discriminate|]. discriminate.
        -- split; [|discriminate].
           destruct (Py.truthy (ADMIN_CHAT_ID env)); simpl;
             intros H; repeat destruct H as [H|H]; try discriminate;
             destruct H.
        -- destruct (Py.truthy (ADMIN_CHAT_ID env)); simpl.
           ++ split; [auto|]. intros _ _ _ [H|[]]. discriminate.
           ++ split; [|discriminate]. intros [H|[]]. discriminate.
        -- split; [|discriminate]. intros [H|[]]. discriminate.
  - eapply Hquiet; [| | | |eapply invalid_mobile_submission; eauto]; auto;
      destruct cap; discriminate.
Qed.



Section FreshRequest.

Variables email app mobile : string.
Variable acts : list Activation.t.
Hypothesis no_earlier : has_request email app mobile acts = false.

Lemma store_message_id_fresh mid act :
  same_request email app mobile act = true ->
  store_message_id email app mobile mid (acts ++ [act]) =
  acts ++ [Activation.mk (Activation.email act) (Activation.mobile act)
             (Activation.app act) (Activation.status act)
             (Activation.reason act) (Activation.timestamp act)
             (Activation.submission_date act) (Some mid)].
Proof using no_earlier.
  intros Hact. revert no_earlier. unfold has_request.
  induction acts as [|a rest IH]; simpl; intros Hno.
  - rewrite Hact. reflexivity.
  - apply orb_false_iff in Hno as [Ha Hrest]. rewrite Ha, (IH Hrest).
    reflexivity.
Qed.

Lemma find_message_id_fresh act :
  same_request email app mobile act = true ->
  find_message_id email app mobile (acts ++ [act]) = Activation.message_id act.
Proof using no_earlier.
  intros Hact. revert no_earlier. unfold has_request.
  induction acts as [|a rest IH]; simpl; intros Hno.
  - rewrite Hact. reflexivity.
  - apply orb_false_iff in Hno as [Ha Hrest]. rewrite Ha. auto.
Qed.

End FreshRequest.

Lemma same_request_submitted email app mobile now :
  same_request email app mobile (submitted_request email app mobile now) = true.
Proof. unfold same_request. simpl. rewrite !String.eqb_refl. reflexivity. Qed.




(** X5. The Approve button of a posted request edits the message that
    was posted for it. When a first request of (email, app, mobile),
    whose email and app contain no underscore, is submitted and the
    channel returns the message id [message_id] (not 0), the record
    stores that id; the data of the Approve button then makes
    [admin_approve] give this record the status approved and the reason
    ["0"], keeping its other fields, and edit the caption of the message
    with that id. *)
Theorem approval_edits_posted_message
    msg ud env now d app cap accepted email message_id now2 :
  UserData.selected_app ud = Some app -> app <> EmptyString ->
  check_media app msg = inr accepted ->
  caption msg = Some cap -> ten_digits cap ->
  UserData.email ud = Some email -> email <> EmptyString ->
  run (is_duplicate app (Py.strip cap)) d = false ->
  has_request email app (Py.strip cap) (activations_json d) = false ->
  Py.truthy (CHANNEL_ID env) = true -> message_id <> 0%Z ->
  Py.has_char "_" email = false -> Py.has_char "_" app = false ->
  let mobile := Py.strip cap in
  let d1 := exec (process_activation_proof msg ud env (Delivered message_id) now) d in
  let v := ApprovedActivation email app mobile in
  activations_json d1 =
    activations_json d ++
    [Activation.mk email mobile app "pending" "pending"
       (isoformat now) (strftime now) (Some message_id)] /\
  run (admin_approve (approve_data email app mobile) env now2) d1 =
    [EditCaption message_id v; EditMessage v] /\
  activations_json
    (exec (admin_approve (approve_data email app mobile) env now2) d1) =
    activations_json d ++
    [Activation.mk email mobile app "approved" "0"
       (isoformat now2) (strftime now) (Some message_id)].
Proof.
  intros Ha Hne Hm Hc Hten He Hene Hfresh Hno Hch Hmid Hpe Hpa mobile d1 v.
  pose proof Hten as Hten'. apply mobile_ten_digits in Hten'.
  destruct (ReFacts.mobile_clean _ Hten') as [Hclean Hpm].
  unfold run in Hfresh. rewrite (is_duplicate_run _ _ _ Hne) in Hfresh.
  cbn [fst] in Hfresh.
  pose proof (fresh_submission msg ud env (Delivered message_id) now d app cap
                accepted Ha Hne Hm Hc Hten' email He Hene Hfresh) as Hr.
  cbv zeta in Hr.
  assert (Hd1 : activations_json d1 =
            activations_json d ++ [posted_request email app mobile now message_id]).
  { subst d1. unfold exec in *. rewrite Hr.
    rewrite notify_channel_run, write_activation_run, Hch.
    cbn [fst snd activations_json log].
    rewrite (store_message_id_fresh _ _ _ _ Hno);
      [reflexivity|apply same_request_submitted]. }
  assert (Hposted : posted_request email app mobile now message_id =
            Activation.mk email mobile app "pending" "pending"
              (isoformat now) (strftime now) (Some message_id)).
  { unfold posted_request. subst mobile. rewrite Hclean. reflexivity. }
  assert (Hsame : same_request email app mobile
                    (posted_request email app mobile now message_id) = true).
  { unfold same_request. simpl. rewrite !String.eqb_refl. reflexivity. }
  split; [rewrite Hd1, Hposted; reflexivity|].
  unfold run, exec.
  rewrite (admin_approve_parsed _ "approve" email app mobile env now2 d1
             (split_approve_data email app mobile Hpe Hpa Hpm)).
  cbv zeta. unfold exec, run.
  rewrite update_activation_run, Hd1.
  rewrite (update_first_app_fresh _ _ _ _ _ _ _ _ Hno Hsame).
  rewrite edit_channel_run, Hch. cbn [fst snd activations_json].
  rewrite (find_message_id_fresh _ _ _ _ Hno);
    [|unfold same_request; simpl; rewrite !String.eqb_refl; reflexivity].
  assert (Hz : Z.eqb message_id 0 = false) by (apply Z.eqb_neq; exact Hmid).
  cbn [fst snd resolved posted_request Activation.message_id].
  rewrite Hz. split; [reflexivity|].
  rewrite Hposted. reflexivity.
Qed.

Lemma approval_edits_posted_message_witness :
  ten_digits "9876543210" /\
  run (admin_approve (approve_data "a@b.com" "upstox" (Py.strip "9876543210"))
         review_env evening)
    (exec (process_activation_proof proof_video upstox_session review_env
             (Delivered 7) noon) empty_disk) =
    [EditCaption 7 (ApprovedActivation "a@b.com" "upstox" (Py.strip "9876543210"));
     EditMessage (ApprovedActivation "a@b.com" "upstox" (Py.strip "9876543210"))] /\
  activations_json
    (exec (admin_approve (approve_data "a@b.com" "upstox" (Py.strip "9876543210"))
             review_env evening)
       (exec (process_activation_proof proof_video upstox_session review_env
                (Delivered 7) noon) empty_disk)) =
    [Activation.mk "a@b.com" "9876543210" "upstox" "approved" "0"
       (isoformat evening) (strftime noon) (Some 7%Z)].
Proof.
  assert (H : ten_digits "9876543210") by (split; reflexivity).
  split; [exact H|].
  apply (proj2
           (approval_edits_posted_message proof_video upstox_session review_env
              noon empty_disk "upstox" "9876543210" (Video, "video-1") "a@b.com"
              7%Z evening eq_refl ltac:(discriminate) eq_refl eq_refl H eq_refl
              ltac:(discriminate) eq_refl eq_refl eq_refl ltac:(discriminate)
              eq_refl eq_refl)).
Defined.

(** ** Decisions and resubmissions *)

Lemma update_first_app_old email app mobile status reason now acts acts' more :
  update_first email app mobile status reason now acts = Some acts' ->
  update_first email app mobile status reason now (acts ++ more) =
  Some (acts' ++ more).
Proof.
  revert acts'. induction acts as [|a rest IH]; simpl; intros acts' H.
  - discriminate.
  - destruct (same_request email app mobile a).
    + injection H as <-. reflexivity.
    + destruct (update_first _ _ _ _ _ _ rest) as [l|]; simpl in H;
        [|discriminate].
      injection H as <-. rewrite (IH l eq_refl). reflexivity.
Qed.

Lemma duplicates_submitted email app mobile mobile' now :
  Py.remove_char " " mobile' = Py.remove_char " " mobile ->
  duplicates app mobile' (submitted_request email app mobile now) = true.
Proof.
  intros H. unfold duplicates. simpl. rewrite H, !String.eqb_refl. reflexivity.
Qed.

(** X6. A decision on a request that was submitted again does not reach
    the new record. When the ledger already holds a record of (email,
    app, mobile), a submission of the same request followed by
    [update_activation] gives the earliest record of the request the
    status and reason of the decision and the time of the decision,
    keeping its other fields, and leaves the submitted one as the
    pending last record of the ledger; the pair (app, mobile) therefore
    stays a duplicate. *)
Theorem decision_hits_earliest_record
    email app mobile status reason now1 now2 d :
  has_request email app mobile (activations_json d) = true ->
  let d1 := exec (write_activation email app mobile None None now1) d in
  let d2 := exec (update_activation email app mobile status reason now2) d1 in
  exists before act after,
    activations_json d = before ++ act :: after /\
    has_request email app mobile before = false /\
    same_request email app mobile act = true /\
    activations_json d2 =
      before ++
      Activation.mk (Activation.email act) (Activation.mobile act)
        (Activation.app act) status (default "0" reason) (isoformat now2)
        (Activation.submission_date act) (Activation.message_id act) ::
      after ++
      [Activation.mk email (Py.remove_char " " mobile) app "pending" "pending"
         (isoformat now1) (strftime now1) None] /\
    (app <> EmptyString -> run (is_duplicate app mobile) d2 = true).
Proof.
  intros Hhas d1 d2.
  destruct (update_first email app mobile status (default "0" reason) now2
              (activations_json d)) as [acts'|] eqn:Hup;
    [|apply update_first_None in Hup; congruence].
  pose proof (update_first_app_old _ _ _ _ _ _ _ _
                [submitted_request email app mobile now1] Hup) as Hup'.
  apply update_first_Some in Hup
    as (before & act & after & Heq & Hb & Hact & ->).
  assert (Hd2 : activations_json d2 =
            (before ++ resolved status (default "0" reason) now2 act :: after) ++
            [submitted_request email app mobile now1]).
  { subst d2 d1. unfold exec. rewrite update_activation_run, write_activation_run.
    cbn [snd activations_json]. unfold submitted_request in Hup'.
    simpl default. rewrite Hup'. reflexivity. }
  exists before, act, after. repeat split; auto.
  - rewrite Hd2, <- app_assoc. reflexivity.
  - intros Hne. unfold run. rewrite (is_duplicate_run _ _ _ Hne). cbn [fst].
    rewrite Hd2, existsb_app. simpl.
    rewrite duplicates_submitted by reflexivity. apply orb_true_r.
Qed.

(** The request was rejected at noon and is submitted again in the
    evening; the approval that follows lands on the record of noon. *)
Lemma decision_hits_earliest_record_witness :
  has_request "a@b.com" "upstox" "9876543210"
    [Activation.mk "a@b.com" "9876543210" "upstox" "rejected" "77"
       (isoformat noon) (strftime noon) None] = true /\
  activations_json
    (exec (update_activation "a@b.com" "upstox" "9876543210" "approved" None
             evening)
       (exec (write_activation "a@b.com" "upstox" "9876543210" None None
                evening)
          (mkDisk []
             [Activation.mk "a@b.com" "9876543210" "upstox" "rejected" "77"
                (isoformat noon) (strftime noon) None] []))) =
    [Activation.mk "a@b.com" "9876543210" "upstox" "approved" "0"
       (isoformat evening) (strftime noon) None;
     Activation.mk "a@b.com" "9876543210" "upstox" "pending" "pending"
       (isoformat evening) (strftime evening) None].
Proof.
  split; [reflexivity|].
  destruct (decision_hits_earliest_record "a@b.com" "upstox" "9876543210"
              "approved" None evening evening
              (mkDisk []
                 [Activation.mk "a@b.com" "9876543210" "upstox" "rejected" "77"
                    (isoformat noon) (strftime noon) None] [])
              eq_refl)
    as (before & act & after & Heq & _ & _ & Hnew & _).
  cbn [activations_json] in Heq.
  destruct before as [|b0 before].
  - injection Heq as <- <-. exact Hnew.
  - destruct before; discriminate.
Defined.

(** X7. Once [write_activation] has recorded a request with the default
    status, [is_duplicate] is true for its app and for every spelling of
    its mobile that differs only in spaces; a record written with a
    status other than pending or approved does not change the answer of
    [is_duplicate] for any pair. *)
Theorem recorded_request_blocks_pair email app mobile reason now d :
  app <> EmptyString ->
  (forall mobile',
     Py.remove_char " " mobile' = Py.remove_char " " mobile ->
     run (is_duplicate app mobile')
       (exec (write_activation email app mobile None reason now) d) = true) /\
  (forall status app' mobile',
     app' <> EmptyString ->
     str_in status ["pending"; "approved"] = false ->
     run (is_duplicate app' mobile')
       (exec (write_activation email app mobile (Some status) reason now) d) =
     run (is_duplicate app' mobile') d).
Proof.
  intros Hne. split.
  - intros mobile' Hsame. unfold run, exec.
    rewrite (is_duplicate_run _ _ _ Hne), write_activation_run.
    cbn [fst snd activations_json]. rewrite existsb_app. simpl.
    unfold duplicates at 2. simpl. rewrite Hsame, !String.eqb_refl.
    apply orb_true_r.
  - intros status app' mobile' Hne' Hstatus. unfold run, exec.
    rewrite !(is_duplicate_run _ _ _ Hne'), write_activation_run.
    cbn [fst snd activations_json]. rewrite existsb_app. simpl.
    unfold duplicates at 2. cbn [Activation.status Activation.app
      Activation.mobile default]. unfold default. rewrite Hstatus.
    rewrite !andb_false_r. rewrite !orb_false_r. reflexivity.
Qed.

Lemma recorded_request_blocks_pair_witness :
  "upstox" <> EmptyString /\
  run (is_duplicate "upstox" "98765 43210")
    (exec (write_activation "a@b.com" "upstox" "9876 543210" None None noon)
       empty_disk) = true.
Proof.
  split; [discriminate|].
  apply (proj1 (recorded_request_blocks_pair "a@b.com" "upstox" "9876 543210"
                  None noon empty_disk ltac:(discriminate))).
  reflexivity.
Defined.

(** ** The status screen *)

Lemma read_activations_email email d :
  email <> EmptyString ->
  read_activations (Some email) None None d =
  (List.filter (fun act => String.eqb (Activation.email act) email)
     (activations_json d),
   log (Load ACTIVATIONS_FILE) d).
Proof.
  intros Hne. unfold read_activations. io_unfold. simpl. f_equal.
  destruct email as [|c e]; [congruence|]. simpl.
  apply filter_ext. intros act.
  rewrite !andb_true_r, negb_involutive. reflexivity.
Qed.

Lemma status_lines_fields acts : forall lines,
  status_lines acts = Some lines ->
  map line_app lines = map Activation.app acts /\
  map line_mobile lines = map Activation.mobile acts /\
  map line_status lines = map Activation.status acts /\
  map line_reason lines = map status_reason acts /\
  map (fun line => Some (line_date line)) lines =
  map (fun act => Py.first_word (Activation.submission_date act)) acts.
Proof.
  induction acts as [|act acts IH]; simpl; intros lines H.
  - injection H as <-. repeat split.
  - destruct (Py.first_word _) eqn:Hw; [|discriminate].
    destruct (status_lines acts) as [rest|]; simpl in H; [|discriminate].
    injection H as <-. simpl.
    destruct (IH rest eq_refl) as (-> & -> & -> & -> & ->).
    repeat split.
Qed.

Lemma status_lines_blank acts :
  (exists act, In act acts /\
               Py.first_word (Activation.submission_date act) = None) ->
  status_lines acts = None.
Proof.
  induction acts as [|a acts IH]; intros (act & Hin & Hblank).
  - destruct Hin.
  - simpl. destruct Hin as [->|Hin].
    + rewrite Hblank. reflexivity.
    + destruct (Py.first_word (Activation.submission_date a)); [|reflexivity].
      rewrite IH; [reflexivity|eauto].
Qed.

Lemma status_lines_dated acts :
  (forall act, In act acts ->
               Py.first_word (Activation.submission_date act) <> None) ->
  exists lines, status_lines acts = Some lines.
Proof.
  induction acts as [|a acts IH]; intros Hall; simpl; [eauto|].
  destruct (Py.first_word (Activation.submission_date a)) eqn:Hw.
  - destruct IH as [lines ->];
      [intros act Hact; apply Hall; right; exact Hact|]. simpl. eauto.
  - destruct (Hall a (or_introl eq_refl) Hw).
Qed.

(** X8. The status screen of a logged-in user is built from exactly the
    records stored under the session email, in ledger order: one line per
    record with its app, mobile, status and reason text. The handler
    only loads the ledger. With no record it says so; and when one of
    the user's records has a blank submission date the handler raises
    inside its [try] and shows nothing at all. *)
Theorem status_screen_shows_own_records email ud d :
  UserData.email ud = Some email -> email <> EmptyString ->
  let own := List.filter (fun act => String.eqb (Activation.email act) email)
               (activations_json d) in
  let out := snd (run (activation_status ud) d) in
  exec (activation_status ud) d = log (Load ACTIVATIONS_FILE) d /\
  (own = [] -> out = [NoActivationsFound]) /\
  (forall lines,
     In (StatusScreen lines) out ->
     out = [StatusScreen lines] /\
     map line_app lines = map Activation.app own /\
     map line_mobile lines = map Activation.mobile own /\
     map line_status lines = map Activation.status own /\
     map line_reason lines = map status_reason own) /\
  (own <> [] ->
   (forall act, In act own ->
                Py.first_word (Activation.submission_date act) <> None) ->
   exists lines, out = [StatusScreen lines]) /\
  ((exists act, In act own /\
                Py.first_word (Activation.submission_date act) = None) ->
   out = []).
Proof.
  intros He Hne own out. subst out.
  assert (Hrun : activation_status ud d =
            ((MAIN_MENU,
              match own with
              | [] => [NoActivationsFound]
              | _ => match status_lines own with
                     | Some lines => [StatusScreen lines]
                     | None => []
                     end
              end), log (Load ACTIVATIONS_FILE) d)).
  { unfold activation_status. rewrite He. io_unfold.
    rewrite (read_activations_email _ _ Hne). fold own.
    destruct own as [|a acts]; [reflexivity|].
    destruct (status_lines (a :: acts)); reflexivity. }
  unfold run, exec. rewrite Hrun. cbn [fst snd].
  split; [reflexivity|]. split; [intros ->; reflexivity|]. split; [|split].
  - intros lines Hin. destruct own as [|a acts] eqn:Hown.
    + destruct Hin as [Hin|[]]. discriminate.
    + destruct (status_lines (a :: acts)) as [lines'|] eqn:Hl; [|destruct Hin].
      destruct Hin as [Hin|[]]. injection Hin as <-.
      destruct (status_lines_fields _ _ Hl) as (H1 & H2 & H3 & H4 & _).
      auto.
  - intros Hown Hall. destruct own as [|a acts]; [congruence|].
    destruct (status_lines_dated (a :: acts) Hall) as [lines ->]. eauto.
  - intros Hex. destruct own as [|a acts].
    + destruct Hex as (act & [] & _).
    + rewrite (status_lines_blank _ Hex). reflexivity.
Qed.

Lemma status_screen_shows_own_records_witness :
  UserData.email upstox_session = Some "a@b.com" /\
  exec (activation_status upstox_session)
    (mkDisk [] [pending_request "a@b.com" "upstox" "9876543210";
                pending_request "c@d.com" "upstox" "9876543211"] []) =
  log (Load ACTIVATIONS_FILE)
    (mkDisk [] [pending_request "a@b.com" "upstox" "9876543210";
                pending_request "c@d.com" "upstox" "9876543211"] []).
Proof.
  split; [reflexivity|].
  apply (status_screen_shows_own_records "a@b.com" upstox_session
           (mkDisk [] [pending_request "a@b.com" "upstox" "9876543210";
                       pending_request "c@d.com" "upstox" "9876543211"] [])
           eq_refl ltac:(discriminate)).
Defined.

(** ** The statuses of the ledger *)

Lemma statuses_ok_forget acts :
  statuses_ok (map forget_message_id acts) <-> statuses_ok acts.
Proof.
  unfold statuses_ok. rewrite Forall_map. reflexivity.
Qed.

Lemma update_first_statuses email app mobile status reason now acts acts' :
  known_status status = true ->
  statuses_ok acts ->
  update_first email app mobile status reason now acts = Some acts' ->
  statuses_ok acts'.
Proof.
  unfold statuses_ok. intros Hk Hok H.
  apply update_first_Some in H as (before & act & after & -> & _ & _ & ->).
  apply Forall_app in Hok as [Hb Ha]. apply Forall_cons in Ha as [_ Ha].
  apply Forall_app. split; [exact Hb|]. constructor; [exact Hk|exact Ha].
Qed.

Lemma update_activation_statuses email app mobile status reason now d :
  known_status status = true ->
  statuses_ok (activations_json d) ->
  statuses_ok
    (activations_json
       (exec (update_activation email app mobile status reason now) d)).
Proof.
  intros Hk Hok. unfold exec. rewrite update_activation_run.
  destruct (update_first _ _ _ _ _ _ _) eqn:H; [|exact Hok].
  eapply update_first_statuses; eauto.
Qed.

Lemma rejection_status_known app reason_id :
  known_status (rejection_status app reason_id) = true.
Proof.
  destruct (rejection_status_cases app reason_id) as [(_ & _ & ->)|[_ ->]];
    reflexivity.
Qed.

(** X9. The three handlers that write to the ledger keep every status
    among pending, approved and rejected: if all stored statuses are
    among these before a submission, an approval or a rejection with any
    callback data, they are so afterwards. *)
Theorem statuses_kept d :
  statuses_ok (activations_json d) ->
  (forall msg ud env delivery now,
     statuses_ok
       (activations_json
          (exec (process_activation_proof msg ud env delivery now) d))) /\
  (forall data env now,
     statuses_ok (activations_json (exec (admin_approve data env now) d))) /\
  (forall data env now,
     statuses_ok (activations_json (exec (process_rejection data env now) d))).
Proof.
  intros Hok. split; [|split].
  - intros msg ud env delivery now.
    destruct (submission_ledger msg ud env delivery now d)
      as [_ [[(_ & _ & ->)|(_ & email & app & cap & _ & _ & _ & Hf)] _]];
      [exact Hok|].
    apply statuses_ok_forget. rewrite Hf.
    apply Forall_app. split; [apply statuses_ok_forget, Hok|].
    repeat constructor.
  - intros data env now.
    destruct (admin_approve_cases data env now d)
      as [(p0 & email & app & mobile & H)|H];
      [|unfold exec; rewrite H; exact Hok].
    unfold exec at 1. rewrite (admin_approve_parsed _ _ _ _ _ _ _ _ H).
    cbv zeta. cbn [snd].
    match goal with
    | |- context [activations_json (exec (edit_channel ?e ?a ?b ?c ?v) ?x)] =>
        destruct (edit_channel_files e a b c v x) as [_ ->]
    end.
    apply update_activation_statuses; [reflexivity|exact Hok].
  - intros data env now.
    destruct (process_rejection_cases data env now d)
      as [(p0 & rid & email & app & mobile & rest & H)|H];
      [|unfold exec; rewrite H; exact Hok].
    unfold exec at 1. rewrite (process_rejection_parsed _ _ _ _ _ _ _ _ _ _ H).
    cbv zeta. cbn [snd].
    match goal with
    | |- context [activations_json (exec (edit_channel ?e ?a ?b ?c ?v) ?x)] =>
        destruct (edit_channel_files e a b c v x) as [_ ->]
    end.
    apply update_activation_statuses;
      [apply rejection_status_known|exact Hok].
Qed.

Lemma statuses_kept_witness :
  statuses_ok (activations_json submitted_disk) /\
  statuses_ok
    (activations_json
       (exec (process_rejection
                (reason_data "77" "a@b.com" "upstox" "9876543210")
                review_env evening) submitted_disk)).
Proof.
  assert (H : statuses_ok (activations_json submitted_disk))
    by (repeat constructor).
  split; [exact H|].
  apply (proj2 (proj2 (statuses_kept submitted_disk H))).
Defined.

(** ** Statistics *)

Lemma known_status_cases status :
  known_status status = true ->
  status = "pending" \/ status = "approved" \/ status = "rejected".
Proof.
  unfold known_status, str_in. simpl.
  rewrite !orb_true_iff, !String.eqb_eq. intuition discriminate.
Qed.

Lemma count_status_total acts :
  statuses_ok acts ->
  count_status "pending" acts + count_status "approved" acts +
  count_status "rejected" acts = length acts.
Proof.
  unfold statuses_ok, count_status.
  induction 1 as [|act acts Hk Hrest IH]; [reflexivity|].
  simpl. destruct (known_status_cases _ Hk) as [-> | [-> | ->]]; simpl; lia.
Qed.

Lemma bump_key_unknown key c :
  counter_key key = false -> bump_key key c = None.
Proof.
  unfold counter_key, str_in, bump_key. simpl.
  rewrite !orb_false_iff. intros (H1 & H2 & H3 & H4 & _).
  rewrite H1, H2, H3, H4. reflexivity.
Qed.

Lemma bump_app_unknown app status stats :
  counter_key status = false -> bump_app app status stats = None.
Proof.
  intros Hk. induction stats as [|[a c0] rest IH]; simpl.
  - rewrite (bump_key_unknown _ _ Hk). reflexivity.
  - destruct (String.eqb a app).
    + rewrite (bump_key_unknown _ _ Hk). reflexivity.
    + rewrite IH. reflexivity.
Qed.

Lemma app_stats_loop_unknown acts : forall stats,
  (exists act, In act acts /\ counter_key (Activation.status act) = false) ->
  app_stats_loop acts stats = None.
Proof.
  induction acts as [|a acts IH]; intros stats (act & Hin & Hk).
  - destruct Hin.
  - simpl. destruct Hin as [->|Hin].
    + rewrite (bump_app_unknown _ _ _ Hk). reflexivity.
    + destruct (bump_app _ _ stats); simpl; [|reflexivity].
      apply IH. eauto.
Qed.

(** One round of the loop keeps the counters consistent and the keys
    distinct, and counts one record more. *)
Lemma bump_app_ok app status stats :
  known_status status = true ->
  Forall (fun entry => counts_ok (snd entry)) stats ->
  exists stats',
    bump_app app status stats = Some stats' /\
    Forall (fun entry => counts_ok (snd entry)) stats' /\
    sum_totals stats' = S (sum_totals stats) /\
    (forall k, In k (map fst stats') -> In k (map fst stats) \/ k = app) /\
    (List.NoDup (map fst stats) -> List.NoDup (map fst stats')).
Proof.
  intros Hk. induction stats as [|[a c0] rest IH]; intros Hok.
  - destruct (known_status_cases _ Hk) as [-> | [-> | ->]]; simpl;
      eexists; (split; [reflexivity|]); simpl;
      (split; [repeat constructor|]); (split; [reflexivity|]);
      (split; [intros k [<-|[]]; auto|]); intros _; repeat constructor;
      intros [].
  - apply Forall_cons in Hok as [Hc Hrest]. simpl in Hc. simpl.
    destruct (String.eqb_spec a app) as [->|Hne].
    + destruct (known_status_cases _ Hk) as [-> | [-> | ->]]; simpl;
        eexists; (split; [reflexivity|]); simpl;
        (split; [constructor; [unfold counts_ok in *; simpl; lia|exact Hrest]|]);
        (split; [reflexivity|]); (split; [auto|]); auto.
    + destruct (IH Hrest) as (rest' & -> & Hok' & Hsum & Hkeys & Hnd).
      simpl. eexists. split; [reflexivity|]. simpl.
      split; [constructor; [exact Hc|exact Hok']|].
      split; [rewrite Hsum; lia|]. split.
      * intros k [<-|Hin]; [auto|]. destruct (Hkeys k Hin); auto.
      * intros Hd. apply NoDup_cons_iff in Hd as [Hnotin Hd].
        apply NoDup_cons_iff. split; [|auto].
        intros Hin. destruct (Hkeys a Hin); [contradiction|congruence].
Qed.

Lemma app_stats_loop_ok acts : forall stats,
  statuses_ok acts ->
  Forall (fun entry => counts_ok (snd entry)) stats ->
  List.NoDup (map fst stats) ->
  exists final,
    app_stats_loop acts stats = Some final /\
    Forall (fun entry => counts_ok (snd entry)) final /\
    sum_totals final = sum_totals stats + length acts /\
    List.NoDup (map fst final).
Proof.
  unfold statuses_ok.
  induction acts as [|a acts IH]; intros stats Hs Hok Hnd; simpl.
  - exists stats. repeat split; auto.
  - apply Forall_cons in Hs as [Hk Hs].
    destruct (bump_app_ok (Activation.app a) _ stats Hk Hok)
      as (stats' & -> & Hok' & Hsum & _ & Hnd'). simpl.
    destruct (IH stats' Hs Hok' (Hnd' Hnd)) as (final & -> & Hf & Hsf & Hnf).
    exists final. repeat split; auto. rewrite Hsf, Hsum. lia.
Qed.

Lemma stats_command_admin user_id env d :
  is_admin user_id env = true ->
  stats_command user_id env d =
  (option_map
     (Statistics (length (users_json d)) (length (activations_json d))
        (count_status "pending" (activations_json d))
        (count_status "approved" (activations_json d))
        (count_status "rejected" (activations_json d)))
     (app_stats_loop (activations_json d) []),
   log (Load ACTIVATIONS_FILE) (log (Load USERS_FILE) d)).
Proof. intros H. unfold stats_command. rewrite H. reflexivity. Qed.

(** The entry of an app after one round of the loop. *)
Lemma bump_app_row app status stats : forall stats',
  bump_app app status stats = Some stats' ->
  forall a,
    row a stats' =
    if String.eqb app a
    then
      let c0 := default (Counts.mk 0 0 0 0) (row app stats) in
      bump_key status
        (Counts.mk (S (Counts.total c0)) (Counts.approved c0)
           (Counts.pending c0) (Counts.rejected c0))
    else row a stats.
Proof.
  induction stats as [|[k c0] rest IH]; intros stats' H a.
  - cbn [bump_app] in H. cbn [row default]. cbv zeta.
    change (bump_key "total" (Counts.mk 0 0 0 0)) with (Some (Counts.mk 1 0 0 0))
      in H.
    cbn [mbind option_bind] in H.
    change (Counts.mk (S (Counts.total (Counts.mk 0 0 0 0)))
              (Counts.approved (Counts.mk 0 0 0 0))
              (Counts.pending (Counts.mk 0 0 0 0))
              (Counts.rejected (Counts.mk 0 0 0 0)))
      with (Counts.mk 1 0 0 0).
    destruct (bump_key status (Counts.mk 1 0 0 0)) as [c'|];
      cbn [mbind option_bind] in H; [|discriminate].
    injection H as <-. cbn [row].
    destruct (String.eqb app a); reflexivity.
  - cbn [bump_app] in H. cbn [row]. revert H.
    destruct (String.eqb_spec k app) as [->|Hk]; intros H.
    + clear IH. change (bump_key "total" c0) with
        (Some (Counts.mk (S (Counts.total c0)) (Counts.approved c0)
                 (Counts.pending c0) (Counts.rejected c0))) in H.
      cbn [mbind option_bind] in H. cbn [default from_option id]. cbv zeta.
      destruct (bump_key status _) as [c'|];
        cbn [mbind option_bind] in H; [|discriminate].
      injection H as <-. cbn [row].
      destruct (String.eqb app a); reflexivity.
    + destruct (bump_app app status rest) as [rest'|]; cbn [option_map] in H;
        [|discriminate].
      injection H as <-. cbn [row]. rewrite (IH rest' eq_refl a).
      destruct (String.eqb_spec k a) as [->|Hka]; [|reflexivity].
      destruct (String.eqb_spec app a) as [->|_]; [congruence|reflexivity].
Qed.

Lemma app_records_snoc app acts act :
  app_records app (acts ++ [act]) =
  app_records app acts ++
  (if String.eqb (Activation.app act) app then [act] else []).
Proof. unfold app_records. rewrite List.filter_app. reflexivity. Qed.

Lemma count_status_snoc status acts act :
  count_status status (acts ++ [act]) =
  count_status status acts +
  (if String.eqb (Activation.status act) status then 1 else 0).
Proof.
  unfold count_status. rewrite List.filter_app, length_app. simpl.
  destruct (String.eqb _ _); reflexivity.
Qed.

Lemma table_row_default app done :
  default (Counts.mk 0 0 0 0) (table_row app done) = row_of app done.
Proof.
  unfold table_row, row_of.
  destruct (app_records app done); reflexivity.
Qed.

(** Counting one record more of the app. *)
Lemma row_of_snoc done act :
  known_status (Activation.status act) = true ->
  let c0 := row_of (Activation.app act) done in
  bump_key (Activation.status act)
    (Counts.mk (S (Counts.total c0)) (Counts.approved c0)
       (Counts.pending c0) (Counts.rejected c0)) =
  Some (row_of (Activation.app act) (done ++ [act])).
Proof.
  intros Hk. cbv zeta. unfold row_of at 5.
  rewrite app_records_snoc, String.eqb_refl, !count_status_snoc, length_app.
  cbn [length]. unfold row_of. cbn [Counts.total Counts.approved Counts.pending
    Counts.rejected].
  destruct (known_status_cases _ Hk) as [-> | [-> | ->]]; cbn;
    f_equal; f_equal; lia.
Qed.

Lemma table_row_snoc done act :
  known_status (Activation.status act) = true ->
  forall a,
    table_row a (done ++ [act]) =
    if String.eqb (Activation.app act) a
    then Some (row_of a (done ++ [act]))
    else table_row a done.
Proof.
  intros Hk a. unfold table_row at 1. rewrite app_records_snoc.
  destruct (String.eqb_spec (Activation.app act) a) as [<-|Hne].
  - destruct (app_records (Activation.app act) done); reflexivity.
  - rewrite app_nil_r. unfold table_row, row_of.
    rewrite app_records_snoc.
    destruct (String.eqb_spec (Activation.app act) a) as [|_]; [contradiction|].
    rewrite app_nil_r. reflexivity.
Qed.

(** The loop builds the table of the records it has passed. *)
Lemma app_stats_loop_rows acts : forall done stats final,
  statuses_ok acts ->
  (forall a, row a stats = table_row a done) ->
  app_stats_loop acts stats = Some final ->
  forall a, row a final = table_row a (done ++ acts).
Proof.
  unfold statuses_ok.
  induction acts as [|act acts IH]; intros done stats final Hs Hrows H a.
  - cbn in H. injection H as <-. rewrite app_nil_r. apply Hrows.
  - apply Forall_cons in Hs as [Hk Hs]. cbn [app_stats_loop] in H.
    destruct (bump_app (Activation.app act) (Activation.status act) stats)
      as [stats'|] eqn:Hb; cbn [mbind option_bind] in H; [|discriminate].
    change (done ++ act :: acts) with (done ++ [act] ++ acts).
    rewrite app_assoc.
    apply (IH (done ++ [act]) stats' final Hs); [|exact H].
    intros a0. rewrite (bump_app_row _ _ _ _ Hb a0), (table_row_snoc _ _ Hk a0).
    destruct (String.eqb_spec (Activation.app act) a0) as [<-|_];
      [|apply Hrows].
    cbv zeta. rewrite Hrows, table_row_default.
    apply (row_of_snoc done act Hk).
Qed.

(** With distinct keys the table is its lookup function. *)
Lemma row_In stats :
  List.NoDup (map fst stats) ->
  forall a c, In (a, c) stats <-> row a stats = Some c.
Proof.
  induction stats as [|[k c0] rest IH]; intros Hnd a c.
  - cbn. split; [intros []|discriminate].
  - cbn [map fst] in Hnd. apply NoDup_cons_iff in Hnd as [Hk Hnd].
    cbn [row In]. destruct (String.eqb_spec k a) as [->|Hka].
    + split.
      * intros [[= ->]|Hin]; [reflexivity|].
        destruct Hk. apply (in_map fst) in Hin. exact Hin.
      * intros [= ->]. left. reflexivity.
    + rewrite <- (IH Hnd). split; [|auto].
      intros [[= Heq _]|Hin]; [congruence|exact Hin].
Qed.

Lemma table_row_Some app acts c :
  table_row app acts = Some c <->
  In app (map Activation.app acts) /\ c = row_of app acts.
Proof.
  unfold table_row.
  destruct (app_records app acts) as [|act l] eqn:Hr.
  - split; [discriminate|]. intros [Hin _].
    apply in_map_iff in Hin as (act & Ha & Hin).
    assert (Hin' : In act (app_records app acts)).
    { apply filter_In. split; [exact Hin|]. apply String.eqb_eq, Ha. }
    rewrite Hr in Hin'. destruct Hin'.
  - split.
    + intros [= <-]. split; [|reflexivity].
      assert (Hin : In act (app_records app acts)) by (rewrite Hr; left; auto).
      apply filter_In in Hin as [Hin Ha]. apply String.eqb_eq in Ha.
      apply in_map_iff. eauto.
    + intros [_ ->]. reflexivity.
Qed.

(** X10. For the operator, [stats_command] loads the user file and the
    ledger, in this order, and writes nothing. When every stored status
    is pending, approved or rejected, the three status counts add up to
    the number of activations, and the per-app table has exactly one row
    for each app that has a record in the ledger and no other row; the
    row of an app holds the number of records of that app and how many
    of them are approved, pending and rejected, so its total is the sum
    of its three counters and the totals of all apps add up to the
    number of activations. When some record has a status that is none of
    the four counter keys, the command raises and reports nothing. *)
Theorem stats_add_up user_id env d :
  is_admin user_id env = true ->
  exec (stats_command user_id env) d =
    log (Load ACTIVATIONS_FILE) (log (Load USERS_FILE) d) /\
  users_json (exec (stats_command user_id env) d) = users_json d /\
  activations_json (exec (stats_command user_id env) d) = activations_json d /\
  (statuses_ok (activations_json d) ->
   exists stats,
     run (stats_command user_id env) d =
       Some (Statistics (length (users_json d)) (length (activations_json d))
               (count_status "pending" (activations_json d))
               (count_status "approved" (activations_json d))
               (count_status "rejected" (activations_json d)) stats) /\
     count_status "pending" (activations_json d) +
     count_status "approved" (activations_json d) +
     count_status "rejected" (activations_json d) =
       length (activations_json d) /\
     List.NoDup (map fst stats) /\
     (forall app c,
        In (app, c) stats <->
        In app (map Activation.app (activations_json d)) /\
        c = row_of app (activations_json d)) /\
     Forall (fun entry => counts_ok (snd entry)) stats /\
     sum_totals stats = length (activations_json d)) /\
  ((exists act, In act (activations_json d) /\
                counter_key (Activation.status act) = false) ->
   run (stats_command user_id env) d = None).
Proof.
  intros Hadmin. unfold run, exec. rewrite (stats_command_admin _ _ _ Hadmin).
  cbn [fst snd]. split; [reflexivity|]. split; [reflexivity|].
  split; [reflexivity|]. split.
  - intros Hok.
    destruct (app_stats_loop_ok (activations_json d) [] Hok)
      as (final & Hloop & Hf & Hs & Hnd); [constructor|constructor|].
    rewrite Hloop. exists final. cbn [option_map].
    split; [reflexivity|]. split; [apply count_status_total, Hok|].
    split; [exact Hnd|]. split; [|split; [exact Hf|exact Hs]].
    intros app c. rewrite (row_In _ Hnd), <- table_row_Some.
    rewrite (app_stats_loop_rows (activations_json d) [] [] final Hok
               (fun a => eq_refl) Hloop app).
    reflexivity.
  - intros Hex. rewrite (app_stats_loop_unknown _ _ Hex). reflexivity.
Qed.

(** Two requests for upstox, one of them approved, and a rejected one
    for angelone. *)
Lemma stats_add_up_witness :
  is_admin 1 review_env = true /\
  exec (stats_command 1 review_env)
    (mkDisk [registered_user]
       [pending_request "a@b.com" "upstox" "9876543210";
        resolved "rejected" "77" evening
          (pending_request "a@b.com" "angelone" "9876543211");
        resolved "approved" "0" evening
          (pending_request "c@d.com" "upstox" "9876543212")] []) =
  mkDisk [registered_user]
    [pending_request "a@b.com" "upstox" "9876543210";
     resolved "rejected" "77" evening
       (pending_request "a@b.com" "angelone" "9876543211");
     resolved "approved" "0" evening
       (pending_request "c@d.com" "upstox" "9876543212")]
    [Load USERS_FILE; Load ACTIVATIONS_FILE] /\
  run (stats_command 1 review_env)
    (mkDisk [registered_user]
       [pending_request "a@b.com" "upstox" "9876543210";
        resolved "rejected" "77" evening
          (pending_request "a@b.com" "angelone" "9876543211");
        resolved "approved" "0" evening
          (pending_request "c@d.com" "upstox" "9876543212")] []) =
  Some (Statistics 1 3 1 1 1
          [("upstox", Counts.mk 2 1 1 0); ("angelone", Counts.mk 1 0 0 1)]).
Proof.
  split; [reflexivity|]. split; [|reflexivity].
  apply (stats_add_up 1 review_env). reflexivity.
Defined.

(** ** The operator identity *)

Lemma is_admin_true user_id env :
  is_admin user_id env = true <-> ADMIN_CHAT_ID env = Some (pretty user_id).
Proof.
  unfold is_admin. destruct (ADMIN_CHAT_ID env) as [a|].
  - rewrite String.eqb_eq. split; [intros ->; reflexivity|intros [= ->]; reflexivity].
  - split; discriminate.
Qed.

(** X11. The operator is the one user whose id, written in decimal, is
    the configured [ADMIN_CHAT_ID]: no two ids pass the check, and none
    passes when the variable is unset. For every other user the
    statistics and broadcast commands answer that they are for the
    operator only and perform no file operation. *)
Theorem operator_only user_id env :
  (forall other, is_admin user_id env = true -> is_admin other env = true ->
                 other = user_id) /\
  (ADMIN_CHAT_ID env = None -> is_admin user_id env = false) /\
  (is_admin user_id env = false ->
   forall d args delivers,
     stats_command user_id env d = (Some AdminOnly, d) /\
     broadcast_command user_id env args delivers d = ([AdminOnly], d)).
Proof.
  split; [|split].
  - intros other H1 H2. apply is_admin_true in H1, H2.
    rewrite H1 in H2. injection H2 as H2. symmetry. exact (pretty_Z_inj _ _ H2).
  - intros H. unfold is_admin. rewrite H. reflexivity.
  - intros H d args delivers. unfold stats_command, broadcast_command.
    rewrite H. split; reflexivity.
Qed.

Lemma operator_only_witness :
  is_admin 2 review_env = false /\
  stats_command 2 review_env submitted_disk = (Some AdminOnly, submitted_disk).
Proof.
  split; [reflexivity|].
  apply (proj2 (proj2 (operator_only 2 review_env)) eq_refl submitted_disk []
           (fun _ => true)).
Defined.

(** ** Broadcast *)

Lemma recipients_cons i user users :
  recipients i (user :: users) =
  if truthy_id (User.chat_id user)
  then (i, user) :: recipients (S i) users
  else recipients (S i) users.
Proof. reflexivity. Qed.

Lemma numbered_positions users : forall i j user,
  In (j, user) (numbered i users) ->
  i <= j /\ nth_error users (j - i) = Some user.
Proof.
  induction users as [|u users IH]; intros i j user Hin; [destruct Hin|].
  destruct Hin as [[= <- <-]|Hin].
  - split; [lia|]. rewrite Nat.sub_diag. reflexivity.
  - destruct (IH _ _ _ Hin) as [Hle Hnth]. split; [lia|].
    replace (j - i) with (S (j - S i)) by lia. exact Hnth.
Qed.

Lemma numbered_users users : forall i, map snd (numbered i users) = users.
Proof.
  induction users as [|u users IH]; intros i; [reflexivity|].
  simpl. rewrite IH. reflexivity.
Qed.

Lemma recipients_users users : forall i,
  map snd (recipients i users) =
  List.filter (fun user => truthy_id (User.chat_id user)) users.
Proof.
  induction users as [|u users IH]; intros i; [reflexivity|].
  rewrite recipients_cons. cbn [List.filter].
  destruct (truthy_id (User.chat_id u)); cbn [map snd]; rewrite IH; reflexivity.
Qed.

Lemma filter_split_length {A : Type} (f : A -> bool) (l : list A) :
  length (List.filter f l) + length (List.filter (fun x => negb (f x)) l) =
  length l.
Proof.
  induction l as [|x l IH]; [reflexivity|]. simpl.
  destruct (f x); simpl; lia.
Qed.

(** X12. A broadcast by the operator writes once to every user that has
    a chat id, in the order of the user file, and to nobody else; each
    announcement carries the arguments joined by spaces. The numbers of
    successful and failed sends are the numbers of recipients to whom
    the send succeeded and failed, so they add up to the number of users
    with a chat id, and the reported total is the number of users in the
    file, which is read once and not written. Without arguments only the
    usage text is sent and no file is read. *)
Theorem broadcast_accounts user_id env args delivers d :
  is_admin user_id env = true ->
  (args = [] ->
   broadcast_command user_id env args delivers d = ([BroadcastUsage], d)) /\
  (args <> [] ->
   let to := recipients 0 (users_json d) in
   let successful :=
     length (List.filter (fun entry => delivers (fst entry)) to) in
   let failed :=
     length (List.filter (fun entry => negb (delivers (fst entry))) to) in
   broadcast_command user_id env args delivers d =
     (map (fun entry =>
             Announcement (default 0%Z (User.chat_id (snd entry)))
               (Py.join " " args)) to ++
      [BroadcastResults successful failed (length (users_json d))],
      log (Load USERS_FILE) d) /\
   map snd to =
     List.filter (fun user => truthy_id (User.chat_id user)) (users_json d) /\
   (forall i user,
      In (i, user) to ->
      nth_error (users_json d) i = Some user /\
      exists chat_id, User.chat_id user = Some chat_id /\ chat_id <> 0%Z) /\
   successful + failed =
     length (List.filter (fun user => truthy_id (User.chat_id user))
               (users_json d))).
Proof.
  intros Hadmin. split.
  { intros ->. unfold broadcast_command. rewrite Hadmin. reflexivity. }
  intros Hne to successful failed. destruct args as [|a args]; [congruence|].
  assert (Hloop : forall message users i,
    broadcast_loop message delivers i users =
    (map (fun entry =>
            Announcement (default 0%Z (User.chat_id (snd entry))) message)
       (recipients i users),
     length (List.filter (fun entry => delivers (fst entry))
               (recipients i users)),
     length (List.filter (fun entry => negb (delivers (fst entry)))
               (recipients i users)))).
  { intros message users. induction users as [|u users IH]; intros i;
      [reflexivity|].
    cbn [broadcast_loop]. rewrite (IH (S i)), recipients_cons.
    unfold truthy_id. destruct (User.chat_id u) as [c|] eqn:Hu; [|reflexivity].
    destruct (Z.eqb c 0); cbn [negb]; [reflexivity|].
    cbn [map List.filter fst snd]. rewrite Hu. cbn [default from_option id].
    destruct (delivers i); reflexivity. }
  split; [|split; [|split]].
  - unfold broadcast_command. rewrite Hadmin. cbn [negb]. io_unfold.
    rewrite Hloop. reflexivity.
  - apply recipients_users.
  - intros i user Hin. unfold to, recipients in Hin.
    apply filter_In in Hin as [Hin Hchat]. cbn [snd] in Hchat.
    apply numbered_positions in Hin as [_ Hnth].
    rewrite Nat.sub_0_r in Hnth. split; [exact Hnth|].
    unfold truthy_id in Hchat. destruct (User.chat_id user) as [c|];
      [|discriminate].
    exists c. split; [reflexivity|]. apply negb_true_iff, Z.eqb_neq in Hchat.
    exact Hchat.
  - subst successful failed. rewrite filter_split_length.
    rewrite <- (recipients_users (users_json d) 0), length_map. reflexivity.
Qed.

(** Three users, the second without a chat id; the send to the third
    fails. *)
Lemma broadcast_accounts_witness :
  is_admin 1 review_env = true /\
  broadcast_command 1 review_env ["hello"; "all"]
    (fun i => negb (Nat.eqb i 2))
    (mkDisk [User.mk "a@b.com" "pw" "A" (Some 11%Z) (isoformat noon);
             User.mk "c@d.com" "pw" "C" None (isoformat noon);
             User.mk "e@f.com" "pw" "E" (Some 13%Z) (isoformat noon)] [] []) =
  ([Announcement 11 "hello all"; Announcement 13 "hello all";
    BroadcastResults 1 1 3],
   mkDisk [User.mk "a@b.com" "pw" "A" (Some 11%Z) (isoformat noon);
           User.mk "c@d.com" "pw" "C" None (isoformat noon);
           User.mk "e@f.com" "pw" "E" (Some 13%Z) (isoformat noon)] []
     [Load USERS_FILE]).
Proof.
  split; [reflexivity|].
  apply (proj2 (broadcast_accounts 1 review_env ["hello"; "all"]
                  (fun i => negb (Nat.eqb i 2))
                  (mkDisk [User.mk "a@b.com" "pw" "A" (Some 11%Z) (isoformat noon);
                           User.mk "c@d.com" "pw" "C" None (isoformat noon);
                           User.mk "e@f.com" "pw" "E" (Some 13%Z) (isoformat noon)]
                     [] [])
                  eq_refl)).
  discriminate.
Defined.

(** ** The decision keyboards *)

Lemma reason_rows_data email app mobile b :
  In b (concat (reason_rows email app mobile)) ->
  exists reason_id text,
    REJECTION_REASONS !! reason_id = Some text /\
    Py.has_char "_" reason_id = false /\
    reason_id <> "nt" /\
    String.length reason_id = 2 /\
    callback_data b = reason_data reason_id email app mobile.
Proof.
  unfold reason_rows, rejection_reasons. simpl.
  intros [<-|[<-|[<-|[<-|[<-|[]]]]]]; simpl;
    [exists "77"|exists "78"|exists "79"|exists "80"|exists "81"];
    eexists; (split; [reflexivity|]); (split; [reflexivity|]);
    (split; [discriminate|split; reflexivity]).
Qed.

Lemma reason_data_inj_id r1 r2 email app mobile :
  String.length r1 = 2 -> String.length r2 = 2 ->
  reason_data r1 email app mobile = reason_data r2 email app mobile ->
  r1 = r2.
Proof.
  intros H1 H2 H.
  destruct r1 as [|a1 [|b1 [|? ?]]]; try discriminate.
  destruct r2 as [|a2 [|b2 [|? ?]]]; try discriminate.
  cbv in H. injection H as -> ->. reflexivity.
Qed.

(** X13. On the keyboard posted with a request the "Non Trade Approved"
    button is present exactly when the app is [angelone]; every other
    button carries the approve data, the reject data, or the data of a
    reason whose code is a key of the reason catalog and has no
    underscore. The reason menu of [admin_reject] offers the same reason
    buttons, so a decision made through the buttons never shows an
    unknown reason. *)
Theorem keyboard_buttons email app mobile :
  (In (reason_data "nt" email app mobile)
      (map callback_data (concat (review_keyboard email app mobile))) <->
   app = "angelone") /\
  (forall b, In b (concat (review_keyboard email app mobile)) ->
     callback_data b = approve_data email app mobile \/
     callback_data b = reject_data email app mobile \/
     exists reason_id text,
       REJECTION_REASONS !! reason_id = Some text /\
       Py.has_char "_" reason_id = false /\
       callback_data b = reason_data reason_id email app mobile /\
       dict_get REJECTION_REASONS reason_id "Unknown reason" = text) /\
  (forall data p0 d,
     Py.split "_" data = [p0; email; app; mobile] ->
     admin_reject data d =
       ([EditMessage
           (SelectReason app
              (non_trade_row email app mobile ++ reason_rows email app mobile))],
        d)).
Proof.
  split; [|split].
  - unfold review_keyboard. rewrite !concat_app, !map_app, !in_app_iff.
    unfold non_trade_row.
    destruct (String.eqb_spec app "angelone") as [->|Hne].
    + split; [reflexivity|]. intros _. left. left. reflexivity.
    + split; [|congruence]. simpl concat at 1 2. simpl map at 1 2.
      intros [[]|[[H|[H|[]]]|H]].
      * cbv in H. discriminate.
      * cbv in H. discriminate.
      * apply in_map_iff in H as (b & Hb & Hin).
        apply reason_rows_data in Hin as (rid & text & _ & _ & Hnt & Hlen & Hd).
        rewrite Hd in Hb.
        apply reason_data_inj_id in Hb; [congruence|exact Hlen|reflexivity].
  - intros b. unfold review_keyboard. rewrite !concat_app, !in_app_iff.
    intros [H|[H|H]].
    + unfold non_trade_row in H. destruct (String.eqb app "angelone");
        [|destruct H]. destruct H as [<-|[]].
      right. right. exists "nt". eexists. repeat split; reflexivity.
    + destruct H as [<-|[<-|[]]]; auto.
    + apply reason_rows_data in H as (rid & text & Hcat & Hplain & _ & _ & Hd).
      right. right. exists rid, text. repeat split; auto.
      unfold dict_get. rewrite Hcat. reflexivity.
  - intros data p0 d Hs. unfold admin_reject. rewrite Hs. reflexivity.
Qed.

Lemma keyboard_buttons_witness :
  In (mkButton "Fraud Detected" (reason_data "79" "a@b.com" "upstox" "9876543210"))
     (concat (review_keyboard "a@b.com" "upstox" "9876543210")) /\
  (callback_data
     (mkButton "Fraud Detected" (reason_data "79" "a@b.com" "upstox" "9876543210"))
     = approve_data "a@b.com" "upstox" "9876543210" \/
   callback_data
     (mkButton "Fraud Detected" (reason_data "79" "a@b.com" "upstox" "9876543210"))
     = reject_data "a@b.com" "upstox" "9876543210" \/
   exists reason_id text,
     REJECTION_REASONS !! reason_id = Some text /\
     Py.has_char "_" reason_id = false /\
     callback_data
       (mkButton "Fraud Detected"
          (reason_data "79" "a@b.com" "upstox" "9876543210")) =
       reason_data reason_id "a@b.com" "upstox" "9876543210" /\
     dict_get REJECTION_REASONS reason_id "Unknown reason" = text).
Proof.
  assert (H : In (mkButton "Fraud Detected"
                    (reason_data "79" "a@b.com" "upstox" "9876543210"))
                 (concat (review_keyboard "a@b.com" "upstox" "9876543210"))).
  { simpl. right. right. right. right. left. reflexivity. }
  split; [exact H|].
  exact (proj1 (proj2 (keyboard_buttons "a@b.com" "upstox" "9876543210")) _ H).
Defined.

(** ** Choosing an app *)

Lemma remove_str_absent old s :
  Py.contains old s = false -> Py.remove_str_go old 0 s = s.
Proof.
  induction s as [|c s IH]; [reflexivity|].
  intros H. cbn [Py.contains] in H. apply orb_false_iff in H as [Hp Hs].
  cbn [Py.remove_str_go]. rewrite Hp, (IH Hs). reflexivity.
Qed.

Lemma remove_app_prefix app :
  Py.contains "app_" app = false -> Py.remove_str "app_" ("app_" +:+ app) = app.
Proof.
  intros H. unfold Py.remove_str.
  change ("app_" +:+ app) with
    (String "a" (String "p" (String "p" (String "_" app)))).
  cbn [Py.remove_str_go Py.is_prefix Ascii.eqb Bool.eqb andb String.length
       Nat.sub].
  apply remove_str_absent, H.
Qed.

Lemma read_apps_lowered app_file app :
  In app (read_apps app_file) -> Py.lower app = app.
Proof.
  unfold read_apps. destruct app_file as [lines|]; [|intros []].
  rewrite in_map_iff. intros (line & <- & _). apply lower_idem.
Qed.

(** X14. The app menu and the selection fit together: for every catalog
    app that does not contain the text [app_], the menu of
    [send_activation_proof] has a button whose data, handed to
    [app_selected], stores exactly that app (a non-empty one) in the
    session and moves to [ACTIVATION_PROOF]; in general the stored app
    is the catalog app with every [app_] removed. With an empty or
    missing catalog the menu is not shown and the state stays
    [MAIN_MENU]. *)
Theorem app_button_selects_app app_file ud :
  (read_apps app_file = [] ->
   send_activation_proof "proof" ud app_file = (MAIN_MENU, [NoAppsAvailable])) /\
  (forall app,
     In app (read_apps app_file) ->
     (exists keyboard,
        send_activation_proof "proof" ud app_file =
          (APP_SELECTION, [AppMenu keyboard]) /\
        In [mkButton app ("app_" +:+ app)] keyboard) /\
     UserData.selected_app (snd (fst (app_selected ("app_" +:+ app) ud))) =
       Some (Py.lower (Py.remove_str "app_" ("app_" +:+ app))) /\
     (Py.contains "app_" app = false ->
      app <> EmptyString /\
      app_selected ("app_" +:+ app) ud =
        (ACTIVATION_PROOF,
         UserData.mk (UserData.email ud) (UserData.name ud) (Some app),
         [AskForProof app
            (if str_in app SCREENSHOT_APPS then "screenshot or video"
             else "video")]))).
Proof.
  split.
  - intros H. unfold send_activation_proof. simpl. rewrite H. reflexivity.
  - intros app Hin. split; [|split].
    + destruct (read_apps app_file) as [|a apps] eqn:Happs; [destruct Hin|].
      exists (map (fun app => [mkButton app ("app_" +:+ app)]) (a :: apps) ++
              [[mkButton "Back" "back"]]).
      split; [unfold send_activation_proof; rewrite Happs; reflexivity|].
      apply in_or_app. left.
      apply (in_map (fun app => [mkButton app ("app_" +:+ app)])) in Hin.
      exact Hin.
    + reflexivity.
    + intros Hc. split; [eapply read_apps_nonempty; eauto|].
      unfold app_selected.
      rewrite (remove_app_prefix _ Hc), (read_apps_lowered _ _ Hin).
      reflexivity.
Qed.

Lemma app_button_selects_app_witness :
  In "upstox" (read_apps (Some [" Upstox "; ""; "angelone"])) /\
  Py.contains "app_" "upstox" = false /\
  app_selected ("app_" +:+ "upstox") no_session =
    (ACTIVATION_PROOF, UserData.mk None None (Some "upstox"),
     [AskForProof "upstox" "video"]).
Proof.
  assert (H : In "upstox" (read_apps (Some [" Upstox "; ""; "angelone"])))
    by (left; reflexivity).
  split; [exact H|]. split; [reflexivity|].
  apply (proj2 (proj2 (proj2 (app_button_selects_app
                                (Some [" Upstox "; ""; "angelone"]) no_session)
                         "upstox" H)) eq_refl).
Defined.

(** ** Stripping is idempotent *)

Lemma rstrip_idem s : Py.rstrip (Py.rstrip s) = Py.rstrip s.
Proof.
  induction s as [|c s IH]; [reflexivity|]. cbn [Py.rstrip].
  destruct (Py.rstrip s) as [|b r] eqn:Hr.
  - destruct (Py.isspace c) eqn:Hc; [reflexivity|].
    cbn [Py.rstrip]. rewrite Hc. reflexivity.
  - cbn [Py.rstrip] in *. rewrite IH. reflexivity.
Qed.

Lemma lstrip_head s :
  Py.lstrip s = EmptyString \/
  exists c r, Py.lstrip s = String c r /\ Py.isspace c = false.
Proof.
  induction s as [|c s IH]; simpl; [auto|].
  destruct (Py.isspace c) eqn:Hc; [exact IH|]. right. eauto.
Qed.

Lemma rstrip_head c r :
  Py.isspace c = false ->
  exists r', Py.rstrip (String c r) = String c r'.
Proof.
  intros Hc. cbn [Py.rstrip]. destruct (Py.rstrip r); [|eauto].
  rewrite Hc. eauto.
Qed.

Lemma strip_idem s : Py.strip (Py.strip s) = Py.strip s.
Proof.
  unfold Py.strip.
  destruct (lstrip_head s) as [->|(c & r & -> & Hc)]; [reflexivity|].
  destruct (rstrip_head c r Hc) as [r' Hr]. rewrite Hr at 1.
  cbn [Py.lstrip]. rewrite Hc, <- Hr. apply rstrip_idem.
Qed.

Lemma strip_nonempty s : Py.nonempty (Py.strip s) = true -> Py.strip s <> EmptyString.
Proof. apply PyFacts.nonempty_true. Qed.

(** ** Registration followed by login *)

Lemma fill_chat_id_absent email chat_id users :
  existsb (same_email email) users = false ->
  fill_chat_id email chat_id users = None.
Proof.
  intros H. apply fill_chat_id_None. intros user Hin Hu.
  assert (Hex : existsb (same_email email) users = true)
    by (apply existsb_exists; eauto).
  congruence.
Qed.

Lemma bind_chat_new email chat users user :
  existsb (same_email email) users = false ->
  User.email user = Py.lower email ->
  bind_chat (Py.lower email) chat (users ++ [user]) =
  Some (users ++ [with_chat_id (Some chat) user]).
Proof.
  intros Hnew Hu. apply bind_chat_first; [|exact Hu].
  intros u Hin Heq.
  assert (Hex : existsb (same_email email) users = true).
  { apply existsb_exists. exists u. split; [exact Hin|].
    unfold same_email. rewrite Heq, lower_idem. apply String.eqb_refl. }
  congruence.
Qed.

(** X15. A user registered by [add_user] under an email that was not in
    the directory can log in: with the registered email entered in any
    case and with surrounding whitespace, in a form [email_input]
    accepts, and the registered password entered, [password_input]
    reaches the main menu; if the user was registered without a chat id
    the chat of the login is stored, otherwise the registered one is
    kept. This needs the stored password to be free of surrounding
    whitespace: the entered password is stripped, so a password stored
    with such whitespace is refused whatever is entered. *)
Theorem registered_user_logs_in
    email password name chat_id now d email_text password_text chat ud :
  existsb (same_email email) (users_json d) = false ->
  fst (fst (email_input email_text ud)) = PASSWORD ->
  Py.lower (Py.strip email_text) = Py.lower email ->
  let d1 := exec (add_user email password name chat_id now) d in
  let ud1 := snd (fst (email_input email_text ud)) in
  let result := run (password_input password_text chat ud1) d1 in
  let d2 := exec (password_input password_text chat ud1) d1 in
  (Py.strip password_text = password ->
   result = Some (logged_in ud1 (mkInfo name password chat_id)) /\
   users_json d2 =
     users_json d ++
     [User.mk (Py.lower email) password name
        (if truthy_id chat_id then chat_id else Some chat) (isoformat now)]) /\
  (Py.strip password <> password ->
   result = Some (refused ud1) /\ users_json d2 = users_json d1).
Proof.
  intros Hnew Hvalid Hci d1 ud1 result d2.
  destruct (email_input_accepted _ _ Hvalid) as [_ Hsession].
  fold ud1 in Hsession. rewrite Hci in Hsession.
  assert (Hd1 : users_json d1 =
            users_json d ++
            [User.mk (Py.lower email) password name chat_id (isoformat now)]).
  { subst d1. unfold exec. rewrite add_user_run, Hnew. reflexivity. }
  assert (Hdict : emails_dict (users_json d1) !! Py.lower email =
                  Some (mkInfo name password chat_id)).
  { rewrite Hd1, emails_dict_snoc. apply lookup_insert_eq. }
  split.
  - intros Hp.
    destruct (password_input_accepted password_text chat ud1 d1 (Py.lower email)
                Hsession _ Hdict (eq_sym Hp)) as (Hres & _ & Husers).
    split; [exact Hres|]. fold d2 in Husers. rewrite Husers.
    cbn [info_chat_id]. destruct (truthy_id chat_id) eqn:Hc.
    + exact Hd1.
    + rewrite Hd1.
      rewrite (bind_chat_new email chat (users_json d)
                 (User.mk (Py.lower email) password name chat_id (isoformat now))
                 Hnew eq_refl).
      reflexivity.
  - intros Hp. subst result d2. unfold run, exec.
    rewrite (password_input_refused password_text chat ud1 d1 (Py.lower email)
               Hsession); [auto|].
    intros info Hi Hpw. rewrite Hdict in Hi. injection Hi as <-.
    cbn [info_password] in Hpw. apply Hp. rewrite Hpw. apply strip_idem.
Qed.

Lemma registered_user_logs_in_witness :
  existsb (same_email "Asha@Mail.org") (users_json empty_disk) = false /\
  fst (fst (email_input " ASHA@mail.org" no_session)) = PASSWORD /\
  run (password_input "secret " 42
         (snd (fst (email_input " ASHA@mail.org" no_session))))
    (exec (add_user "Asha@Mail.org" "secret" "Asha" None noon) empty_disk) =
  Some (logged_in (snd (fst (email_input " ASHA@mail.org" no_session)))
          (mkInfo "Asha" "secret" None)).
Proof.
  split; [reflexivity|]. split; [reflexivity|].
  apply (proj1 (registered_user_logs_in "Asha@Mail.org" "secret" "Asha" None noon
                  empty_disk " ASHA@mail.org" "secret " 42 no_session
                  eq_refl eq_refl eq_refl)).
  reflexivity.
Defined.

(** ** Bulk registration by the operator *)

Lemma add_user_no_chat email password name now d :
  add_user email password name None now d =
  if existsb (same_email email) (users_json d) then
    (AlreadyExists, log (Load USERS_FILE) d)
  else
    (Created,
     mkDisk (users_json d ++
             [User.mk (Py.lower email) password name None (isoformat now)])
       (activations_json d)
       ((trace d ++ [Load USERS_FILE]) ++ [Save USERS_FILE])).
Proof.
  rewrite add_user_run.
  destruct (existsb (same_email email) (users_json d)); [|reflexivity].
  assert (H : fill_chat_id email None (users_json d) = None).
  { induction (users_json d) as [|u us IH]; simpl; [reflexivity|].
    rewrite andb_false_r, IH. reflexivity. }
  rewrite H. reflexivity.
Qed.

Lemma entry_parts_In entry x :
  In x (entry_parts entry) -> x <> EmptyString /\ Py.strip x = x.
Proof.
  unfold entry_parts. rewrite in_map_iff. intros (p & <- & Hin).
  apply filter_In in Hin as [_ Hne].
  split; [apply PyFacts.nonempty_true, Hne|apply strip_idem].
Qed.

Lemma join_nonempty sep part parts :
  part <> EmptyString -> Py.join sep (part :: parts) <> EmptyString.
Proof.
  intros Hne. destruct part as [|c part]; [congruence|].
  destruct parts; simpl; [discriminate|].
  rewrite PyFacts.append_cons. discriminate.
Qed.

Lemma add_entries_valid entry rest nows i d email password name1 names :
  entry_parts entry = email :: password :: name1 :: names ->
  add_entries (entry :: rest) nows i d =
  let r := add_user email password (Py.join " " (name1 :: names)) None (nows i) d in
  let rs := add_entries rest nows (S i) (snd r) in
  (AddUserResult (fst (fst r)) (snd (fst r)) email :: fst rs, snd rs).
Proof.
  intros H. cbn [add_entries]. rewrite H. io_unfold.
  destruct (add_user _ _ _ _ _ d) as [[b m] d1]. cbn [fst snd].
  destruct (add_entries rest nows (S i) d1) as [rs d2]. reflexivity.
Qed.

Lemma add_entries_invalid entry rest nows i d :
  length (entry_parts entry) < 3 ->
  add_entries (entry :: rest) nows i d =
  let rs := add_entries rest nows (S i) d in
  (InvalidFormat (Py.take 30 entry) :: fst rs, snd rs).
Proof.
  intros H. cbn [add_entries].
  destruct (entry_parts entry) as [|e [|p [|n1 names]]]; simpl in H; try lia;
    io_unfold; destruct (add_entries rest nows (S i) d) as [rs d2];
    reflexivity.
Qed.

Lemma add_entries_spec entries nows : forall i d,
  activations_json (exec (add_entries entries nows i) d) = activations_json d /\
  length (run (add_entries entries nows i) d) = length entries /\
  (exists added,
     users_json (exec (add_entries entries nows i) d) = users_json d ++ added /\
     Forall added_by_handler added) /\
  (directory_ok (users_json d) ->
   directory_ok (users_json (exec (add_entries entries nows i) d))).
Proof.
  induction entries as [|entry rest IH]; intros i d.
  - unfold exec, run. simpl. split; [reflexivity|]. split; [reflexivity|].
    split; [|auto]. exists []. rewrite app_nil_r.
    split; [reflexivity|constructor].
  - destruct (entry_parts entry) as [|e [|p [|n1 names]]] eqn:Hparts.
    1-3: unfold exec, run; rewrite add_entries_invalid
           by (rewrite Hparts; simpl; lia);
         cbv zeta; cbn [fst snd];
         destruct (IH (S i) d) as (Ha & Hl & Hadd & Hdir);
         unfold exec, run in *; (split; [exact Ha|]);
         (split; [simpl; rewrite Hl; reflexivity|]);
         (split; [exact Hadd|exact Hdir]).
    unfold exec, run. rewrite (add_entries_valid _ _ _ _ _ _ _ _ _ Hparts).
    cbv zeta. cbn [fst snd].
    set (name := Py.join " " (n1 :: names)).
    set (d1 := snd (add_user e p name None (nows i) d)).
    destruct (IH (S i) d1) as (Ha & Hl & (added & Hadd & Hok) & Hdir).
    unfold exec, run in *.
    assert (Hparts_ok : forall x, In x (e :: p :: n1 :: names) ->
                                  x <> EmptyString /\ Py.strip x = x).
    { intros x Hx. apply (entry_parts_In entry). rewrite Hparts. exact Hx. }
    destruct (Hparts_ok e) as [He _]; [simpl; auto|].
    destruct (Hparts_ok p) as [Hp Hps]; [simpl; auto|].
    destruct (Hparts_ok n1) as [Hn _]; [simpl; auto|].
    assert (Hd1 : activations_json d1 = activations_json d /\
              (users_json d1 = users_json d \/
               users_json d1 =
                 users_json d ++ [User.mk (Py.lower e) p name None
                                    (isoformat (nows i))])).
    { subst d1. rewrite add_user_no_chat.
      destruct (existsb (same_email e) (users_json d)); simpl; auto. }
    destruct Hd1 as [Hacts Husers].
    split; [rewrite Ha; exact Hacts|].
    split; [simpl; rewrite Hl; reflexivity|]. split.
    + destruct Husers as [Hu|Hu].
      * exists added. rewrite Hadd, Hu. auto.
      * exists (User.mk (Py.lower e) p name None (isoformat (nows i)) :: added).
        rewrite Hadd, Hu, <- app_assoc. split; [reflexivity|].
        constructor; [|exact Hok].
        unfold added_by_handler. simpl. repeat split; auto.
        -- apply PyFacts.nonempty_true. rewrite PyFacts.lower_nonempty.
           apply PyFacts.nonempty_true, He.
        -- apply lower_idem.
        -- apply join_nonempty, Hn.
    + intros Hdok. apply Hdir. subst d1.
      apply (add_user_keeps_directory e p name None (nows i) d Hdok).
Qed.

(** X16. Bulk registration never changes a stored user or the ledger:
    after [add_user_handler] the user file is the old one followed by
    the users it added, each without a chat id, with a non-empty
    lower-case email, a non-empty password without surrounding
    whitespace and a non-empty name; a directory with unique lower-case
    emails stays so; and the handler stays in [ADD_USER]. A blank message
    performs no file operation. *)
Theorem bulk_registration text nows d :
  let d' := exec (add_user_handler text nows) d in
  fst (run (add_user_handler text nows) d) = ADD_USER /\
  activations_json d' = activations_json d /\
  (exists added,
     users_json d' = users_json d ++ added /\ Forall added_by_handler added) /\
  (directory_ok (users_json d) -> directory_ok (users_json d')) /\
  (Py.strip text = EmptyString ->
   add_user_handler text nows d = ((ADD_USER, [ProvideValidDetails]), d)).
Proof.
  intros d'. subst d'. unfold add_user_handler, run, exec.
  destruct (Py.strip text) as [|c t] eqn:Ht.
  - simpl. split; [reflexivity|]. split; [reflexivity|].
    split; [|auto]. exists []. rewrite app_nil_r.
    split; [reflexivity|constructor].
  - cbn [Py.nonempty negb]. io_unfold.
    match goal with
    | |- context [add_entries ?es nows 0 d] =>
        destruct (add_entries_spec es nows 0 d) as (Ha & _ & Hadd & Hdir);
        unfold exec, run in *;
        destruct (add_entries es nows 0 d) as [results d1]
    end.
    cbn [fst snd] in *. split; [reflexivity|]. split; [exact Ha|].
    split; [exact Hadd|]. split; [exact Hdir|]. intros H. discriminate.
Qed.

Lemma bulk_registration_witness :
  directory_ok (users_json registered) /\
  directory_ok
    (users_json
       (exec (add_user_handler
                ("A@B.com" +:+ String "010" ("pw" +:+ String "010" "Name"))
                (fun _ => noon)) registered)).
Proof.
  assert (Hok : directory_ok (users_json registered)).
  { split; repeat constructor. intros []. }
  split; [exact Hok|].
  apply (proj1 (proj2 (proj2 (proj2
           (bulk_registration
              ("A@B.com" +:+ String "010" ("pw" +:+ String "010" "Name"))
              (fun _ => noon) registered)))) Hok).
Defined.

(** ** The directory stays in order *)

(** X17. The directory invariant (emails stored in lower case, no two
    records with the same email up to case) holds of the empty user file
    and is kept by [add_user] and by [password_input], whatever their
    arguments; so no registration can create a second record for an
    email that differs only in case. *)
Theorem directory_kept d :
  directory_ok (users_json d) ->
  (forall email password name chat_id now,
     directory_ok
       (users_json (exec (add_user email password name chat_id now) d))) /\
  (forall text chat ud,
     directory_ok (users_json (exec (password_input text chat ud) d))) /\
  (forall email password name chat_id now user,
     In user (users_json d) -> same_email email user = true ->
     length (users_json (exec (add_user email password name chat_id now) d)) =
     length (users_json d)).
Proof.
  intros Hok. split; [|split].
  - intros. apply add_user_keeps_directory, Hok.
  - intros. apply password_input_keeps_directory, Hok.
  - intros email password name chat_id now user Hin Hu.
    unfold exec. rewrite add_user_run.
    assert (Hex : existsb (same_email email) (users_json d) = true)
      by (apply existsb_exists; eauto).
    rewrite Hex.
    destruct (fill_chat_id email chat_id (users_json d)) as [users'|] eqn:Hf;
      [|reflexivity].
    cbn [snd users_json].
    apply fill_chat_id_emails in Hf.
    rewrite <- (length_map User.email users'), Hf, length_map. reflexivity.
Qed.

Lemma directory_kept_witness :
  directory_ok (users_json registered) /\
  directory_ok
    (users_json (exec (add_user "A@B.COM" "other" "Other" (Some 9%Z) evening)
                   registered)).
Proof.
  assert (Hok : directory_ok (users_json registered)).
  { split; repeat constructor. intros []. }
  split; [exact Hok|].
  apply (proj1 (directory_kept registered Hok)).
Defined.

(** ** The kind of media *)

(** X18. With an app selected, a message without video is turned away
    when the app is not a screenshot app or the message has no photo
    either: the handler asks for the right media, stays in
    [ACTIVATION_PROOF] and performs no file operation, whatever the
    caption. A photo is accepted only for a screenshot app, where it is
    preferred to a video and its last size is taken; everywhere else the
    video is taken. *)
Theorem media_rule msg ud env delivery now d app :
  UserData.selected_app ud = Some app -> app <> EmptyString ->
  (video msg = None ->
   str_in app SCREENSHOT_APPS = false \/ photo msg = [] ->
   process_activation_proof msg ud env delivery now d =
     ((ACTIVATION_PROOF,
       [ReplyText (if str_in app SCREENSHOT_APPS
                   then SendScreenshotOrVideo app else SendVideo app)]), d)) /\
  (forall kind file_id,
     check_media app msg = inr (kind, file_id) ->
     (kind = Photo /\ str_in app SCREENSHOT_APPS = true /\
      last (photo msg) = Some file_id) \/
     (kind = Video /\ video msg = Some file_id /\
      (str_in app SCREENSHOT_APPS = false \/ photo msg = []))).
Proof.
  intros Ha Hne. split.
  - intros Hv Hwhy.
    apply (bad_media_submission msg ud env delivery now d app); auto.
    unfold check_media. rewrite Hv.
    destruct (str_in app SCREENSHOT_APPS); [|reflexivity].
    destruct Hwhy as [Hw|Hw]; [discriminate|]. rewrite Hw. reflexivity.
  - intros kind file_id. unfold check_media.
    destruct (str_in app SCREENSHOT_APPS).
    + destruct (last (photo msg)) as [f|] eqn:Hl.
      * intros [= <- <-]. left. auto.
      * destruct (video msg) as [f|]; [|discriminate].
        intros [= <- <-]. right. repeat split. right.
        destruct (photo msg) as [|x l] using rev_ind; [reflexivity|].
        rewrite last_snoc in Hl. discriminate.
    + destruct (video msg) as [f|]; [|discriminate].
      intros [= <- <-]. right. auto.
Qed.

Lemma media_rule_witness :
  UserData.selected_app upstox_session = Some "upstox" /\
  process_activation_proof (mkMessage ["photo-1"] None (Some "9876543210"))
    upstox_session review_env (Delivered 7) noon empty_disk =
    ((ACTIVATION_PROOF, [ReplyText (SendVideo "upstox")]), empty_disk).
Proof.
  split; [reflexivity|].
  apply (proj1 (media_rule (mkMessage ["photo-1"] None (Some "9876543210"))
                  upstox_session review_env (Delivered 7) noon empty_disk
                  "upstox" eq_refl ltac:(discriminate))).
  - reflexivity.
  - left. reflexivity.
Defined.
